(** * sacc2: covariance variants and the data-set engine

    A shallow embedding of [sacc2/covariance.py] and of the building,
    selection, reading, ordering and mutation methods of [sacc2/sacc.py],
    with the properties of the data-set specification checked against it,
    followed by further properties of the two modules.

    Conventions of the embedding.

    - Python exceptions are values: a computation returns [Ok a] or
      [Raise e].  A method of [Sacc] is a function from the object to the
      object after the call together with such a result, so that what a
      method has already assigned to [self] when an exception leaves it stays
      assigned, as in Python.
    - Covariance entries, data values and numeric tags are float64 in the
      source.  They are only stored, copied and compared, never computed
      with, and every finite float64 is a rational number: they are modelled
      as [Q] (NaN and the infinities are left out).
    - The function bodies are modelled as written, in a module namespace
      where [np] is NumPy, [scipy.linalg] is SciPy's and the three covariance
      classes exist.  (As it stands [covariance.py] does not import NumPy,
      and the class statement of [DiagonalCovariance] lacks its colon, so
      the module does not even load; the embedding reads the file with
      these two repaired, since the properties are about what the methods
      do.)  A name that no scope of the function binds raises [NameError]
      when the statement using it runs, an attribute that the object does
      not have raises [AttributeError].
    - NumPy and SciPy: [np.bool] is the boolean type and a boolean index
      must have the length of the axis it indexes.  One call depends on the
      versions, [block_diag] handed a Python list of blocks as a single
      argument, in the last branch of [BlockDiagonalCovariance.masked]: the
      embedding follows NumPy 1.24 and later, where arrays of different
      shapes make no array, and SciPy before 1.16, where [block_diag]
      refuses more than two dimensions.  With other versions that call
      can return, and [masked] then gives a dense covariance with one row
      and one column per index given.
    - A float is a rational number, so no tag is NaN or infinite.  With a
      NaN among the [ell] or [theta] tags [<] does not order the sort keys,
      and what the sort of [to_canonical_order] leaves is not determined by
      them; the properties of the canonical order are about data sets
      whose floats are numbers.
    - [warnings.warn] has no effect on the objects modelled and is left
      out; the text of an error message built from run-time values is
      shortened to its fixed part.
    - [hash] on strings is a parameter of [to_canonical_order]; the
      two-point helpers are modelled for the calls that pass no [window].
    - Left out: the FITS files of [save] and [load] and the table unit of
      the diagonal class (astropy), [add_tracer], [get_tracer_combinations]
      and the tracer and window parts of [Sacc.to_dict] (they call
      [tracers.py], [windows.py] and [utils.py]), [get_data_types] (the
      order of a set), and the setter of [mean], which assigns to the
      record objects, of which [reorder] may have put one at two
      positions. *)

From Stdlib Require Import ZArith QArith String Ascii List Lia Bool Sorted.
From stdpp Require Import base option list gmap strings pretty.

Local Open Scope string_scope.
Local Open Scope nat_scope.
Local Open Scope list_scope.

(** ** Python values and exceptions *)

Inductive exn : Type :=
| AttributeError (msg : string)
| NameError (name : string)
| TypeError (msg : string)
| ValueError (msg : string)
| IndexError (msg : string)
| KeyError (key : string)
| OverflowError (msg : string).

Inductive result (A : Type) : Type :=
| Ok (a : A)
| Raise (e : exn).

Arguments Ok {A} a.
Arguments Raise {A} e.

#[global] Instance result_ret : MRet result := fun A a => Ok a.

#[global] Instance result_bind : MBind result :=
  fun A B f r => match r with Ok a => f a | Raise e => Raise e end.

Definition raised {A : Type} (r : result A) : bool :=
  match r with Ok _ => false | Raise _ => true end.

(** A name that is bound neither in the function, nor in the module, nor in
    the builtins. *)
Definition unbound {A : Type} (name : string) : result A :=
  Raise (NameError name).

(** The scalars that tags and mask elements hold. *)
Inductive pyval : Type :=
| PNone
| PBool (b : bool)
| PInt (z : Z)
| PFloat (q : Q)
| PStr (s : string).

(** A sequence of tracer names as the caller passes it: a list or a tuple.
    In Python a list never equals a tuple. *)
Inductive pyseq : Type :=
| PyList (l : list string)
| PyTuple (l : list string).

Definition items (s : pyseq) : list string :=
  match s with PyList l => l | PyTuple l => l end.

(** [tuple(s)] *)
Definition tuple (s : pyseq) : pyseq := PyTuple (items s).

(** [a == b] on sequences of strings *)
Definition pyseq_eqb (a b : pyseq) : bool :=
  match a, b with
  | PyList l, PyList l' => bool_decide (l = l')
  | PyTuple l, PyTuple l' => bool_decide (l = l')
  | _, _ => false
  end.

(** The numeric value of a bool, int or float. *)
Definition as_number (v : pyval) : option Q :=
  match v with
  | PBool b => Some (if b then 1%Q else 0%Q)
  | PInt z => Some (inject_Z z)
  | PFloat q => Some q
  | _ => None
  end.

Definition Qlt_bool (x y : Q) : bool := negb (Qle_bool y x).

Definition type_name (v : pyval) : string :=
  match v with
  | PNone => "NoneType"
  | PBool _ => "bool"
  | PInt _ => "int"
  | PFloat _ => "float"
  | PStr _ => "str"
  end.

Definition not_supported (op : string) (a b : pyval) : exn :=
  TypeError ("'" +:+ op +:+ "' not supported between instances of '"
             +:+ type_name a +:+ "' and '" +:+ type_name b +:+ "'").

(** [a < b]: numbers compare by value, strings lexicographically, anything
    else (in particular [None] on either side) raises [TypeError]. *)
Definition py_lt (a b : pyval) : result bool :=
  match as_number a, as_number b with
  | Some x, Some y => Ok (Qlt_bool x y)
  | _, _ =>
      match a, b with
      | PStr s, PStr t => Ok (String.ltb s t)
      | _, _ => Raise (not_supported "<" a b)
      end
  end.

(** [a > b] *)
Definition py_gt (a b : pyval) : result bool :=
  match as_number a, as_number b with
  | Some x, Some y => Ok (Qlt_bool y x)
  | _, _ =>
      match a, b with
      | PStr s, PStr t => Ok (String.ltb t s)
      | _, _ => Raise (not_supported ">" a b)
      end
  end.

(** [a == b]: never raises. *)
Definition py_eq (a b : pyval) : bool :=
  match as_number a, as_number b with
  | Some x, Some y => Qeq_bool x y
  | _, _ =>
      match a, b with
      | PStr s, PStr t => bool_decide (s = t)
      | PNone, PNone => true
      | _, _ => false
      end
  end.

(** [s.endswith(suffix)] and [s[:-k]] *)
Definition endswith (s suffix : string) : bool :=
  (String.length suffix <=? String.length s)
  && bool_decide (String.substring (String.length s - String.length suffix)
                                   (String.length suffix) s = suffix).

Definition drop_last (k : nat) (s : string) : string :=
  String.substring 0 (String.length s - k) s.

(** Index [i] of a sequence of length [n]: a negative index counts from the
    end, an index outside [-n, n) raises [IndexError]. *)
Definition py_index (n : nat) (i : Z) : result nat :=
  if ((0 <=? i) && (i <? Z.of_nat n))%Z then Ok (Z.to_nat i)
  else if ((- Z.of_nat n <=? i) && (i <? 0))%Z then Ok (Z.to_nat (i + Z.of_nat n))
  else Raise (IndexError "index out of range").

(** The elements at the given positions. *)
Definition gather {A : Type} (d : A) (xs : list A) (js : list nat) : list A :=
  map (fun j => nth j xs d) js.

(** The positions at which a boolean array is [True] ([np.nonzero]). *)
Fixpoint where_true_from (k : nat) (m : list bool) : list nat :=
  match m with
  | [] => []
  | b :: m' => (if b then [k] else []) ++ where_true_from (S k) m'
  end.

Definition where_true (m : list bool) : list nat := where_true_from 0 m.

(** ** NumPy arrays *)

Module np.

(** Element types of the one-dimensional arrays that reach [Sacc.cut]. *)
Inductive int_dtype : Type :=
| int8 | int16 | int32 | int64 | uint8 | uint16 | uint32 | uint64.

Inductive other_dtype : Type := float64 | str_ | object_.

Inductive dtype : Type :=
| bool_
| integer (w : int_dtype)
| other (o : other_dtype).

#[global] Instance int_dtype_eq_dec : EqDecision int_dtype.
Proof. solve_decision. Defined.

#[global] Instance other_dtype_eq_dec : EqDecision other_dtype.
Proof. solve_decision. Defined.

#[global] Instance dtype_eq_dec : EqDecision dtype.
Proof. solve_decision. Defined.

(** A one-dimensional array.  An array that is neither boolean nor of an
    integer type keeps the Python values it was made from: the code
    modelled only looks at its dtype and its length. *)
Inductive ndarray1 : Type :=
| NdBool (l : list bool)
| NdInt (w : int_dtype) (l : list Z)
| NdOther (o : other_dtype) (l : list pyval).

Definition dtype_of (a : ndarray1) : dtype :=
  match a with
  | NdBool _ => bool_
  | NdInt w _ => integer w
  | NdOther o _ => other o
  end.

Definition len (a : ndarray1) : nat :=
  match a with
  | NdBool l => length l
  | NdInt _ l => length l
  | NdOther _ l => length l
  end.

Definition is_bool (v : pyval) : bool :=
  match v with PBool _ => true | _ => false end.

Definition fits_int64 (v : pyval) : bool :=
  match v with
  | PBool _ => true
  | PInt z => ((- 2 ^ 63 <=? z) && (z <? 2 ^ 63))%Z
  | _ => false
  end.

Definition to_bool (v : pyval) : bool :=
  match v with PBool b => b | _ => false end.

Definition to_int (v : pyval) : Z :=
  match v with PBool true => 1%Z | PInt z => z | _ => 0%Z end.

Definition is_none (v : pyval) : bool :=
  match v with PNone => true | _ => false end.

Definition is_str (v : pyval) : bool :=
  match v with PStr _ => true | _ => false end.

(** [np.array(l)] for a Python list of scalars: the element type is
    inferred.  An empty list gives a float64 array; booleans give a boolean
    array; booleans and integers that fit give the platform integer
    (int64); integers that do not fit, [None] and mixtures with [None] give
    an array that is none of the signed integer types (recorded as
    object); otherwise strings win over numbers, and numbers give
    float64. *)
Definition array (l : list pyval) : ndarray1 :=
  match l with
  | [] => NdOther float64 []
  | _ :: _ =>
      if forallb is_bool l then NdBool (map to_bool l)
      else if forallb fits_int64 l then NdInt int64 (map to_int l)
      else if existsb is_none l then NdOther object_ l
      else if existsb is_str l then NdOther str_ l
      else if existsb (fun v => match v with PFloat _ => true | _ => false end) l
           then NdOther float64 l
      else NdOther object_ l
  end.

(** [np.zeros(n, dtype=bool)] *)
Definition zeros_bool (n : nat) : list bool := repeat false n.

(** [m[i] = True] *)
Definition setitem_true (m : list bool) (i : Z) : result (list bool) :=
  k ← py_index (length m) i; Ok (<[k := true]> m).

(** [~m] *)
Definition invert (m : list bool) : list bool := map negb m.

(** [np.cumsum] *)
Fixpoint cumsum_from (acc : nat) (l : list nat) : list nat :=
  match l with
  | [] => []
  | x :: l' => (acc + x) :: cumsum_from (acc + x) l'
  end.

Definition cumsum (l : list nat) : list nat := cumsum_from 0 l.

(** [a[st:en]], clipped to the array as Python slices are. *)
Definition slice {A : Type} (st en : nat) (a : list A) : list A :=
  firstn (en - st) (skipn st a).

(** [np.split(ary, points)]: the pieces [ary[:p0]], [ary[p0:p1]], ...,
    [ary[pk:]]; always one piece more than there are points. *)
Fixpoint split_from {A : Type} (st : nat) (points : list nat) (ary : list A)
  : list (list A) :=
  match points with
  | [] => [slice st (length ary) ary]
  | p :: ps => slice st p ary :: split_from p ps ary
  end.

Definition split {A : Type} (ary : list A) (points : list nat) : list (list A) :=
  split_from 0 points ary.

(** [np.diff] *)
Fixpoint diff (l : list Z) : list Z :=
  match l with
  | x :: ((y :: _) as l') => (y - x)%Z :: diff l'
  | _ => []
  end.

(** A two-dimensional float array of shape [(length rows, ncols)]. *)
Record ndarray2 : Type := Nd2 { ncols : nat; rows : list (list Q) }.

Definition nrows (a : ndarray2) : nat := length (rows a).

Definition wf (a : ndarray2) : Prop :=
  Forall (fun r => length r = ncols a) (rows a).

Definition square (a : ndarray2) : Prop := wf a /\ nrows a = ncols a.

(** [a[i][j]] for in-range [i], [j]. *)
Definition entry (a : ndarray2) (i j : nat) : Q := nth j (nth i (rows a) []) 0%Q.

(** [a.flatten()]: row-major. *)
Definition flatten (a : ndarray2) : list Q := concat (rows a).

(** [k] rows of [b] elements taken in turn from a flat array. *)
Fixpoint chunks (k b : nat) (v : list Q) : list (list Q) :=
  match k with
  | 0 => []
  | S k' => take b v :: chunks k' b (drop b v)
  end.

(** [v.reshape((b, b))]: the number of elements must be [b * b], and a
    dimension cannot be negative. *)
Definition reshape_square (b : Z) (v : list Q) : result ndarray2 :=
  if (b <? 0)%Z then Raise (ValueError "negative dimensions are not allowed")
  else
    let n := Z.to_nat b in
    if length v =? n * n then Ok (Nd2 n (chunks n n v))
    else Raise (ValueError "cannot reshape array").

(** [np.concatenate]: refuses an empty list of arrays. *)
Definition concatenate (l : list (list Q)) : result (list Q) :=
  match l with
  | [] => Raise (ValueError "need at least one array to concatenate")
  | _ :: _ => Ok (concat l)
  end.

(** What the covariance classes are indexed with: a Python list of
    integers or an integer array (the [indices] of [Sacc.reorder] and of
    [get_block]), or a boolean array (the mask of [Sacc.cut]). *)
Inductive selector : Type :=
| SelList (l : list Z)
| SelInt (l : list Z)
| SelBool (m : list bool).

(** [len(sel)] *)
Definition sel_len (sel : selector) : nat :=
  match sel with
  | SelList l => length l
  | SelInt l => length l
  | SelBool m => length m
  end.

(** The positions that indexing an axis of length [n] with [sel] selects:
    integers are taken in the order given, a boolean array must have the
    length of the axis and selects where it is [True]. *)
Definition positions (n : nat) (sel : selector) : result (list nat) :=
  match sel with
  | SelList l => mapM (py_index n) l
  | SelInt l => mapM (py_index n) l
  | SelBool m =>
      if length m =? n then Ok (where_true m)
      else Raise (IndexError "boolean index did not match indexed array")
  end.

(** [v[sel]] on a one-dimensional array *)
Definition getitem1 (v : list Q) (sel : selector) : result (list Q) :=
  js ← positions (length v) sel; Ok (gather 0%Q v js).

(** [a[sel]]: rows *)
Definition getitem_rows (a : ndarray2) (sel : selector) : result ndarray2 :=
  js ← positions (nrows a) sel; Ok (Nd2 (ncols a) (gather [] (rows a) js)).

(** [a[:,sel]]: columns *)
Definition getitem_cols (a : ndarray2) (sel : selector) : result ndarray2 :=
  js ← positions (ncols a) sel;
  Ok (Nd2 (length js) (map (fun r => gather 0%Q r js) (rows a))).

(** [a[sel][:,sel]] *)
Definition getitem_rows_cols (a : ndarray2) (sel : selector) : result ndarray2 :=
  r ← getitem_rows a sel; getitem_cols r sel.

(** [indices[(indices >= s) & (indices < e)]] on an integer array *)
Definition in_range (s e : nat) (l : list Z) : list Z :=
  filter (fun i => (Z.of_nat s ≤ i)%Z ∧ (i < Z.of_nat e)%Z) l.

End np.

(** ** scipy.linalg.block_diag *)

Module scipy_linalg.
Import np.

(** One positional argument of [block_diag], which takes its arrays as
    separate arguments: a two-dimensional array, or a Python list of
    two-dimensional arrays passed as a single argument. *)
Inductive array_like : Type :=
| Arr (a : ndarray2)
| Seq (l : list ndarray2).

(** [np.atleast_2d(a)] followed by the dimension check of [block_diag].  An
    empty list is an array of shape (1, 0).  A non-empty list of arrays of
    one shape is a three-dimensional array, which [block_diag] refuses; a
    list of arrays of different shapes is not an array at all (NumPy 1.24
    and later; earlier versions build an array of objects). *)
Definition atleast_2d_checked (x : array_like) : result ndarray2 :=
  match x with
  | Arr a => Ok a
  | Seq [] => Ok (Nd2 0 [[]])
  | Seq (b :: bs) =>
      if forallb (fun c => (nrows c =? nrows b) && (ncols c =? ncols b)) bs
      then Raise (ValueError
        "arguments in the following positions have dimension greater than 2: [0]")
      else Raise (ValueError
        "setting an array element with a sequence. The requested array has an inhomogeneous shape")
  end.

(** The direct sum of two-dimensional arrays: each block is placed below
    and to the right of the previous ones, zeros elsewhere. *)
Fixpoint direct_sum_rows (left total : nat) (ms : list ndarray2) : list (list Q) :=
  match ms with
  | [] => []
  | m :: ms' =>
      (map (fun r => repeat 0%Q left ++ r
                     ++ repeat 0%Q (total - left - ncols m)) (rows m)
       ++ direct_sum_rows (left + ncols m) total ms')%list
  end.

Definition direct_sum (ms : list ndarray2) : ndarray2 :=
  let total := sum_list (map ncols ms) in
  Nd2 total (direct_sum_rows 0 total ms).

(** [scipy.linalg.block_diag] on its tuple of positional arguments *)
Definition block_diag (arrs : list array_like) : result ndarray2 :=
  ms ← mapM atleast_2d_checked (match arrs with [] => [Seq []] | _ => arrs end);
  Ok (direct_sum ms).

End scipy_linalg.

(** ** sacc2/covariance.py *)

(** The serialised form: an in-memory FITS image unit ([fits.ImageHDU]),
    whose data is the array it was made from.  The table unit that
    [DiagonalCovariance.to_fits] builds with astropy's [Table] is not
    modelled. *)
Inductive header_value : Type :=
| HStr (s : string)
| HInt (z : Z).

Inductive hdu_data : Type :=
| Image1 (v : list Q)
| Image2 (a : np.ndarray2).

Record HDU : Type := mkHDU {
  hdu_data_ : hdu_data;
  hdu_name : string;
  hdu_header : gmap string header_value
}.

(** The dictionaries of [to_dict] and [from_dict]: under each key the
    class tag, a matrix, a list of blocks or a vector. *)
Inductive dict_value : Type :=
| DStr (s : string)
| DMatrix (a : np.ndarray2)
| DBlocks (l : list np.ndarray2)
| DVector (v : list Q).

(** [d[key]] *)
Definition dict_get (d : gmap string dict_value) (key : string) : result dict_value :=
  match d !! key with
  | Some v => Ok v
  | None => Raise (KeyError key)
  end.

Module FullCovariance.
Import np.

Record t : Type := mk { covmat : ndarray2 }.

Definition cov_type : string := "full".

(** [__init__]: [np.atleast_2d] leaves a two-dimensional array as it is. *)
Definition init (covmat : ndarray2) : t := mk covmat.

(** The size of the covariance: [covmat.shape[0]], which [to_fits] writes
    to the header. *)
Definition size (self : t) : nat := nrows (covmat self).

Definition to_fits (self : t) : HDU :=
  let hdu := mkHDU (Image2 (covmat self)) "" ∅ in
  let hdu := mkHDU (hdu_data_ hdu) "covariance" (hdu_header hdu) in
  let hdr := <["sacctype" := HStr "cov"]> (hdu_header hdu) in
  let hdr := <["saccclss" := HStr cov_type]> hdr in
  let hdr := <["size" := HInt (Z.of_nat (nrows (covmat self)))]> hdr in
  mkHDU (hdu_data_ hdu) (hdu_name hdu) hdr.

Definition masked (self : t) (mask : selector) : result t :=
  C ← getitem_rows_cols (covmat self) mask; Ok (init C).

(** [from_fits]: a one-dimensional image becomes one row under
    [np.atleast_2d]. *)
Definition from_fits (hdu : HDU) : t :=
  match hdu_data_ hdu with
  | Image2 a => init a
  | Image1 v => init (Nd2 (length v) [v])
  end.

Definition get_block (self : t) (indices : selector) : result ndarray2 :=
  getitem_rows_cols (covmat self) indices.

Definition to_dict (self : t) : gmap string dict_value :=
  <["cov" := DMatrix (covmat self)]> (<["type" := DStr cov_type]> ∅).

(** The constructor applied to an entry of a dictionary.  A vector becomes
    one row under [np.atleast_2d].  [None]: the entry is no array of
    numbers of one or two dimensions; the object that the constructor then
    makes holds no matrix of floats and is outside [t]. *)
Definition of_entry (v : dict_value) : option t :=
  match v with
  | DMatrix a => Some (init a)
  | DVector v => Some (init (Nd2 (length v) [v]))
  | DStr _ | DBlocks _ => None
  end.

(** [from_dict]: [cls(d['covmat'])] *)
Definition from_dict (d : gmap string dict_value) : result (option t) :=
  v ← dict_get d "covmat"; Ok (of_entry v).

End FullCovariance.

Module DiagonalCovariance.
Import np.

Record t : Type := mk { diag : list Q; size : nat }.

Definition cov_type : string := "diagonal".

Definition init (diag : list Q) : t := mk diag (length diag).

Definition masked (self : t) (mask : selector) : result t :=
  D ← getitem1 (diag self) mask; Ok (init D).

(** [np.diagonal] of a one-dimensional array *)
Definition np_diagonal_1d (v : list Q) : result ndarray2 :=
  Raise (ValueError "diag requires an array of at least two dimensions").

Definition get_block (self : t) (indices : selector) : result ndarray2 :=
  v ← getitem1 (diag self) indices; np_diagonal_1d v.

Definition to_dict (self : t) : gmap string dict_value :=
  <["blocks" := DVector (diag self)]> (<["type" := DStr cov_type]> ∅).

(** The constructor applied to an entry of a dictionary.  [None]: the entry
    is no vector of numbers, and the object made is outside [t]. *)
Definition of_entry (v : dict_value) : option t :=
  match v with
  | DVector v => Some (init v)
  | DStr _ | DMatrix _ | DBlocks _ => None
  end.

(** [from_dict]: [cls(d['diag'])] *)
Definition from_dict (d : gmap string dict_value) : result (option t) :=
  v ← dict_get d "diag"; Ok (of_entry v).

End DiagonalCovariance.

Module BlockDiagonalCovariance.
Import np.

Record t : Type := mk {
  blocks : list ndarray2;
  block_sizes : list nat;
  total_size : nat
}.

Definition cov_type : string := "block".

(** [__init__]: every block given is kept, whatever its size. *)
Definition init (blocks : list ndarray2) : t :=
  let block_sizes := map nrows blocks in
  mk blocks block_sizes (sum_list block_sizes).

(** [to_fits]: the image is built first, then the header is filled in;
    [self.covmat] is not an attribute of this class. *)
Definition to_fits (self : t) : result HDU :=
  data ← concatenate (map flatten (blocks self));
  let hdu := mkHDU (Image1 data) "covariance" ∅ in
  let hdr := <["sacctype" := HStr "cov"]> (hdu_header hdu) in
  let hdr := <["saccclss" := HStr cov_type]> hdr in
  Raise (AttributeError
    "'BlockDiagonalCovariance' object has no attribute 'covmat'").

(** [self.blocks[m]] where [self.blocks] is a Python list and [m] a
    boolean array: a list is indexed by integers and slices only. *)
Definition list_getitem_boolarray (l : list ndarray2) (m : list bool)
  : result ndarray2 :=
  Raise (TypeError "only integer scalar arrays can be converted to a scalar index").

(** The loop shared by [get_block] and the increasing-indices branch of
    [masked]: [s] is the offset of the current block, [sub_blocks] the
    list built so far.  The body reads [block], which nothing binds. *)
Fixpoint sub_blocks_loop (s : nat) (sub_blocks : list ndarray2)
    (idx : list Z) (bs : list (ndarray2 * nat)) : result (list ndarray2) :=
  match bs with
  | [] => Ok sub_blocks
  | (b, sz) :: bs' =>
      let e := s + sz in
      let m := in_range s e idx in
      block ← unbound "block";
      sub ← getitem_rows_cols block (SelInt m);
      sub_blocks_loop (s + sz) (sub_blocks ++ [sub])%list idx bs'
  end.

(** [(indices >= s)] on the argument of [get_block]: an array compares
    element by element, a Python list does not compare with an integer. *)
Definition as_int_array (indices : selector) : result (list Z) :=
  match indices with
  | SelList _ =>
      Raise (TypeError "'>=' not supported between instances of 'list' and 'int'")
  | SelInt l => Ok l
  | SelBool m => Ok (map (fun b : bool => if b then 1%Z else 0%Z) m)
  end.

Fixpoint get_block_loop (s : nat) (sub_blocks : list ndarray2)
    (indices : selector) (bs : list (ndarray2 * nat)) : result (list ndarray2) :=
  match bs with
  | [] => Ok sub_blocks
  | (b, sz) :: bs' =>
      let e := s + sz in
      idx ← as_int_array indices;
      let m := in_range s e idx in
      block ← unbound "block";
      sub ← getitem_rows_cols block (SelInt m);
      get_block_loop (s + sz) (sub_blocks ++ [sub])%list indices bs'
  end.

Definition get_block (self : t) (indices : selector) : result ndarray2 :=
  let n := sel_len indices in
  sub_blocks ← get_block_loop 0 [] indices (zip (blocks self) (block_sizes self));
  scipy_linalg.block_diag [scipy_linalg.Seq sub_blocks].

(** The three outcomes of [masked]: the class itself for a boolean mask or
    increasing indices, a [FullCovariance] otherwise. *)
Inductive masked_result : Type :=
| SameClass (c : t)
| Densified (c : FullCovariance.t).

Definition masked (self : t) (mask : selector) : result masked_result :=
  match mask with
  | SelList _ => Raise (AttributeError "'list' object has no attribute 'dtype'")
  | SelBool m =>
      let breaks := removelast (cumsum (block_sizes self)) in
      let block_masks := split m breaks in
      blocks ← mapM (fun m =>
                  b ← list_getitem_boolarray (blocks self) m;
                  getitem_cols b (SelBool m)) block_masks;
      Ok (SameClass (init blocks))
  | SelInt idx =>
      if forallb (fun d => (0 <? d)%Z) (diff idx) then
        sub_blocks ← sub_blocks_loop 0 [] idx (zip (blocks self) (block_sizes self));
        Ok (SameClass (init sub_blocks))
      else
        C ← scipy_linalg.block_diag [scipy_linalg.Seq (blocks self)];
        C ← getitem_rows_cols C mask;
        Ok (Densified (FullCovariance.init C))
  end.

(** [hdu.header[key]] *)
Definition header_get (hdu : HDU) (key : string) : result header_value :=
  match hdu_header hdu !! key with
  | Some v => Ok v
  | None => Raise (KeyError key)
  end.

(** [range(n)] for a header value *)
Definition header_range (n : header_value) : result (list nat) :=
  match n with
  | HInt z => Ok (seq 0 (Z.to_nat z))
  | HStr _ => Raise (TypeError "'str' object cannot be interpreted as an integer")
  end.

(** [np.array(block_sizes)**2]: the squares are not used afterwards, but a
    size that is not a number cannot be squared; what comes out are the
    sizes, all numbers. *)
Definition numeric_sizes (block_sizes : list header_value) : result (list Z) :=
  mapM (fun v => match v with
                 | HInt z => Ok z
                 | HStr _ => Raise (TypeError "unsupported operand type(s) for ** or pow()")
                 end) block_sizes.

(** [hdu.data[s:e]], flat: of a two-dimensional image the rows [s] to [e]. *)
Definition data_slice (data : hdu_data) (s e : nat) : list Q :=
  match data with
  | Image1 v => slice s e v
  | Image2 a => concat (slice s e (rows a))
  end.

Fixpoint from_fits_loop (data : hdu_data) (s : nat) (blocks : list ndarray2)
    (block_sizes : list Z) : result (list ndarray2) :=
  match block_sizes with
  | [] => Ok blocks
  | b :: rest =>
      B ← reshape_square b (data_slice data s (s + Z.to_nat (b * b)));
      from_fits_loop data (s + Z.to_nat (b * b)) (blocks ++ [B]) rest
  end.

Definition from_fits (hdu : HDU) : result t :=
  n ← header_get hdu "blocks";
  r ← header_range n;
  block_sizes ← mapM (fun i => header_get hdu ("size_" +:+ pretty i)) r;
  block_sizes ← numeric_sizes block_sizes;
  blocks ← from_fits_loop (hdu_data_ hdu) 0 [] block_sizes;
  Ok (init blocks).

(** The matrix the blocks stand for. *)
Definition expanded (self : t) : ndarray2 := scipy_linalg.direct_sum (blocks self).

Definition to_dict (self : t) : gmap string dict_value :=
  <["blocks" := DBlocks (blocks self)]> (<["type" := DStr cov_type]> ∅).

(** The constructor applied to an entry of a dictionary: it iterates over
    the entry and takes [np.atleast_2d] of each element.  The elements of
    a matrix are its rows, those of a vector its numbers.  [None]: the
    entry is a string, and the object made is outside [t]. *)
Definition of_entry (v : dict_value) : option t :=
  match v with
  | DBlocks bs => Some (init bs)
  | DMatrix a => Some (init (map (fun r => Nd2 (length r) [r]) (rows a)))
  | DVector v => Some (init (map (fun x => Nd2 1 [[x]]) v))
  | DStr _ => None
  end.

(** [from_dict]: [cls(d['blocks'])] *)
Definition from_dict (d : gmap string dict_value) : result (option t) :=
  v ← dict_get d "blocks"; Ok (of_entry v).

End BlockDiagonalCovariance.

(** The covariance attached to a data set: an instance of one of the three
    classes; method calls dispatch on the class. *)
Inductive Covariance : Type :=
| Full (c : FullCovariance.t)
| Block (c : BlockDiagonalCovariance.t)
| Diag (c : DiagonalCovariance.t).

Module BaseCovariance.

(** The argument of [make]: a Python list of blocks, or one matrix. *)
Inductive cov_arg : Type :=
| CovBlocks (blocks : list np.ndarray2)
| CovMatrix (cov : np.ndarray2).

(** The loop of [make] over the blocks: each must be square, their sizes
    are added up. *)
Fixpoint make_loop (s : nat) (blocks : list np.ndarray2) : result nat :=
  match blocks with
  | [] => Ok s
  | block :: rest =>
      if negb (np.nrows block =? np.ncols block)
      then Raise (ValueError "Covariance block has wrong size or shape")
      else make_loop (s + np.nrows block) rest
  end.

Definition make (cov : cov_arg) (n : nat) : result Covariance :=
  match cov with
  | CovBlocks blocks =>
      s ← make_loop 0 blocks;
      if negb (s =? n)
      then Raise (ValueError "Covariance blocks do not have the right overall size")
      else Ok (Block (BlockDiagonalCovariance.init blocks))
  | CovMatrix cov =>
      if negb (np.nrows cov =? np.ncols cov) || negb (np.nrows cov =? n)
      then Raise (ValueError "Covariance has wrong size or shape")
      else Ok (Full (FullCovariance.init cov))
  end.

(** The class method [from_fits] of the base class, which [Sacc.load]
    calls: it reads the class tag of the header, then looks the class up
    through [self], which a class method does not bind. *)
Definition from_fits (hdu : HDU) : result Covariance :=
  subclass_name ← match hdu_header hdu !! "saccclss" with
                  | Some v => Ok v
                  | None => Raise (KeyError "saccclss")
                  end;
  unbound "self".

(** The size of a covariance, as each class keeps it: the number of rows of
    the matrix, [total_size], [size]. *)
Definition size (c : Covariance) : nat :=
  match c with
  | Full c => FullCovariance.size c
  | Block c => BlockDiagonalCovariance.total_size c
  | Diag c => DiagonalCovariance.size c
  end.

Definition masked (c : Covariance) (mask : np.selector) : result Covariance :=
  match c with
  | Full c => c' ← FullCovariance.masked c mask; Ok (Full c')
  | Block c =>
      r ← BlockDiagonalCovariance.masked c mask;
      Ok (match r with
          | BlockDiagonalCovariance.SameClass c' => Block c'
          | BlockDiagonalCovariance.Densified c' => Full c'
          end)
  | Diag c => c' ← DiagonalCovariance.masked c mask; Ok (Diag c')
  end.

Definition get_block (c : Covariance) (indices : np.selector) : result np.ndarray2 :=
  match c with
  | Full c => FullCovariance.get_block c indices
  | Block c => BlockDiagonalCovariance.get_block c indices
  | Diag c => DiagonalCovariance.get_block c indices
  end.

(** [to_dict] of whichever class the object has, as [Sacc.to_dict] calls
    it. *)
Definition to_dict (c : Covariance) : gmap string dict_value :=
  match c with
  | Full c => FullCovariance.to_dict c
  | Block c => BlockDiagonalCovariance.to_dict c
  | Diag c => DiagonalCovariance.to_dict c
  end.

End BaseCovariance.

(** ** sacc2/sacc.py *)

Module DataPoint.

Record t : Type := mk {
  data_type : string;
  tracers : pyseq;
  value : Q;
  tags : gmap string pyval
}.

(** [__init__] stores its arguments as they are; the warning for an
    unknown data type changes nothing. *)
Definition init (data_type : string) (tracers : pyseq) (value : Q)
    (tags : gmap string pyval) : t :=
  mk data_type tracers value tags.

(** [get_tag]: [self.tags.get(tag)], [None] when the tag is absent. *)
Definition get_tag (self : t) (tag : string) : pyval :=
  default PNone (tags self !! tag).

Definition dummy : t := mk "" (PyTuple []) 0%Q ∅.

End DataPoint.

(** A tracer object; only its name matters here. *)
Record Tracer : Type := mkTracer { tracer_name : string }.

Module Sacc.
Import np.

Record t : Type := mk {
  data : list DataPoint.t;
  tracers : gmap string Tracer;
  covariance : option Covariance;
  metadata : gmap string pyval
}.

(** [Sacc()] *)
Definition init : t := mk [] ∅ None ∅.

(** [len(self)] *)
Definition len (self : t) : nat := length (data self).

(** A method: the object before the call gives the object after it and
    the value returned or the exception raised. *)
Definition method (A : Type) : Type := t -> t * result A.

#[global] Instance method_ret : MRet method := fun A a self => (self, Ok a).

#[global] Instance method_bind : MBind method :=
  fun A B f m self =>
    match m self with
    | (self', Ok a) => f a self'
    | (self', Raise e) => (self', Raise e)
    end.

Definition self_ : method t := fun self => (self, Ok self).

Definition lift {A : Type} (r : result A) : method A := fun self => (self, r).

Definition raise {A : Type} (e : exn) : method A := lift (Raise e).

Definition set_data (d : list DataPoint.t) : method unit :=
  fun self => (mk d (tracers self) (covariance self) (metadata self), Ok tt).

Definition set_covariance (c : option Covariance) : method unit :=
  fun self => (mk (data self) (tracers self) c (metadata self), Ok tt).

(** The [indices] argument of [reorder]: an integer list or array. *)
Inductive index_seq : Type :=
| IdxList (l : list Z)
| IdxArray (l : list Z).

Definition idx_items (i : index_seq) : list Z :=
  match i with IdxList l => l | IdxArray l => l end.

Definition idx_selector (i : index_seq) : selector :=
  match i with IdxList l => SelList l | IdxArray l => SelInt l end.

(** [[self.data[i] for i in indices]] *)
Definition data_at (d : list DataPoint.t) (idx : list Z) : result (list DataPoint.t) :=
  js ← mapM (py_index (length d)) idx; Ok (gather DataPoint.dummy d js).

Definition reorder (indices : index_seq) : method unit :=
  self ← self_;
  d ← lift (data_at (data self) (idx_items indices));
  _ ← set_data d;
  match covariance self with
  | Some c =>
      c' ← lift (BaseCovariance.masked c (idx_selector indices));
      set_covariance (Some c')
  | None => mret tt
  end.

Definition add_tracer_object (tracer : Tracer) : method unit :=
  fun self => (mk (data self) (<[tracer_name tracer := tracer]> (tracers self))
                  (covariance self) (metadata self), Ok tt).

(** The check of the tracer names in [add_data_point] *)
Fixpoint check_tracers (known : gmap string Tracer) (tracers_later : bool)
    (names : list string) : result unit :=
  match names with
  | [] => Ok tt
  | tracer :: rest =>
      if bool_decide (known !! tracer = None) && negb tracers_later
      then Raise (ValueError ("Tracer named '" +:+ tracer
             +:+ "' is not in the known list of tracers."
             +:+ "Either put it in before adding data points or set tracers_later=True"))
      else check_tracers known tracers_later rest
  end.

Definition add_data_point (data_type : string) (tracers_ : pyseq) (value : Q)
    (tracers_later : bool) (tags : gmap string pyval) : method unit :=
  self ← self_;
  match covariance self with
  | Some _ =>
      raise (ValueError "You cannot add a data point after setting the covariance")
  | None =>
      let tracers_ := tuple tracers_ in
      _ ← lift (check_tracers (tracers self) tracers_later (items tracers_));
      let d := DataPoint.init data_type tracers_ value tags in
      set_data (data self ++ [d])%list
  end.

Definition add_covariance (cov : BaseCovariance.cov_arg) : method unit :=
  self ← self_;
  c ← lift (BaseCovariance.make cov (len self));
  set_covariance (Some c).

(** The [mask] argument of [cut]: a Python list of scalars or an array. *)
Inductive mask_arg : Type :=
| MaskList (l : list pyval)
| MaskArray (a : ndarray1).

(** [np.array(mask)] *)
Definition np_array (mask : mask_arg) : ndarray1 :=
  match mask with
  | MaskList l => array l
  | MaskArray a => a
  end.

(** [for i in mask: m[i] = True] *)
Fixpoint set_all_true (m : list bool) (idx : list Z) : result (list bool) :=
  match idx with
  | [] => Ok m
  | i :: rest => m' ← setitem_true m i; set_all_true m' rest
  end.

(** [[d for i,d in enumerate(self.data) if not mask[i]]] *)
Fixpoint keep_unmasked (d : list DataPoint.t) (mask : list bool) : list DataPoint.t :=
  match d with
  | [] => []
  | x :: d' =>
      match mask with
      | [] => []
      | b :: mask' => (if negb b then [x] else []) ++ keep_unmasked d' mask'
      end
  end%list.

(** The conversion of the mask at the head of [cut]: a boolean array is
    taken as it is, an array of one of the four signed integer types is
    turned into a boolean array of the length of the data, anything else is
    refused.  (The two inner [match]es read the elements of an array whose
    dtype has just been tested; their last branch is never taken.) *)
Definition to_bool_mask (n : nat) (mask : ndarray1) : result (list bool) :=
  if bool_decide (dtype_of mask ≠ bool_) then
    if negb (bool_decide (dtype_of mask ∈
               [integer int8; integer int16; integer int32; integer int64]))
    then Raise (ValueError "Wrong mask type")
    else
      match mask with
      | NdInt _ idx => set_all_true (zeros_bool n) idx
      | _ => Raise (ValueError "Wrong mask type")
      end
  else
    match mask with
    | NdBool m => Ok m
    | _ => Raise (ValueError "Wrong mask type")
    end.

Definition cut (mask : mask_arg) : method unit :=
  self ← self_;
  let mask := np_array mask in
  mask ← lift (to_bool_mask (len self) mask);
  if negb (length mask =? len self)
  then raise (ValueError "Mask passed in is wrong size")
  else
    _ ← set_data (keep_unmasked (data self) mask);
    match covariance self with
    | Some c =>
        c' ← lift (BaseCovariance.masked c (SelBool (invert mask)));
        set_covariance (Some c')
    | None => mret tt
    end.

(** One pass of the loop over [select.items()] in [indices], for one data
    point: [Ok false] is the [break] with [ok = False]. *)
Fixpoint tags_ok (d : DataPoint.t) (select : list (string * pyval)) : result bool :=
  match select with
  | [] => Ok true
  | (name, val) :: rest =>
      if endswith name "__lt" then
        let name := drop_last 4 name in
        c ← py_lt (DataPoint.get_tag d name) val;
        if negb c then Ok false else tags_ok d rest
      else if endswith name "__gt" then
        let name := drop_last 4 name in
        c ← py_gt (DataPoint.get_tag d name) val;
        if negb c then Ok false else tags_ok d rest
      else
        if negb (py_eq (DataPoint.get_tag d name) val) then Ok false
        else tags_ok d rest
  end.

Fixpoint indices_from (i : nat) (ds : list DataPoint.t) (data_type : option string)
    (tracers_ : option pyseq) (select : list (string * pyval)) : result (list nat) :=
  match ds with
  | [] => Ok (@nil nat)
  | d :: ds' =>
      if negb (match tracers_ with
               | None => true
               | Some t => pyseq_eqb (DataPoint.tracers d) t
               end)
      then indices_from (S i) ds' data_type tracers_ select
      else if negb (match data_type with
                    | None => true
                    | Some dt => bool_decide (DataPoint.data_type d = dt)
                    end)
      then indices_from (S i) ds' data_type tracers_ select
      else
        ok ← tags_ok d select;
        rest ← indices_from (S i) ds' data_type tracers_ select;
        Ok (if ok : bool then i :: rest else rest)
  end.

(** [indices]: reads the data, changes nothing. *)
Definition indices (self : t) (data_type : option string) (tracers_ : option pyseq)
    (select : list (string * pyval)) : result (list nat) :=
  let tracers_ := match tracers_ with
                  | Some t => Some (tuple t)
                  | None => None
                  end in
  indices_from 0 (data self) data_type tracers_ select.

(** ** Reading the data *)

(** [self.mean], the getter of the property: the values of all records. *)
Definition mean (self : t) : list Q := map DataPoint.value (data self).

(** The integer array that [indices] returns, as an index. *)
Definition int_array (ind : list nat) : list Z := map Z.of_nat ind.

(** [[d.get_tag(tag) for i,d in enumerate(self.data) if i in indices]] for
    the records from position [i] on. *)
Fixpoint tags_at (i : nat) (ds : list DataPoint.t) (tag : string) (indices : list Z)
  : list pyval :=
  match ds with
  | [] => []
  | d :: ds' =>
      (if bool_decide (Z.of_nat i ∈ indices) then [DataPoint.get_tag d tag] else [])
      ++ tags_at (S i) ds' tag indices
  end.

Definition _get_tags_by_index (self : t) (tags : list string) (indices : list Z)
  : list (list pyval) :=
  map (fun tag => tags_at 0 (data self) tag indices) tags.

Definition get_tags (self : t) (tags : list string) (data_type : option string)
    (tracers_ : option pyseq) (select : list (string * pyval))
  : result (list (list pyval)) :=
  ind ← indices self data_type tracers_ select;
  Ok (_get_tags_by_index self tags (int_array ind)).

(** [get_tag]: element [0] of what [get_tags] returns for the one tag. *)
Definition get_tag (self : t) (tag : string) (data_type : option string)
    (tracers_ : option pyseq) (select : list (string * pyval))
  : result (list pyval) :=
  r ← get_tags self [tag] data_type tracers_ select;
  match r with
  | v :: _ => Ok v
  | [] => Raise (IndexError "list index out of range")
  end.

Definition get_data_points (self : t) (data_type : option string)
    (tracers_ : option pyseq) (select : list (string * pyval))
  : result (list DataPoint.t) :=
  ind ← indices self data_type tracers_ select;
  data_at (data self) (int_array ind).

Definition get_mean (self : t) (data_type : option string)
    (tracers_ : option pyseq) (select : list (string * pyval))
  : result (list Q) :=
  ind ← indices self data_type tracers_ select;
  getitem1 (mean self) (SelInt (int_array ind)).

(** [get_tracer]: [self.tracers[name]] *)
Definition get_tracer (self : t) (name : string) : result Tracer :=
  match tracers self !! name with
  | Some tr => Ok tr
  | None => Raise (KeyError name)
  end.

(** ** Two-point helpers *)

(** [_get_2pt]: the angles and the values of the records of one data type
    and one pair of bins.  With [return_cov] the method goes on to
    [self.get_block], which [Sacc] does not have. *)
Definition _get_2pt (self : t) (data_type bin1 bin2 : string) (return_cov : bool)
    (angle_name : string) : result (list pyval * list Q) :=
  ind ← indices self (Some data_type) (Some (PyTuple [bin1; bin2])) [];
  mu ← getitem1 (mean self) (SelInt (int_array ind));
  angle ← match _get_tags_by_index self [angle_name] (int_array ind) with
          | v :: _ => Ok v
          | [] => Raise (IndexError "list index out of range")
          end;
  if return_cov then
    match covariance self with
    | None => Raise (ValueError "This sacc data does not have a covariance attached")
    | Some _ => Raise (AttributeError "'Sacc' object has no attribute 'get_block'")
    end
  else Ok (angle, mu).

Definition get_ell_cl (self : t) (data_type bin1 bin2 : string) (return_cov : bool)
  : result (list pyval * list Q) :=
  _get_2pt self data_type bin1 bin2 return_cov "ell".

Definition get_theta_xi (self : t) (data_type bin1 bin2 : string) (return_cov : bool)
  : result (list pyval * list Q) :=
  _get_2pt self data_type bin1 bin2 return_cov "theta".

(** An angle as the caller gives it: an int or a float. *)
Inductive number : Type :=
| NInt (z : Z)
| NFloat (q : Q).

(** The integer nearest to [a >= 0] among those of at most 53 significant
    bits, the one with an even last bit when two are as near: what the
    conversion of an integer to a float64 rounds to. *)
Definition round_to_53_bits (a : Z) : Z :=
  let e := (Z.log2 a - 52)%Z in
  if (e <=? 0)%Z then a
  else
    let q := Z.shiftr a e in
    let r := Z.land a (Z.ones e) in
    let half := Z.shiftl 1 (e - 1) in
    let q := if (half <? r)%Z || ((r =? half)%Z && Z.odd q) then (q + 1)%Z else q in
    Z.shiftl q e.

(** [float(n)]: a float is returned as it is; an integer is rounded to the
    nearest float64, and one that rounds to [2 ** 1024] or beyond raises
    [OverflowError]. *)
Definition float (n : number) : result Q :=
  match n with
  | NFloat q => Ok q
  | NInt z =>
      let m := round_to_53_bits (Z.abs z) in
      if (2 ^ 1024 <=? m)%Z
      then Raise (OverflowError "int too large to convert to float")
      else Ok (inject_Z (Z.sgn z * m))
  end.

(** The forms in which [add_ell_cl] and [add_theta_xi] are documented to be
    called: everything a scalar; one data type and one pair of bins with
    lists of angles and values; one data type with lists of bins, angles
    and values; lists throughout.  The calls modelled pass no [window]. *)
Inductive two_point_args : Type :=
| OnePoint (data_type bin1 bin2 : string) (x : Q) (tag_val : number)
| OneBinPair (data_type bin1 bin2 : string) (x : list Q) (tag_val : list number)
| ManyBinPairs (data_type : string) (bin1 bin2 : list string)
               (x : list Q) (tag_val : list number)
| ManyDataTypes (data_type bin1 bin2 : list string)
                (x : list Q) (tag_val : list number).

(** The single-point case of [_add_2pt]: the dictionary of the tag is
    built, with the conversion of the angle, before the point is added. *)
Definition add_2pt_point (data_type bin1 bin2 : string) (x : Q) (tag_val : number)
    (tag_name : string) : method unit :=
  angle ← lift (float tag_val);
  let t : gmap string pyval := {[ tag_name := PFloat angle ]} in
  add_data_point data_type (PyTuple [bin1; bin2]) x false t.

(** [for tag_i, x_i in zip(tag_val, x): self._add_2pt(...)] *)
Fixpoint add_2pt_loop (data_type bin1 bin2 : string) (pairs : list (number * Q))
    (tag_name : string) : method unit :=
  match pairs with
  | [] => mret tt
  | (tag_i, x_i) :: rest =>
      _ ← add_2pt_point data_type bin1 bin2 x_i tag_i tag_name;
      add_2pt_loop data_type bin1 bin2 rest tag_name
  end.

(** [_add_2pt] with [window=None].  The loops over several pairs of bins
    read [tag], which nothing binds (the parameter is [tag_val]). *)
Definition _add_2pt (args : two_point_args) (tag_name : string) : method unit :=
  match args with
  | OnePoint data_type bin1 bin2 x tag_val =>
      add_2pt_point data_type bin1 bin2 x tag_val tag_name
  | OneBinPair data_type bin1 bin2 x tag_val =>
      let n1 := length x in
      let n2 := length tag_val in
      if negb (n1 =? n2)
      then raise (ValueError "Length of inputs do not match in added 2pt data")
      else add_2pt_loop data_type bin1 bin2 (zip tag_val x) tag_name
  | ManyBinPairs data_type bin1 bin2 x tag_val =>
      let n1 := length x in
      let n2 := length tag_val in
      let n3 := length bin1 in
      let n4 := length bin2 in
      if negb ((n1 =? n2) && (n2 =? n3) && (n3 =? n4))
      then raise (ValueError "Length of inputs do not match in added 2pt data")
      else raise (NameError "tag")
  | ManyDataTypes data_type bin1 bin2 x tag_val =>
      let n1 := length x in
      let n2 := length tag_val in
      let n3 := length bin1 in
      let n4 := length bin2 in
      let n5 := length data_type in
      if negb ((n1 =? n2) && (n2 =? n3) && (n3 =? n4) && (n4 =? n5))
      then raise (ValueError "Length of inputs do not match in added 2pt data")
      else raise (NameError "tag")
  end.

Definition add_ell_cl (args : two_point_args) : method unit := _add_2pt args "ell".

Definition add_theta_xi (args : two_point_args) : method unit := _add_2pt args "theta".

(** ** The canonical order *)

Definition allowed_types : list string :=
  ["shear_xi_plus"; "shear_xi_minus"; "shear_ee"; "shear_bb"; "galaxy_density_cl";
   "galaxy_density_w"; "ggl_gamma_t"; "ggl_gamma_x"; "ggl_E"; "ggl_B"].

(** [l.index(x)] when [x in l] *)
Fixpoint list_index (x : string) (l : list string) : option nat :=
  match l with
  | [] => None
  | y :: l' => if bool_decide (x = y) then Some 0 else S <$> list_index x l'
  end.

(** [a < b] on two sequences of strings of one kind: the first position
    where they differ decides, a proper prefix is smaller. *)
Fixpoint strings_lt (l l' : list string) : bool :=
  match l, l' with
  | [], [] => false
  | [], _ :: _ => true
  | _ :: _, [] => false
  | x :: r, y :: r' => if bool_decide (x = y) then strings_lt r r' else String.ltb x y
  end.

(** [a < b] on sequences: a list and a tuple do not compare. *)
Definition pyseq_lt (a b : pyseq) : result bool :=
  match a, b with
  | PyList l, PyList l' => Ok (strings_lt l l')
  | PyTuple l, PyTuple l' => Ok (strings_lt l l')
  | PyList _, PyTuple _ =>
      Raise (TypeError "'<' not supported between instances of 'list' and 'tuple'")
  | PyTuple _, PyList _ =>
      Raise (TypeError "'<' not supported between instances of 'tuple' and 'list'")
  end.

(** The sort key of a record: a triple. *)
Definition key : Type := Z * pyseq * pyval.

(** [k1 < k2] on keys, as Python compares tuples: the first component in
    which the two differ ([==]) is compared with [<]; equal tuples are not
    smaller. *)
Definition key_lt (k1 k2 : key) : result bool :=
  let '(d1, t1, a1) := k1 in
  let '(d2, t2, a2) := k2 in
  if negb (d1 =? d2)%Z then Ok (d1 <? d2)%Z
  else if negb (pyseq_eqb t1 t2) then pyseq_lt t1 t2
  else if negb (py_eq a1 a2) then py_lt a1 a2
  else Ok false.

Definition key_ltb (k1 k2 : key) : bool :=
  match key_lt k1 k2 with Ok b => b | Raise _ => false end.

(** Whether [<] answers on the two keys, in either order. *)
Definition comparable (k1 k2 : key) : bool :=
  negb (raised (key_lt k1 k2)) && negb (raised (key_lt k2 k1)).

(** A stable sort by insertion: [x] goes before the first element that is
    not smaller than it. *)
Fixpoint insert_by_key (x : nat * key) (l : list (nat * key)) : list (nat * key) :=
  match l with
  | [] => [x]
  | y :: l' => if key_ltb (snd y) (snd x) then y :: insert_by_key x l' else x :: y :: l'
  end.

Fixpoint sort_by_key (l : list (nat * key)) : list (nat * key) :=
  match l with
  | [] => []
  | x :: l' => insert_by_key x (sort_by_key l')
  end.

(** [sorted(enumerate(data), key=...)] on the keys of the records, for
    keys whose floats are numbers: the embedding has no NaN, and with one
    [<] is no order and the outcome of the sort is not a function of the
    keys alone.  [sorted] is stable and only asks [<].  When every two keys
    compare, [<] orders them and the result is the one stable ordering,
    whatever the algorithm.  When two of them do not, the comparison that
    cannot be answered is one the sort needs (the keys that do compare
    leave the order of such a pair open), and its [TypeError] leaves
    [sorted]. *)
Definition sorted_enumerate (keys : list key) : result (list (nat * key)) :=
  if forallb (fun k1 => forallb (comparable k1) keys) keys
  then Ok (sort_by_key (zip (seq 0 (length keys)) keys))
  else Raise (TypeError "'<' not supported between instances").

Section canonical_order.

(** [hash] on strings: fixed within one run of the interpreter. *)
Variable hash : string -> Z.

Definition order_key (row : DataPoint.t) : key :=
  let dt := match list_index (DataPoint.data_type row) allowed_types with
            | Some i => Z.of_nat i
            | None => hash (DataPoint.data_type row)
            end in
  match DataPoint.tags row !! "ell" with
  | Some ell => (dt, DataPoint.tracers row, ell)
  | None =>
      match DataPoint.tags row !! "theta" with
      | Some theta => (dt, DataPoint.tracers row, theta)
      | None => (dt, DataPoint.tracers row, PFloat 0%Q)
      end
  end.

(** [to_canonical_order]: the indices are a Python list. *)
Definition to_canonical_order : method unit :=
  self ← self_;
  s ← lift (sorted_enumerate (map order_key (data self)));
  let indices := map (fun i : nat * key => Z.of_nat (fst i)) s in
  reorder (IdxList indices).

End canonical_order.

End Sacc.

(** ** The states a caller can reach

    A data set starts empty and changes only through its methods; a call
    that raises leaves the object as the method left it. *)

Inductive built : Sacc.t -> Prop :=
| built_init : built Sacc.init
| built_add_tracer_object S tr :
    built S -> built (fst (Sacc.add_tracer_object tr S))
| built_add_data_point S dt trc v later tags :
    built S -> built (fst (Sacc.add_data_point dt trc v later tags S))
| built_add_covariance S cov :
    built S -> built (fst (Sacc.add_covariance cov S))
| built_reorder S idx :
    built S -> built (fst (Sacc.reorder idx S))
| built_cut S mask :
    built S -> built (fst (Sacc.cut mask S)).

(** ** Predicates of the properties *)

Definition is_tuple (s : pyseq) : Prop :=
  match s with PyTuple _ => True | PyList _ => False end.

Definition tracers_are_tuples (S : Sacc.t) : Prop :=
  Forall (fun d => is_tuple (DataPoint.tracers d)) (Sacc.data S).

(** Record [i] lines up with row and column [i] of the covariance: there
    are as many records as the covariance has rows. *)
Definition aligned (S : Sacc.t) : Prop :=
  match Sacc.covariance S with
  | Some c => BaseCovariance.size c = Sacc.len S
  | None => True
  end.

(** The representations on which [masked] is plain indexing. *)
Definition dense_or_diagonal (c : Covariance) : Prop :=
  match c with Full _ | Diag _ => True | Block _ => False end.

(** An object that came out of its class constructor. *)
Definition constructed (c : Covariance) : Prop :=
  match c with
  | Full _ => True
  | Block b => b = BlockDiagonalCovariance.init (BlockDiagonalCovariance.blocks b)
  | Diag d => d = DiagonalCovariance.init (DiagonalCovariance.diag d)
  end.

(** A data set whose covariance, if any, is dense or diagonal, came out of
    its constructor and has one row per record. *)
Definition plainly_aligned (S : Sacc.t) : Prop :=
  match Sacc.covariance S with
  | Some c => dense_or_diagonal c /\ constructed c /\ BaseCovariance.size c = Sacc.len S
  | None => True
  end.

(** A dense covariance as [BaseCovariance.make] accepts it: as many rows as
    columns, every row of that length. *)
Definition full_square (c : FullCovariance.t) : Prop :=
  np.square (FullCovariance.covmat c).

(** The identity permutation [[0, 1, ..., n-1]] *)
Definition identity_indices (n : nat) : list Z := map Z.of_nat (seq 0 n).

(** ** Sample data *)

Definition mat (rows : list (list Q)) : np.ndarray2 :=
  np.Nd2 (length (hd [] rows)) rows.

Definition point (name : string) (trc : list string) (v : Q)
    (tags : list (string * pyval)) : DataPoint.t :=
  DataPoint.init name (PyTuple trc) v (list_to_map tags).

(** Three measurements; the third carries no [ell]. *)
Definition p0 : DataPoint.t := point "shear_ee" ["A"; "A"] 1%Q [("ell", PFloat 10%Q)].
Definition p1 : DataPoint.t := point "shear_ee" ["A"; "B"] 2%Q [("ell", PFloat 20%Q)].
Definition p2 : DataPoint.t := point "shear_ee" ["B"; "B"] 3%Q [].

Definition sacc_with (d : list DataPoint.t) (c : option Covariance) : Sacc.t :=
  Sacc.mk d ∅ c ∅.

Definition S_plain : Sacc.t := sacc_with [p0; p1; p2] None.

(** Dense covariances of three and of two records. *)
Definition full3 : FullCovariance.t :=
  FullCovariance.init (mat [[1; 2; 3]; [4; 5; 6]; [7; 8; 9]]%Q).

Definition S_full3 : Sacc.t := sacc_with [p0; p1; p2] (Some (Full full3)).

Definition full2 : FullCovariance.t :=
  FullCovariance.init (mat [[4; 1]; [1; 9]]%Q).

Definition S_full2 : Sacc.t := sacc_with [p0; p1] (Some (Full full2)).

(** Two records over two 1x1 blocks, and one record over one. *)
Definition two_blocks : BlockDiagonalCovariance.t :=
  BlockDiagonalCovariance.init [mat [[4%Q]]; mat [[9%Q]]].

Definition S_block : Sacc.t := sacc_with [p0; p1] (Some (Block two_blocks)).

Definition one_block : BlockDiagonalCovariance.t :=
  BlockDiagonalCovariance.init [mat [[4%Q]]].

(** Two records with the variances 4 and 9. *)
Definition diag2 : DiagonalCovariance.t := DiagonalCovariance.init [4%Q; 9%Q].

Definition S_diag : Sacc.t := sacc_with [p0; p1] (Some (Diag diag2)).

(** One record added with its tracers given as a list. *)
Definition S_AB : Sacc.t :=
  fst (Sacc.add_data_point "shear_ee" (PyList ["A"; "B"]) 1%Q true ∅ Sacc.init).

(** ** Predicates and samples of the further properties *)

(** The test of [indices] on the data type and the tracers of a record. *)
Definition selected (data_type : option string) (tracers_ : option pyseq)
    (d : DataPoint.t) : bool :=
  match tracers_ with
  | None => true
  | Some t => pyseq_eqb (DataPoint.tracers d) (tuple t)
  end
  && match data_type with
     | None => true
     | Some dt => bool_decide (DataPoint.data_type d = dt)
     end.

(** A selection by equality only: no name ends in [__lt] or [__gt]. *)
Definition equality_only (select : list (string * pyval)) : Prop :=
  Forall (fun s => endswith (fst s) "__lt" = false /\ endswith (fst s) "__gt" = false)
         select.

(** Whether [indices] takes a record: the data type and the tracers are the
    ones asked for and every selection on the tags holds. *)
Definition keeps (data_type : option string) (tracers_ : option pyseq)
    (select : list (string * pyval)) (d : DataPoint.t) : bool :=
  selected data_type tracers_ d
  && match Sacc.tags_ok d select with Ok true => true | _ => false end.

(** The records that one call with lists adds. *)
Definition two_point_records (dt bin1 bin2 name : string) (angles : list Q)
    (x : list Q) : list DataPoint.t :=
  zip_with (fun a v => DataPoint.mk dt (PyTuple [bin1; bin2]) v
                         {[ name := PFloat a ]}) angles x.

(** A data set with the tracers [A] and [B] registered and no record. *)
Definition S_bins : Sacc.t :=
  fst (Sacc.add_tracer_object (mkTracer "B")
         (fst (Sacc.add_tracer_object (mkTracer "A") Sacc.init))).

(** A covariance that [masked] restricts by plain indexing, with one row
    and one column, or one variance, per record. *)
Definition indexed_by (n : nat) (c : Covariance) : Prop :=
  match c with
  | Full c => np.nrows (FullCovariance.covmat c) = n
              /\ np.ncols (FullCovariance.covmat c) = n
  | Diag d => length (DiagonalCovariance.diag d) = n
  | Block _ => False
  end.

Definition aligned_by_index (S : Sacc.t) : Prop :=
  match Sacc.covariance S with
  | Some c => indexed_by (Sacc.len S) c
  | None => True
  end.

(** The rows and columns [js], in that order, of a covariance. *)
Definition restricted (js : list nat) (c : Covariance) : Covariance :=
  match c with
  | Full c =>
      Full (FullCovariance.init
              (np.Nd2 (length js)
                 (map (fun r => gather 0%Q r js)
                      (gather [] (np.rows (FullCovariance.covmat c)) js))))
  | Diag d => Diag (DiagonalCovariance.init (gather 0%Q (DiagonalCovariance.diag d) js))
  | Block b => Block b
  end.

(** The records and the covariance at the positions [js]. *)
Definition restricted_to (js : list nat) (S : Sacc.t) : Sacc.t :=
  Sacc.mk (gather DataPoint.dummy (Sacc.data S) js) (Sacc.tracers S)
          (restricted js <$> Sacc.covariance S) (Sacc.metadata S).

(** The boolean mask of length [n] that is [True] at the positions [js]. *)
Definition mask_of (n : nat) (js : list nat) : list bool :=
  map (fun i => bool_decide (i ∈ js)) (seq 0 n).

(** What holds of the covariance of every data set a caller can reach: a
    dense one has one row and one column per record, none is diagonal. *)
Definition covariance_invariant (S : Sacc.t) : Prop :=
  match Sacc.covariance S with
  | Some (Full c) => np.nrows (FullCovariance.covmat c) = Sacc.len S
                     /\ np.ncols (FullCovariance.covmat c) = Sacc.len S
  | Some (Diag _) => False
  | Some (Block _) | None => True
  end.

(** No record comes before one with a smaller key. *)
Definition in_canonical_order (hash : string -> Z) (ds : list DataPoint.t) : Prop :=
  forall i j a b, i < j -> ds !! i = Some a -> ds !! j = Some b ->
    Sacc.key_lt (Sacc.order_key hash b) (Sacc.order_key hash a) = Ok false.

(** The relation that a sorted list of keys satisfies between neighbours. *)
Definition not_after (a b : Sacc.key) : Prop := Sacc.key_ltb b a = false.

(** Two records out of their canonical order, with a dense covariance. *)
Definition S_shuffled : Sacc.t := sacc_with [p1; p0] (Some (Full full2)).

(** A hash for the witnesses. *)
Definition hash0 (s : string) : Z := Z.of_nat (String.length s).

(** The image unit of the two 1x1 blocks 4 and 9, as the header of
    [BlockDiagonalCovariance.from_fits] expects it. *)
Definition hdu_two_blocks : HDU :=
  mkHDU (Image1 [4%Q; 9%Q]) "covariance"
        (<["size_1" := HInt 1]> (<["size_0" := HInt 1]> (<["blocks" := HInt 2]> ∅))).

(** * Properties *)

(** ** The error monad and indexing *)

Lemma mapM_Ok_length {A B : Type} (f : A -> result B) (l : list A) (js : list B) :
  mapM f l = Ok js -> length js = length l.
Proof.
  revert js. induction l as [|x l IH]; intros js; cbn.
  - intros [= <-]. reflexivity.
  - destruct (f x) as [y|e]; cbn; [|discriminate].
    destruct (mapM f l) as [k|e]; cbn; [|discriminate].
    intros [= <-]. cbn. f_equal. apply IH. reflexivity.
Qed.

Lemma mapM_cons {A B : Type} (f : A -> result B) (x : A) (l : list A) :
  mapM f (x :: l) = (y ← f x; k ← mapM f l; Ok (y :: k)).
Proof. reflexivity. Qed.

Lemma py_index_in_range (n : nat) (i : nat) :
  i < n -> py_index n (Z.of_nat i) = Ok i.
Proof.
  intros H. unfold py_index.
  assert (H1 : (0 <=? Z.of_nat i)%Z = true) by (apply Z.leb_le; lia).
  assert (H2 : (Z.of_nat i <? Z.of_nat n)%Z = true) by (apply Z.ltb_lt; lia).
  rewrite H1, H2. cbn. rewrite Nat2Z.id. reflexivity.
Qed.

Lemma py_index_lt (n : nat) (i : Z) (k : nat) :
  py_index n i = Ok k -> k < n.
Proof.
  unfold py_index.
  destruct ((0 <=? i)%Z && (i <? Z.of_nat n)%Z) eqn:E1.
  - intros [= <-]. apply andb_prop in E1 as [H1 H2].
    apply Z.leb_le in H1. apply Z.ltb_lt in H2. lia.
  - destruct ((- Z.of_nat n <=? i)%Z && (i <? 0)%Z) eqn:E2; [|discriminate].
    intros [= <-]. apply andb_prop in E2 as [H1 H2].
    apply Z.leb_le in H1. apply Z.ltb_lt in H2. lia.
Qed.

Lemma gather_length {A : Type} (d : A) (xs : list A) (js : list nat) :
  length (gather d xs js) = length js.
Proof. unfold gather. apply length_map. Qed.

Lemma mapM_py_index_seq (n a k : nat) :
  a + k <= n -> mapM (py_index n) (map Z.of_nat (seq a k)) = Ok (seq a k).
Proof.
  revert a. induction k as [|k IH]; intros a H; cbn; [reflexivity|].
  rewrite py_index_in_range by lia. cbn.
  rewrite IH by lia. reflexivity.
Qed.

Lemma mapM_py_index_identity (n : nat) :
  mapM (py_index n) (identity_indices n) = Ok (seq 0 n).
Proof. apply mapM_py_index_seq. lia. Qed.

Lemma gather_seq_from {A : Type} (d : A) (pre xs : list A) :
  gather d (pre ++ xs) (seq (length pre) (length xs)) = xs.
Proof.
  revert pre. induction xs as [|x xs IH]; intros pre; cbn; [reflexivity|].
  f_equal.
  - rewrite app_nth2 by lia. rewrite Nat.sub_diag. reflexivity.
  - specialize (IH (pre ++ [x])). rewrite length_app in IH. cbn in IH.
    rewrite <- app_assoc in IH. cbn in IH.
    replace (S (length pre)) with (length pre + 1) by lia. exact IH.
Qed.

Lemma gather_identity {A : Type} (d : A) (xs : list A) :
  gather d xs (seq 0 (length xs)) = xs.
Proof. apply (gather_seq_from d [] xs). Qed.

(** ** Rejected masks (C9) *)

Lemma to_bool_mask_bool (n : nat) (a : np.ndarray1) :
  np.dtype_of a = np.bool_ -> exists m, a = np.NdBool m /\ Sacc.to_bool_mask n a = Ok m.
Proof.
  destruct a as [m|w l|o l]; cbn; try discriminate.
  intros _. exists m. split; reflexivity.
Qed.

Lemma to_bool_mask_wrong_type (n : nat) (a : np.ndarray1) :
  np.dtype_of a ∉ [np.bool_; np.integer np.int8; np.integer np.int16;
                    np.integer np.int32; np.integer np.int64] ->
  Sacc.to_bool_mask n a = Raise (ValueError "Wrong mask type").
Proof.
  intros H. destruct a as [m|w l|o l].
  - exfalso. apply H. cbn. set_solver.
  - destruct w; try (exfalso; apply H; cbn; set_solver); reflexivity.
  - destruct o; reflexivity.
Qed.

(** C9.  [cut(mask)] raises "Mask passed in is wrong size" when the mask is a
    boolean array whose length is not the number of records, and "Wrong mask
    type" when the mask is neither a boolean array nor an array of one of
    the signed integer types; in both cases the data set is left as it
    was: records, tracers, covariance and metadata. *)
Theorem cut_rejects_bad_mask (S : Sacc.t) (mask : Sacc.mask_arg) :
  (np.dtype_of (Sacc.np_array mask) = np.bool_ ->
   np.len (Sacc.np_array mask) <> Sacc.len S ->
   Sacc.cut mask S = (S, Raise (ValueError "Mask passed in is wrong size")))
  /\
  (np.dtype_of (Sacc.np_array mask) ∉
     [np.bool_; np.integer np.int8; np.integer np.int16;
      np.integer np.int32; np.integer np.int64] ->
   Sacc.cut mask S = (S, Raise (ValueError "Wrong mask type"))).
Proof.
  split.
  - intros Hb Hlen.
    destruct (to_bool_mask_bool (Sacc.len S) _ Hb) as (m & Ha & Hm).
    unfold Sacc.cut, mbind, Sacc.method_bind, Sacc.self_, Sacc.lift. cbn.
    rewrite Hm. rewrite Ha in Hlen. cbn in Hlen.
    destruct (Nat.eqb_spec (length m) (Sacc.len S)) as [E|E]; [contradiction|].
    reflexivity.
  - intros Hd.
    unfold Sacc.cut, mbind, Sacc.method_bind, Sacc.self_, Sacc.lift. cbn.
    rewrite (to_bool_mask_wrong_type _ _ Hd). reflexivity.
Qed.

Lemma cut_rejects_bad_mask_witness :
  Sacc.cut (Sacc.MaskList [PBool true; PBool false]) S_plain
    = (S_plain, Raise (ValueError "Mask passed in is wrong size"))
  /\ Sacc.cut (Sacc.MaskList [PFloat 1%Q; PFloat 0%Q; PFloat 0%Q]) S_plain
    = (S_plain, Raise (ValueError "Wrong mask type")).
Proof.
  split.
  - apply (proj1 (cut_rejects_bad_mask S_plain (Sacc.MaskList [PBool true; PBool false]))).
    + reflexivity.
    + vm_compute. lia.
  - apply (proj2 (cut_rejects_bad_mask S_plain
                    (Sacc.MaskList [PFloat 1%Q; PFloat 0%Q; PFloat 0%Q]))).
    cbn. apply (bool_decide_unpack _). vm_compute. exact I.
Defined.

(** ** Tracer combinations are tuples (C10) *)

Lemma gather_Forall {A : Type} (P : A -> Prop) (d : A) (xs : list A) (js : list nat) :
  P d -> Forall P xs -> Forall P (gather d xs js).
Proof.
  intros Hd Hxs. unfold gather. apply Forall_forall. intros x Hx.
  apply list_elem_of_In, in_map_iff in Hx as (j & <- & _).
  destruct (Nat.lt_ge_cases j (length xs)) as [Hlt|Hge].
  - rewrite Forall_forall in Hxs. apply Hxs, list_elem_of_In, nth_In, Hlt.
  - rewrite nth_overflow by lia. exact Hd.
Qed.

Lemma keep_unmasked_Forall (P : DataPoint.t -> Prop) (d : list DataPoint.t)
    (mask : list bool) :
  Forall P d -> Forall P (Sacc.keep_unmasked d mask).
Proof.
  intros H. revert mask. induction H as [|x d Hx Hd IH]; intros mask; cbn.
  - constructor.
  - destruct mask as [|b mask]; [constructor|].
    destruct b; cbn; [apply IH|constructor; [exact Hx|apply IH]].
Qed.

Lemma add_tracer_object_data (tr : Tracer) (S : Sacc.t) :
  Sacc.data (fst (Sacc.add_tracer_object tr S)) = Sacc.data S.
Proof. reflexivity. Qed.

Lemma add_covariance_data (cov : BaseCovariance.cov_arg) (S : Sacc.t) :
  Sacc.data (fst (Sacc.add_covariance cov S)) = Sacc.data S.
Proof.
  unfold Sacc.add_covariance, mbind, Sacc.method_bind, Sacc.self_, Sacc.lift. cbn.
  destruct (BaseCovariance.make cov (Sacc.len S)); reflexivity.
Qed.

Lemma add_data_point_data (dt : string) (trc : pyseq) (v : Q) (later : bool)
    (tags : gmap string pyval) (S : Sacc.t) :
  Sacc.data (fst (Sacc.add_data_point dt trc v later tags S)) = Sacc.data S
  \/ Sacc.add_data_point dt trc v later tags S
     = (Sacc.mk (Sacc.data S ++ [DataPoint.mk dt (PyTuple (items trc)) v tags])
                (Sacc.tracers S) (Sacc.covariance S) (Sacc.metadata S), Ok tt).
Proof.
  unfold Sacc.add_data_point, mbind, Sacc.method_bind, Sacc.self_, Sacc.lift,
    Sacc.raise, Sacc.lift. cbn.
  destruct (Sacc.covariance S) as [c|] eqn:Ec; [left; reflexivity|].
  destruct (Sacc.check_tracers (Sacc.tracers S) later (items trc)) as [[]|e];
    [right|left; reflexivity].
  unfold Sacc.set_data. cbn. rewrite Ec. reflexivity.
Qed.

Lemma reorder_data (idx : Sacc.index_seq) (S : Sacc.t) :
  Sacc.data (fst (Sacc.reorder idx S)) = Sacc.data S
  \/ exists js, Sacc.data (fst (Sacc.reorder idx S))
                = gather DataPoint.dummy (Sacc.data S) js.
Proof.
  unfold Sacc.reorder, mbind, Sacc.method_bind, Sacc.self_, Sacc.lift,
    Sacc.data_at, result_bind. cbn.
  destruct (mapM (py_index (length (Sacc.data S))) (Sacc.idx_items idx)) as [js|e];
    [right; exists js|left; reflexivity].
  cbn. destruct (Sacc.covariance S) as [c|]; [|reflexivity].
  unfold mbind, Sacc.method_bind, Sacc.lift.
  destruct (BaseCovariance.masked c (Sacc.idx_selector idx)); reflexivity.
Qed.

Lemma cut_data (mask : Sacc.mask_arg) (S : Sacc.t) :
  Sacc.data (fst (Sacc.cut mask S)) = Sacc.data S
  \/ exists m, Sacc.data (fst (Sacc.cut mask S)) = Sacc.keep_unmasked (Sacc.data S) m.
Proof.
  unfold Sacc.cut, mbind, Sacc.method_bind, Sacc.self_, Sacc.lift. cbn.
  destruct (Sacc.to_bool_mask (Sacc.len S) (Sacc.np_array mask)) as [m|e];
    [|left; reflexivity].
  destruct (length m =? Sacc.len S); cbn; [|left; reflexivity].
  right. exists m.
  destruct (Sacc.covariance S) as [c|]; [|reflexivity].
  unfold mbind, Sacc.method_bind, Sacc.lift.
  destruct (BaseCovariance.masked c (np.SelBool (np.invert m))); reflexivity.
Qed.

Lemma built_tracers_are_tuples (S : Sacc.t) : built S -> tracers_are_tuples S.
Proof.
  unfold tracers_are_tuples.
  induction 1 as [|S tr _ IH|S dt trc v later tags _ IH|S cov _ IH
                  |S idx _ IH|S mask _ IH].
  - constructor.
  - rewrite add_tracer_object_data. exact IH.
  - destruct (add_data_point_data dt trc v later tags S) as [E|E]; rewrite E;
      [exact IH|].
    cbn. apply Forall_app. split; [exact IH|]. repeat constructor.
  - rewrite add_covariance_data. exact IH.
  - destruct (reorder_data idx S) as [E|[js E]]; rewrite E; [exact IH|].
    apply gather_Forall; [exact I|exact IH].
  - destruct (cut_data mask S) as [E|[m E]]; rewrite E; [exact IH|].
    apply keep_unmasked_Forall, IH.
Qed.

(** C10.  Every record of a data set built through its methods holds its
    tracer combination as a tuple; [add_data_point] stores [tuple(tracers)];
    [indices] compares with [tuple(tracers)] of its filter: so a filter
    given as a list selects what the same filter given as a tuple selects,
    and a data point added with a list is the data point added with the
    tuple of the same names. *)
Theorem tracers_compared_as_tuples :
  (forall S, built S -> tracers_are_tuples S)
  /\ (forall S S' dt trc v later tags,
        Sacc.add_data_point dt trc v later tags S = (S', Ok tt) ->
        Sacc.data S' = Sacc.data S ++ [DataPoint.mk dt (PyTuple (items trc)) v tags])
  /\ (forall S dt f f' select,
        items f = items f' ->
        Sacc.indices S dt (Some f) select = Sacc.indices S dt (Some f') select)
  /\ (forall S dt t t' v later tags,
        items t = items t' ->
        Sacc.add_data_point dt t v later tags S
        = Sacc.add_data_point dt t' v later tags S).
Proof.
  split; [exact built_tracers_are_tuples|]. split; [|split].
  - intros S S' dt trc v later tags H.
    destruct (add_data_point_data dt trc v later tags S) as [E|E].
    + exfalso. revert H E.
      unfold Sacc.add_data_point, mbind, Sacc.method_bind, Sacc.self_, Sacc.lift,
        Sacc.raise, Sacc.lift. cbn.
      destruct (Sacc.covariance S) as [c|]; [discriminate|].
      destruct (Sacc.check_tracers (Sacc.tracers S) later (items trc)) as [[]|e];
        [|discriminate].
      unfold Sacc.set_data. cbn. intros _ E.
      apply (f_equal (@length _)) in E. rewrite length_app in E. cbn in E. lia.
    + rewrite E in H. injection H as <-. reflexivity.
  - intros S dt f f' select H. unfold Sacc.indices, tuple. rewrite H. reflexivity.
  - intros S dt t t' v later tags H. unfold Sacc.add_data_point, tuple.
    rewrite H. reflexivity.
Qed.

Lemma tracers_compared_as_tuples_witness :
  tracers_are_tuples S_AB
  /\ Sacc.indices S_AB None (Some (PyList ["A"; "B"])) [] = Ok [0]
  /\ Sacc.indices S_AB None (Some (PyTuple ["A"; "B"])) [] = Ok [0].
Proof.
  destruct tracers_compared_as_tuples as (H1 & H2 & H3 & H4).
  split; [|split].
  - apply H1. apply built_add_data_point, built_init.
  - rewrite (H3 S_AB None (PyList ["A"; "B"]) (PyTuple ["A"; "B"]) [] eq_refl).
    reflexivity.
  - reflexivity.
Defined.

(** ** The cut of three records with a dense covariance (C2) *)

(** C2, as the code has it.  In the mask of [cut], [True] marks a record to
    remove.  On three records with a dense covariance,
    [cut([False, True, False])] keeps records 0 and 2 with the 2x2 matrix of
    rows and columns 0 and 2; it is [cut([True, False, True])] that leaves
    one record, record 1, whose only covariance entry is the original
    [[1][1]]. *)
Theorem cut_three_dense (r0 r1 r2 : DataPoint.t)
    (c00 c01 c02 c10 c11 c12 c20 c21 c22 : Q)
    (trs : gmap string Tracer) (meta : gmap string pyval) :
  let C := np.Nd2 3 [[c00; c01; c02]; [c10; c11; c12]; [c20; c21; c22]] in
  let S := Sacc.mk [r0; r1; r2] trs (Some (Full (FullCovariance.init C))) meta in
  Sacc.cut (Sacc.MaskList [PBool false; PBool true; PBool false]) S
  = (Sacc.mk [r0; r2] trs
       (Some (Full (FullCovariance.init (np.Nd2 2 [[c00; c02]; [c20; c22]])))) meta,
     Ok tt)
  /\
  Sacc.cut (Sacc.MaskList [PBool true; PBool false; PBool true]) S
  = (Sacc.mk [r1] trs
       (Some (Full (FullCovariance.init (np.Nd2 1 [[c11]])))) meta,
     Ok tt).
Proof. split; reflexivity. Qed.

(** C2 as stated fails: after [cut([False, True, False])] on three records
    with the dense covariance [[1,2,3],[4,5,6],[7,8,9]], two records are
    left, and the covariance is not the single entry 5. *)
Lemma cut_three_dense_counterexample :
  let S' := fst (Sacc.cut (Sacc.MaskList [PBool false; PBool true; PBool false]) S_full3) in
  ~ (Sacc.len S' = 1
     /\ Sacc.covariance S' = Some (Full (FullCovariance.init (np.Nd2 1 [[5%Q]])))).
Proof. vm_compute. intros [H _]. discriminate H. Qed.

(** ** Records and covariance stay aligned (C1) *)

Lemma positions_idx_selector (n : nat) (idx : Sacc.index_seq) :
  np.positions n (Sacc.idx_selector idx) = mapM (py_index n) (Sacc.idx_items idx).
Proof. destruct idx; reflexivity. Qed.

Lemma getitem_rows_cols_nrows (a c : np.ndarray2) (sel : np.selector) :
  np.getitem_rows_cols a sel = Ok c ->
  exists js, np.positions (np.nrows a) sel = Ok js /\ np.nrows c = length js.
Proof.
  unfold np.getitem_rows_cols, np.getitem_rows, np.getitem_cols, mbind, result_bind.
  destruct (np.positions (np.nrows a) sel) as [js|e]; [|discriminate]. cbn.
  destruct (np.positions (np.ncols a) sel) as [ks|e]; [|discriminate].
  intros [= <-]. exists js. split; [reflexivity|].
  unfold np.nrows. cbn. rewrite length_map. apply gather_length.
Qed.

Lemma masked_size (c c' : Covariance) (sel : np.selector) :
  dense_or_diagonal c -> constructed c ->
  BaseCovariance.masked c sel = Ok c' ->
  dense_or_diagonal c' /\ constructed c'
  /\ exists js, np.positions (BaseCovariance.size c) sel = Ok js
                /\ BaseCovariance.size c' = length js.
Proof.
  destruct c as [f|b|d]; cbn; [intros _ _| intros [] |intros _ Hd].
  - unfold FullCovariance.masked, mbind, result_bind.
    destruct (np.getitem_rows_cols (FullCovariance.covmat f) sel) as [C|e] eqn:E;
      [|discriminate].
    intros [= <-]. split; [exact I|]. split; [exact I|].
    apply getitem_rows_cols_nrows in E. exact E.
  - unfold DiagonalCovariance.masked, np.getitem1, mbind, result_bind.
    rewrite Hd. cbn.
    destruct (np.positions (length (DiagonalCovariance.diag d)) sel) as [js|e];
      [|discriminate].
    intros [= <-]. split; [exact I|]. split; [reflexivity|].
    exists js. split; [reflexivity|]. cbn. apply gather_length.
Qed.

Lemma keep_unmasked_length (d : list DataPoint.t) (m : list bool) (k : nat) :
  length m = length d ->
  length (Sacc.keep_unmasked d m) = length (where_true_from k (np.invert m)).
Proof.
  revert m k. induction d as [|x d IH]; intros [|b m] k H; cbn in *;
    try reflexivity; try discriminate.
  rewrite !length_app. rewrite (IH m (S k)) by lia.
  destruct b; reflexivity.
Qed.

(** [reorder] keeps a dense or diagonal covariance aligned with the records
    whenever it returns. *)
Lemma reorder_keeps_alignment (S S' : Sacc.t) (idx : Sacc.index_seq) :
  plainly_aligned S -> Sacc.reorder idx S = (S', Ok tt) -> plainly_aligned S'.
Proof.
  unfold plainly_aligned, Sacc.reorder, mbind, Sacc.method_bind, Sacc.self_,
    Sacc.lift, Sacc.data_at, result_bind. cbn.
  destruct (mapM (py_index (length (Sacc.data S))) (Sacc.idx_items idx))
    as [js|e] eqn:Ejs; [|discriminate]. cbn.
  destruct (Sacc.covariance S) as [c|] eqn:Ec.
  - intros (Hd & Hc & Hsz).
    unfold mbind, Sacc.method_bind, Sacc.lift.
    destruct (BaseCovariance.masked c (Sacc.idx_selector idx)) as [c'|e] eqn:Em;
      [|discriminate].
    cbn. intros [= <-]. cbn.
    destruct (masked_size c c' _ Hd Hc Em) as (Hd' & Hc' & ks & Hks & Hsz').
    split; [exact Hd'|]. split; [exact Hc'|].
    rewrite positions_idx_selector, Hsz in Hks. unfold Sacc.len, result_bind in Hks.
    rewrite Ejs in Hks. injection Hks as <-.
    rewrite Hsz'. unfold Sacc.len. cbn. symmetry. apply gather_length.
  - intros _ [= <-]. exact I.
Qed.

(** [cut] keeps a dense or diagonal covariance aligned with the records
    whenever it returns. *)
Lemma cut_keeps_alignment (S S' : Sacc.t) (mask : Sacc.mask_arg) :
  plainly_aligned S -> Sacc.cut mask S = (S', Ok tt) -> plainly_aligned S'.
Proof.
  unfold plainly_aligned, Sacc.cut, mbind, Sacc.method_bind, Sacc.self_,
    Sacc.lift. cbn.
  destruct (Sacc.to_bool_mask (Sacc.len S) (Sacc.np_array mask)) as [m|e];
    [|discriminate].
  destruct (Nat.eqb_spec (length m) (Sacc.len S)) as [Hlen|Hlen]; cbn;
    [|discriminate].
  destruct (Sacc.covariance S) as [c|] eqn:Ec.
  - intros (Hd & Hc & Hsz).
    unfold mbind, Sacc.method_bind, Sacc.lift.
    destruct (BaseCovariance.masked c (np.SelBool (np.invert m))) as [c'|e] eqn:Em;
      [|discriminate].
    cbn. intros [= <-]. cbn.
    destruct (masked_size c c' _ Hd Hc Em) as (Hd' & Hc' & ks & Hks & Hsz').
    split; [exact Hd'|]. split; [exact Hc'|].
    cbn in Hks. destruct (length (np.invert m) =? BaseCovariance.size c);
      [|discriminate].
    injection Hks as <-. rewrite Hsz'. unfold Sacc.len. cbn.
    symmetry. apply keep_unmasked_length. exact Hlen.
  - intros _ [= <-]. exact I.
Qed.

(** ** What the block-diagonal class does with a selector *)

Lemma split_from_cons {A : Type} (st : nat) (points : list nat) (ary : list A) :
  exists x l, np.split_from st points ary = x :: l.
Proof. destruct points; cbn; eauto. Qed.

(** A boolean mask always ends in [TypeError]: the list of blocks is indexed
    with the first piece of the mask. *)
Lemma block_masked_bool_raises (self : BlockDiagonalCovariance.t) (m : list bool) :
  BlockDiagonalCovariance.masked self (np.SelBool m)
  = Raise (TypeError "only integer scalar arrays can be converted to a scalar index").
Proof.
  unfold BlockDiagonalCovariance.masked, np.split.
  destruct (split_from_cons 0
              (removelast (np.cumsum (BlockDiagonalCovariance.block_sizes self))) m)
    as (x & l & ->).
  reflexivity.
Qed.




(** [cut] on a data set with a block-diagonal covariance: a mask of the right
    length removes the records, then the covariance call raises and the
    covariance stays as it was. *)
Lemma cut_block_diagonal (S : Sacc.t) (c : BlockDiagonalCovariance.t) (m : list bool) :
  Sacc.covariance S = Some (Block c) ->
  length m = Sacc.len S ->
  Sacc.cut (Sacc.MaskArray (np.NdBool m)) S
  = (Sacc.mk (Sacc.keep_unmasked (Sacc.data S) m) (Sacc.tracers S)
             (Some (Block c)) (Sacc.metadata S),
     Raise (TypeError "only integer scalar arrays can be converted to a scalar index")).
Proof.
  intros Hc Hlen.
  unfold Sacc.cut, mbind, Sacc.method_bind, Sacc.self_, Sacc.lift. cbn.
  change (Sacc.to_bool_mask (Sacc.len S) (np.NdBool m)) with (Ok m).
  cbn. rewrite Hlen, Nat.eqb_refl. cbn. rewrite Hc.
  unfold mbind, Sacc.method_bind, Sacc.lift, BaseCovariance.masked.
  rewrite block_masked_bool_raises. reflexivity.
Qed.

(** C1 fails on the block-diagonal representation.  Two records over two 1x1
    blocks: [cut([True, False])] leaves one record and raises [TypeError]
    from the covariance call, [reorder([0])] leaves one record and raises
    [AttributeError] (a list) or [NameError] (an array); each time the
    covariance still has size 2. *)
Theorem block_diagonal_mutation_breaks_alignment :
  (let r := Sacc.cut (Sacc.MaskList [PBool true; PBool false]) S_block in
   snd r = Raise (TypeError "only integer scalar arrays can be converted to a scalar index")
   /\ Sacc.len (fst r) = 1
   /\ BaseCovariance.size <$> Sacc.covariance (fst r) = Some 2
   /\ ~ aligned (fst r))
  /\
  (let r := Sacc.reorder (Sacc.IdxList [0%Z]) S_block in
   snd r = Raise (AttributeError "'list' object has no attribute 'dtype'")
   /\ Sacc.len (fst r) = 1
   /\ BaseCovariance.size <$> Sacc.covariance (fst r) = Some 2
   /\ ~ aligned (fst r))
  /\
  (let r := Sacc.reorder (Sacc.IdxArray [0%Z]) S_block in
   snd r = Raise (NameError "block")
   /\ Sacc.len (fst r) = 1
   /\ BaseCovariance.size <$> Sacc.covariance (fst r) = Some 2
   /\ ~ aligned (fst r)).
Proof.
  repeat split; try reflexivity; vm_compute; discriminate.
Qed.

(** ** The densifying branch (C3) *)

(** What the branch is written to compute: the direct sum of the blocks,
    which [block_diag] returns when the blocks are passed as separate
    arguments. *)
Lemma block_diag_of_separate_blocks (bs : list np.ndarray2) :
  bs <> [] ->
  scipy_linalg.block_diag (map scipy_linalg.Arr bs) = Ok (scipy_linalg.direct_sum bs).
Proof.
  intros Hne. unfold scipy_linalg.block_diag.
  assert (E : mapM scipy_linalg.atleast_2d_checked (map scipy_linalg.Arr bs) = Ok bs).
  { clear Hne. induction bs as [|b bs IH]; cbn; [reflexivity|].
    cbn in IH. rewrite IH. reflexivity. }
  destruct bs as [|b bs]; [contradiction|]. cbn [map] in *. rewrite E. reflexivity.
Qed.

(** C3 fails.  Two 1x1 blocks [[4]] and [[9]] and the selector [[1, 0]],
    which is not increasing: [masked] raises [ValueError] from [block_diag]
    instead of returning the dense matrix [[9, 0], [0, 4]] that the same
    selector takes out of the expanded matrix. *)
Theorem block_masked_unordered_fails :
  BlockDiagonalCovariance.masked two_blocks (np.SelInt [1%Z; 0%Z])
  = Raise (ValueError
      "arguments in the following positions have dimension greater than 2: [0]")
  /\ np.getitem_rows_cols (BlockDiagonalCovariance.expanded two_blocks)
       (np.SelInt [1%Z; 0%Z])
     = Ok (np.Nd2 2 [[9%Q; 0%Q]; [0%Q; 4%Q]]).
Proof. split; reflexivity. Qed.

(** ** The identity permutation (C5) *)

Lemma gather_rows_identity (a : np.ndarray2) :
  np.wf a ->
  map (fun r => gather 0%Q r (seq 0 (np.ncols a))) (np.rows a) = np.rows a.
Proof.
  unfold np.wf. intros H. induction H as [|r rs Hr _ IH]; cbn; [reflexivity|].
  rewrite IH. f_equal. rewrite <- Hr. apply gather_identity.
Qed.

Lemma getitem_rows_cols_identity (a : np.ndarray2) (idx : Sacc.index_seq) :
  np.square a ->
  Sacc.idx_items idx = identity_indices (np.nrows a) ->
  np.getitem_rows_cols a (Sacc.idx_selector idx) = Ok a.
Proof.
  intros [Hwf Hsq] Hidx.
  unfold np.getitem_rows_cols, np.getitem_rows, np.getitem_cols.
  rewrite positions_idx_selector, Hidx, mapM_py_index_identity. cbn.
  rewrite positions_idx_selector, Hidx, Hsq, mapM_py_index_identity. cbn.
  replace (gather [] (np.rows a) (seq 0 (np.ncols a))) with (np.rows a)
    by (rewrite <- Hsq; symmetry; apply gather_identity).
  rewrite length_seq, (gather_rows_identity a Hwf). destruct a; reflexivity.
Qed.

(** X7.  [reorder] with the identity permutation, given as a list or as an
    array, returns and changes nothing when the covariance is dense (and
    square) or diagonal, or absent. *)
Lemma reorder_identity_plain (S : Sacc.t) (idx : Sacc.index_seq) :
  plainly_aligned S ->
  match Sacc.covariance S with Some (Full c) => full_square c | _ => True end ->
  Sacc.idx_items idx = identity_indices (Sacc.len S) ->
  Sacc.reorder idx S = (S, Ok tt).
Proof.
  intros Hal Hsq Hidx. destruct S as [d trs cov meta].
  unfold plainly_aligned, Sacc.len in *. cbn in *.
  unfold Sacc.reorder, mbind, Sacc.method_bind, Sacc.self_, Sacc.lift, Sacc.data_at.
  cbn. rewrite Hidx, mapM_py_index_identity. cbn. rewrite gather_identity.
  destruct cov as [[f|b|dg]|]; cbn; [| destruct Hal as [[] _] | |reflexivity].
  - destruct Hal as (_ & _ & Hsz).
    unfold mbind, Sacc.method_bind, Sacc.lift, FullCovariance.masked.
    cbn in Hsz. unfold FullCovariance.size in Hsz.
    rewrite (getitem_rows_cols_identity _ idx Hsq) by (rewrite Hsz; exact Hidx).
    cbn. destruct f; reflexivity.
  - destruct Hal as (_ & Hc & Hsz). cbn in Hc.
    unfold mbind, Sacc.method_bind, Sacc.lift, DiagonalCovariance.masked, np.getitem1.
    rewrite positions_idx_selector, Hidx.
    rewrite Hc in Hsz. cbn in Hsz. rewrite <- Hsz, mapM_py_index_identity. cbn.
    rewrite gather_identity. rewrite <- Hc. reflexivity.
Qed.

(** C5 fails on the block-diagonal representation.  Two records over two 1x1
    blocks and the identity permutation [[0, 1]]: given as a list, [reorder]
    raises [AttributeError]; given as an array, it raises [NameError].  The
    same call returns and changes nothing on the dense and on the diagonal
    covariance. *)
Theorem reorder_identity_block_diagonal_raises :
  snd (Sacc.reorder (Sacc.IdxList (identity_indices 2)) S_block)
    = Raise (AttributeError "'list' object has no attribute 'dtype'")
  /\ snd (Sacc.reorder (Sacc.IdxArray (identity_indices 2)) S_block)
    = Raise (NameError "block")
  /\ Sacc.reorder (Sacc.IdxList (identity_indices 2)) S_full2 = (S_full2, Ok tt)
  /\ Sacc.reorder (Sacc.IdxList (identity_indices 2)) S_diag = (S_diag, Ok tt).
Proof. repeat split; reflexivity. Qed.

(** ** The block of a single index (C7) *)

(** On the dense representation the block of one index is the 1x1 matrix of
    its variance. *)
Lemma full_get_block_single (c : FullCovariance.t) (i : nat) :
  i < np.nrows (FullCovariance.covmat c) ->
  i < np.ncols (FullCovariance.covmat c) ->
  FullCovariance.get_block c (np.SelList [Z.of_nat i])
  = Ok (np.Nd2 1 [[np.entry (FullCovariance.covmat c) i i]]).
Proof.
  intros Hr Hc.
  unfold FullCovariance.get_block, np.getitem_rows_cols, np.getitem_rows,
    np.getitem_cols, np.positions.
  cbn. rewrite (py_index_in_range _ _ Hr). cbn.
  rewrite (py_index_in_range _ _ Hc). reflexivity.
Qed.

(** X25.  On the diagonal representation [get_block] never returns: what
    indexing leaves is one-dimensional, and [np.diagonal] wants two
    dimensions. *)
Lemma diagonal_get_block_never_returns (d : DiagonalCovariance.t) (sel : np.selector) :
  raised (DiagonalCovariance.get_block d sel) = true.
Proof.
  unfold DiagonalCovariance.get_block.
  destruct (np.getitem1 (DiagonalCovariance.diag d) sel); reflexivity.
Qed.

(** X26.  On the block-diagonal representation with at least one block
    [get_block] never returns either. *)
Lemma block_get_block_never_returns (b : np.ndarray2) (bs : list np.ndarray2)
    (sel : np.selector) :
  raised (BlockDiagonalCovariance.get_block
            (BlockDiagonalCovariance.init (b :: bs)) sel) = true.
Proof. destruct sel; reflexivity. Qed.

(** C7 fails on two of the three representations.  For the single index 0:
    the diagonal covariance [4, 9] raises [ValueError]; the block-diagonal
    covariance of the blocks [[4]] and [[9]] raises [NameError] for an index
    array and [TypeError] for an index list.  The dense covariance
    [[4, 1], [1, 9]] returns [[4]]. *)
Theorem get_block_single_index_fails :
  DiagonalCovariance.get_block diag2 (np.SelList [0%Z])
    = Raise (ValueError "diag requires an array of at least two dimensions")
  /\ BlockDiagonalCovariance.get_block two_blocks (np.SelInt [0%Z])
    = Raise (NameError "block")
  /\ BlockDiagonalCovariance.get_block two_blocks (np.SelList [0%Z])
    = Raise (TypeError "'>=' not supported between instances of 'list' and 'int'")
  /\ FullCovariance.get_block full2 (np.SelList [0%Z]) = Ok (np.Nd2 1 [[4%Q]]).
Proof. repeat split; reflexivity. Qed.

(** ** Serialisation (C8) *)

(** The dense representation comes back from its own [from_fits] as it
    was. *)
Lemma full_fits_roundtrip (c : FullCovariance.t) :
  FullCovariance.from_fits (FullCovariance.to_fits c) = c.
Proof. destruct c. reflexivity. Qed.

(** X28.  [Sacc.load] goes through the base class, whose [from_fits] never
    returns: [KeyError] without the class tag in the header, [NameError]
    with it. *)
Lemma base_from_fits_never_returns (hdu : HDU) :
  raised (BaseCovariance.from_fits hdu) = true.
Proof.
  unfold BaseCovariance.from_fits.
  destruct (hdu_header hdu !! "saccclss"); reflexivity.
Qed.

(** C8 fails on the block-diagonal representation: [to_fits] never returns,
    whatever the blocks, so there is nothing to read back.  For the blocks
    [[4]] and [[9]] it raises [AttributeError] on [self.covmat]; with no
    block at all it raises [ValueError] from [np.concatenate]. *)
Theorem block_to_fits_never_returns :
  (forall self : BlockDiagonalCovariance.t,
     raised (BlockDiagonalCovariance.to_fits self) = true)
  /\ BlockDiagonalCovariance.to_fits two_blocks
     = Raise (AttributeError
         "'BlockDiagonalCovariance' object has no attribute 'covmat'")
  /\ BlockDiagonalCovariance.to_fits one_block
     = Raise (AttributeError
         "'BlockDiagonalCovariance' object has no attribute 'covmat'")
  /\ BlockDiagonalCovariance.to_fits (BlockDiagonalCovariance.init [])
     = Raise (ValueError "need at least one array to concatenate").
Proof.
  split; [|repeat split; reflexivity].
  intros self. unfold BlockDiagonalCovariance.to_fits.
  destruct (np.concatenate _); reflexivity.
Qed.

(** ** A tag that a record does not carry (C6) *)

Lemma py_lt_None (val : pyval) : py_lt PNone val = Raise (not_supported "<" PNone val).
Proof. destruct val; reflexivity. Qed.

Lemma py_gt_None (val : pyval) : py_gt PNone val = Raise (not_supported ">" PNone val).
Proof. destruct val; reflexivity. Qed.

(** An inequality on a tag the record does not carry raises, whatever the
    threshold and whatever follows in the selection. *)
Lemma tags_ok_missing_lt (d : DataPoint.t) (name : string) (val : pyval)
    (rest : list (string * pyval)) :
  endswith name "__lt" = true ->
  DataPoint.tags d !! drop_last 4 name = None ->
  Sacc.tags_ok d ((name, val) :: rest) = Raise (not_supported "<" PNone val).
Proof.
  intros He Hm. cbn [Sacc.tags_ok]. rewrite He.
  unfold DataPoint.get_tag. rewrite Hm. cbn [default].
  rewrite py_lt_None. reflexivity.
Qed.

Lemma tags_ok_missing_gt (d : DataPoint.t) (name : string) (val : pyval)
    (rest : list (string * pyval)) :
  endswith name "__lt" = false ->
  endswith name "__gt" = true ->
  DataPoint.tags d !! drop_last 4 name = None ->
  Sacc.tags_ok d ((name, val) :: rest) = Raise (not_supported ">" PNone val).
Proof.
  intros Hl He Hm. cbn [Sacc.tags_ok]. rewrite Hl, He.
  unfold DataPoint.get_tag. rewrite Hm. cbn [default].
  rewrite py_gt_None. reflexivity.
Qed.

(** The equality predicate on a missing tag is a plain non-match. *)
Lemma tags_ok_missing_eq (d : DataPoint.t) (name : string) (val : pyval)
    (rest : list (string * pyval)) :
  endswith name "__lt" = false ->
  endswith name "__gt" = false ->
  DataPoint.tags d !! name = None ->
  val <> PNone ->
  Sacc.tags_ok d ((name, val) :: rest) = Ok false.
Proof.
  intros Hl Hg Hm Hv. cbn [Sacc.tags_ok]. rewrite Hl, Hg.
  unfold DataPoint.get_tag. rewrite Hm. cbn [default].
  destruct val; try reflexivity. contradiction.
Qed.

(** C6 fails.  Three records, the third without the tag [ell]: the selection
    [ell__lt=15] raises [TypeError] (and so does [ell__gt=15]) instead of
    returning the indices of the records that match, while the equality
    selection [ell=10] passes over the third record and returns [[0]]. *)
Theorem indices_inequality_on_missing_tag_raises :
  Sacc.indices S_plain None None [("ell__lt", PFloat 15%Q)]
    = Raise (TypeError "'<' not supported between instances of 'NoneType' and 'float'")
  /\ Sacc.indices S_plain None None [("ell__gt", PFloat 15%Q)]
    = Raise (TypeError "'>' not supported between instances of 'NoneType' and 'float'")
  /\ Sacc.indices S_plain None None [("ell", PFloat 10%Q)] = Ok [0].
Proof. repeat split; reflexivity. Qed.

(** ** The boolean mask of a block-diagonal covariance (C4) *)

Lemma cumsum_from_cons (acc x : nat) (l : list nat) :
  np.cumsum_from acc (x :: l) = (acc + x) :: np.cumsum_from (acc + x) l.
Proof. reflexivity. Qed.

Lemma removelast_cumsum_from (acc x y : nat) (l : list nat) :
  removelast (np.cumsum_from acc (x :: y :: l))
  = (acc + x) :: removelast (np.cumsum_from (acc + x) (y :: l)).
Proof. reflexivity. Qed.

(** Splitting at the cumulative sizes, from offset [st] on: one piece per
    block, of the size of the block, and the pieces put together are the
    array from [st] on. *)
Lemma split_from_cumsum {A : Type} (sizes : list nat) (s st : nat) (ary : list A) :
  length ary = st + sum_list (s :: sizes) ->
  let pieces := np.split_from st (removelast (np.cumsum_from st (s :: sizes))) ary in
  map length pieces = s :: sizes /\ concat pieces = skipn st ary.
Proof.
  revert s st. induction sizes as [|s' sizes IH]; intros s st Hlen.
  - cbn in *. unfold np.slice. split.
    + f_equal. rewrite length_take, length_drop. lia.
    + rewrite app_nil_r. apply firstn_all2. rewrite length_drop. lia.
  - cbn zeta. rewrite removelast_cumsum_from. cbn [np.split_from map concat].
    destruct (IH s' (st + s)) as [IH1 IH2].
    { change (sum_list (s :: s' :: sizes)) with (s + sum_list (s' :: sizes)) in Hlen.
      lia. }
    cbn zeta in IH1, IH2. rewrite IH1, IH2. split.
    + f_equal. unfold np.slice. rewrite length_take, length_drop.
      change (sum_list (s :: s' :: sizes)) with (s + sum_list (s' :: sizes)) in Hlen.
      lia.
    + unfold np.slice. replace (st + s - st) with s by lia.
      rewrite <- (take_drop s (drop st ary)) at 2.
      rewrite drop_drop. reflexivity.
Qed.

Lemma split_at_block_boundaries {A : Type} (sizes : list nat) (ary : list A) :
  sizes <> [] ->
  length ary = sum_list sizes ->
  map length (np.split ary (removelast (np.cumsum sizes))) = sizes
  /\ concat (np.split ary (removelast (np.cumsum sizes))) = ary.
Proof.
  intros Hne Hlen. destruct sizes as [|s sizes]; [contradiction|].
  apply (split_from_cumsum sizes s 0 ary). exact Hlen.
Qed.

(** C4 fails.  For every block-diagonal covariance and every boolean mask
    [masked] raises [TypeError] and restricts no block: having split the
    mask at the block boundaries, it indexes the Python list [self.blocks],
    not a block, with the first piece.  For the two 1x1 blocks 4 and 9 and
    the mask [[True, False]] the pieces are [[True]] and [[False]], one per
    block, and the first block indexed with its piece is the block itself;
    the call raises where a covariance of the one block 4 is claimed. *)
Theorem block_masked_bool_mask_raises :
  (forall (self : BlockDiagonalCovariance.t) (m : list bool),
     BlockDiagonalCovariance.masked self (np.SelBool m)
     = Raise (TypeError "only integer scalar arrays can be converted to a scalar index"))
  /\ BlockDiagonalCovariance.masked two_blocks (np.SelBool [true; false])
     = Raise (TypeError "only integer scalar arrays can be converted to a scalar index")
  /\ np.split [true; false]
       (removelast (np.cumsum (BlockDiagonalCovariance.block_sizes two_blocks)))
     = [[true]; [false]]
  /\ np.getitem_rows_cols (mat [[4%Q]]) (np.SelBool [true]) = Ok (mat [[4%Q]]).
Proof.
  split; [apply block_masked_bool_raises|]. repeat split; reflexivity.
Qed.

(** ** Reading a block-diagonal covariance back *)

Lemma flatten_length (rs : list (list Q)) (b : nat) :
  Forall (fun r => length r = b) rs -> length (concat rs) = length rs * b.
Proof.
  induction 1 as [|r rs Hr _ IH]; cbn; [reflexivity|].
  rewrite length_app, IH, Hr. reflexivity.
Qed.

Lemma chunks_concat (rs : list (list Q)) (b : nat) :
  Forall (fun r => length r = b) rs -> np.chunks (length rs) b (concat rs) = rs.
Proof.
  induction 1 as [|r rs Hr _ IH]; cbn; [reflexivity|].
  rewrite take_app_length' by (symmetry; exact Hr).
  rewrite drop_app_length' by (symmetry; exact Hr).
  rewrite IH. reflexivity.
Qed.

Lemma reshape_square_flatten (a : np.ndarray2) :
  np.square a ->
  np.reshape_square (Z.of_nat (np.nrows a)) (np.flatten a) = Ok a.
Proof.
  intros [Hwf Hsq]. unfold np.reshape_square, np.flatten.
  destruct (Z.ltb_spec (Z.of_nat (np.nrows a)) 0) as [H|_]; [lia|].
  rewrite Nat2Z.id.
  rewrite (flatten_length _ _ Hwf). rewrite <- Hsq, Nat.eqb_refl.
  unfold np.wf in Hwf. rewrite <- Hsq in Hwf.
  unfold np.nrows at 2. rewrite (chunks_concat _ _ Hwf).
  destruct a as [c rs]. cbn in *. rewrite Hsq. reflexivity.
Qed.

Lemma from_fits_loop_reads (bs : list np.ndarray2) (pre : list Q)
    (acc : list np.ndarray2) :
  Forall np.square bs ->
  BlockDiagonalCovariance.from_fits_loop
    (Image1 (pre ++ concat (map np.flatten bs))) (length pre) acc
    (map (fun b => Z.of_nat (np.nrows b)) bs)
  = Ok (acc ++ bs).
Proof.
  intros H. revert pre acc.
  induction H as [|b bs Hb _ IH]; intros pre acc; cbn.
  - rewrite app_nil_r. reflexivity.
  - assert (Hlen : length (np.flatten b) = np.nrows b * np.nrows b).
    { destruct Hb as [Hwf Hsq]. unfold np.flatten.
      rewrite (flatten_length _ _ Hwf). rewrite <- Hsq. reflexivity. }
    assert (Hsz : Z.to_nat (Z.of_nat (np.nrows b) * Z.of_nat (np.nrows b))
                  = np.nrows b * np.nrows b) by lia.
    rewrite Hsz. unfold np.slice.
    replace (length pre + np.nrows b * np.nrows b - length pre)
      with (length (np.flatten b)) by lia.
    rewrite drop_app_length, take_app_length.
    rewrite (reshape_square_flatten b Hb). cbn.
    specialize (IH (pre ++ np.flatten b) (acc ++ [b])).
    rewrite length_app, Hlen, <- !app_assoc in IH. cbn in IH. exact IH.
Qed.

Lemma header_sizes_read (hdu : HDU) (pre bs : list np.ndarray2) :
  (forall i b, (pre ++ bs) !! i = Some b ->
     hdu_header hdu !! ("size_" +:+ pretty i) = Some (HInt (Z.of_nat (np.nrows b)))) ->
  mapM (fun i => BlockDiagonalCovariance.header_get hdu ("size_" +:+ pretty i))
       (seq (length pre) (length bs))
  = Ok (map (fun b => HInt (Z.of_nat (np.nrows b))) bs).
Proof.
  unfold BlockDiagonalCovariance.header_get.
  revert pre. induction bs as [|b bs IH]; intros pre H; [reflexivity|].
  cbn [length seq map]. rewrite mapM_cons.
  rewrite (H (length pre) b) by (rewrite lookup_app_r, Nat.sub_diag by lia; reflexivity).
  specialize (IH (pre ++ [b])).
  rewrite length_app, <- app_assoc in IH. cbn [length app] in IH.
  replace (length pre + 1) with (S (length pre)) in IH by lia.
  rewrite (IH H). reflexivity.
Qed.

(** X27.  [from_fits] of the block-diagonal class reads a unit whose
    header gives the number of blocks and the size of each, and whose data
    are the square blocks, row by row, one after the other: from such a
    unit it rebuilds the covariance of exactly these blocks. *)
Lemma block_from_fits_reads_blocks (bs : list np.ndarray2) (hdu : HDU) :
  Forall np.square bs ->
  hdu_data_ hdu = Image1 (concat (map np.flatten bs)) ->
  hdu_header hdu !! "blocks" = Some (HInt (Z.of_nat (length bs))) ->
  (forall i b, bs !! i = Some b ->
     hdu_header hdu !! ("size_" +:+ pretty i) = Some (HInt (Z.of_nat (np.nrows b)))) ->
  BlockDiagonalCovariance.from_fits hdu = Ok (BlockDiagonalCovariance.init bs).
Proof.
  intros Hsq Hdata Hn Hsizes.
  assert (E : BlockDiagonalCovariance.numeric_sizes
                (map (fun b => HInt (Z.of_nat (np.nrows b))) bs)
              = Ok (map (fun b => Z.of_nat (np.nrows b)) bs)).
  { unfold BlockDiagonalCovariance.numeric_sizes.
    clear. induction bs as [|b bs IH]; [reflexivity|].
    cbn [map]. rewrite mapM_cons, IH. reflexivity. }
  pose proof (header_sizes_read hdu [] bs Hsizes) as Hs.
  assert (Hb : BlockDiagonalCovariance.header_get hdu "blocks"
               = Ok (HInt (Z.of_nat (length bs)))).
  { unfold BlockDiagonalCovariance.header_get. rewrite Hn. reflexivity. }
  unfold BlockDiagonalCovariance.from_fits. rewrite Hb.
  cbn [mbind result_bind BlockDiagonalCovariance.header_range].
  rewrite Nat2Z.id. cbn [length] in Hs. rewrite Hs.
  cbn [mbind result_bind]. rewrite E.
  cbn [mbind result_bind]. rewrite Hdata.
  pose proof (from_fits_loop_reads bs [] [] Hsq) as Hl.
  cbn [app length] in Hl. rewrite Hl. reflexivity.
Qed.

(** ** The sample data sets are reachable

    The data sets of the counterexamples come out of the methods of [Sacc]:
    [add_data_point] with [tracers_later=True], then [add_covariance] with a
    list of blocks. *)

Lemma S_plain_built : built S_plain.
Proof.
  change S_plain with
    (fst (Sacc.add_data_point "shear_ee" (PyTuple ["B"; "B"]) 3%Q true ∅
      (fst (Sacc.add_data_point "shear_ee" (PyTuple ["A"; "B"]) 2%Q true
              (list_to_map [("ell", PFloat 20%Q)])
        (fst (Sacc.add_data_point "shear_ee" (PyTuple ["A"; "A"]) 1%Q true
                (list_to_map [("ell", PFloat 10%Q)]) Sacc.init)))))).
  repeat apply built_add_data_point. apply built_init.
Qed.

Lemma S_block_built : built S_block.
Proof.
  change S_block with
    (fst (Sacc.add_covariance (BaseCovariance.CovBlocks [mat [[4%Q]]; mat [[9%Q]]])
      (fst (Sacc.add_data_point "shear_ee" (PyTuple ["A"; "B"]) 2%Q true
              (list_to_map [("ell", PFloat 20%Q)])
        (fst (Sacc.add_data_point "shear_ee" (PyTuple ["A"; "A"]) 1%Q true
                (list_to_map [("ell", PFloat 10%Q)]) Sacc.init)))))).
  apply built_add_covariance. repeat apply built_add_data_point. apply built_init.
Qed.

Lemma S_full3_built : built S_full3.
Proof.
  change S_full3 with
    (fst (Sacc.add_covariance
            (BaseCovariance.CovMatrix (mat [[1; 2; 3]; [4; 5; 6]; [7; 8; 9]]%Q))
            S_plain)).
  apply built_add_covariance, S_plain_built.
Qed.

(** * Further properties of the two modules *)

(** ** Selection: [indices] and the getters *)

Lemma indices_from_spec (ds : list DataPoint.t) (i : nat) (dt : option string)
    (trc : option pyseq) (sel : list (string * pyval)) (l : list nat) :
  Sacc.indices_from i ds dt (option_map tuple trc) sel = Ok l ->
  StronglySorted lt l
  /\ Forall (fun j => i <= j) l
  /\ forall j, j ∈ l <-> exists d, ds !! (j - i) = Some d /\ i <= j
                          /\ selected dt trc d = true /\ Sacc.tags_ok d sel = Ok true.
Proof.
  revert i l. induction ds as [|d ds IH]; intros i l H.
  - cbn in H. injection H as <-. split; [constructor|]. split; [constructor|].
    intros j. split; [intros Hj; inversion Hj|].
    intros (d & Hd & _). rewrite lookup_nil in Hd. discriminate.
  - cbn [Sacc.indices_from] in H.
    assert (Hstep : forall l',
      Sacc.indices_from (S i) ds dt (option_map tuple trc) sel = Ok l' ->
      StronglySorted lt l' /\ Forall (fun j => S i <= j) l'
      /\ forall j, j ∈ l' <-> exists d', (d :: ds) !! (j - i) = Some d' /\ S i <= j
                   /\ selected dt trc d' = true /\ Sacc.tags_ok d' sel = Ok true).
    { intros l' Hl'. destruct (IH _ _ Hl') as (Hs & Hb & Hiff).
      split; [exact Hs|]. split; [exact Hb|].
      intros j. rewrite Hiff. split.
      - intros (d' & Hd' & Hle & Hsel & Hok). exists d'.
        replace (j - i) with (S (j - S i)) by lia. cbn. auto.
      - intros (d' & Hd' & Hle & Hsel & Hok). exists d'.
        replace (j - i) with (S (j - S i)) in Hd' by lia. cbn in Hd'. auto. }
    assert (Hskip : selected dt trc d = false ->
      forall l', Sacc.indices_from (S i) ds dt (option_map tuple trc) sel = Ok l' ->
      StronglySorted lt l' /\ Forall (fun j => i <= j) l'
      /\ forall j, j ∈ l' <-> exists d', (d :: ds) !! (j - i) = Some d' /\ i <= j
                   /\ selected dt trc d' = true /\ Sacc.tags_ok d' sel = Ok true).
    { intros Hns l' Hl'. destruct (Hstep _ Hl') as (Hs & Hb & Hiff).
      split; [exact Hs|]. split.
      - eapply Forall_impl; [exact Hb|]. cbn. intros; lia.
      - intros j. rewrite Hiff. split.
        + intros (d' & Hd' & Hle & Hsel & Hok). exists d'. repeat split; auto. lia.
        + intros (d' & Hd' & Hle & Hsel & Hok). exists d'. repeat split; auto.
          destruct (decide (j = i)) as [->|]; [|lia].
          rewrite Nat.sub_diag in Hd'. cbn in Hd'. injection Hd' as <-. congruence. }
    destruct (negb match option_map tuple trc with
                   | Some t => pyseq_eqb (DataPoint.tracers d) t
                   | None => true
                   end) eqn:Et.
    { apply Hskip; [|exact H]. unfold selected. destruct trc; cbn in Et |- *.
      - apply negb_true_iff in Et. rewrite Et. reflexivity.
      - discriminate. }
    destruct (negb match dt with
                   | Some dt0 => bool_decide (DataPoint.data_type d = dt0)
                   | None => true
                   end) eqn:Ed.
    { apply Hskip; [|exact H]. unfold selected. apply negb_true_iff in Ed. rewrite Ed.
      apply andb_false_r. }
    assert (Hsel : selected dt trc d = true).
    { unfold selected. apply negb_false_iff in Et, Ed. rewrite Ed.
      destruct trc; cbn in Et |- *; [rewrite Et|]; reflexivity. }
    destruct (Sacc.tags_ok d sel) as [ok|e] eqn:Eok; [|discriminate H].
    cbn [mbind result_bind] in H.
    destruct (Sacc.indices_from (S i) ds dt (option_map tuple trc) sel) as [rest|e] eqn:Er;
      [|discriminate H].
    cbn [mbind result_bind] in H. injection H as <-.
    destruct (Hstep _ eq_refl) as (Hs & Hb & Hiff).
    destruct ok.
    + split.
      { constructor; [exact Hs|]. eapply Forall_impl; [exact Hb|]. cbn. intros; lia. }
      split.
      { constructor; [lia|]. eapply Forall_impl; [exact Hb|]. cbn. intros; lia. }
      intros j. rewrite elem_of_cons, Hiff. split.
      * intros [->|(d' & Hd' & Hle & Hsel' & Hok)].
        -- exists d. rewrite Nat.sub_diag. cbn. auto.
        -- exists d'. repeat split; auto. lia.
      * intros (d' & Hd' & Hle & Hsel' & Hok).
        destruct (decide (j = i)) as [->|]; [left; reflexivity|].
        right. exists d'. repeat split; auto. lia.
    + split; [exact Hs|]. split.
      { eapply Forall_impl; [exact Hb|]. cbn. intros; lia. }
      intros j. rewrite Hiff. split.
      * intros (d' & Hd' & Hle & Hsel' & Hok). exists d'. repeat split; auto. lia.
      * intros (d' & Hd' & Hle & Hsel' & Hok). exists d'. repeat split; auto.
        destruct (decide (j = i)) as [->|]; [|lia].
        rewrite Nat.sub_diag in Hd'. cbn in Hd'. injection Hd' as <-. congruence.
Qed.

Lemma indices_unfold (S : Sacc.t) (dt : option string) (trc : option pyseq)
    (sel : list (string * pyval)) :
  Sacc.indices S dt trc sel = Sacc.indices_from 0 (Sacc.data S) dt (option_map tuple trc) sel.
Proof. unfold Sacc.indices. destruct trc; reflexivity. Qed.

(** X10.  When [indices] returns, the positions it returns are strictly
    increasing, and a position is among them exactly when the record there
    has the data type and the tracers asked for and passes every selection
    on its tags. *)
Theorem indices_sound_and_complete (S : Sacc.t) (dt : option string)
    (trc : option pyseq) (sel : list (string * pyval)) (l : list nat) :
  Sacc.indices S dt trc sel = Ok l ->
  StronglySorted lt l
  /\ forall j, j ∈ l <-> exists d, Sacc.data S !! j = Some d
                          /\ selected dt trc d = true /\ Sacc.tags_ok d sel = Ok true.
Proof.
  rewrite indices_unfold. intros H.
  destruct (indices_from_spec _ _ _ _ _ _ H) as (Hs & _ & Hiff).
  split; [exact Hs|]. intros j. rewrite Hiff, Nat.sub_0_r. split.
  - intros (d & Hd & _ & Hsel & Hok). eauto.
  - intros (d & Hd & Hsel & Hok). exists d. repeat split; auto. lia.
Qed.

Lemma indices_sound_and_complete_witness :
  StronglySorted lt [0]
  /\ forall j, j ∈ [0] <-> exists d, Sacc.data S_plain !! j = Some d
        /\ selected None None d = true
        /\ Sacc.tags_ok d [("ell", PFloat 10%Q)] = Ok true.
Proof.
  apply (indices_sound_and_complete S_plain None None [("ell", PFloat 10%Q)] [0]).
  vm_compute. reflexivity.
Defined.

Lemma tags_ok_equality_only (d : DataPoint.t) (sel : list (string * pyval)) :
  equality_only sel -> exists b, Sacc.tags_ok d sel = Ok b.
Proof.
  induction 1 as [|[name val] sel [Hlt Hgt] _ IH]; [exists true; reflexivity|].
  cbn [fst] in Hlt, Hgt. cbn [Sacc.tags_ok]. rewrite Hlt, Hgt.
  destruct (negb (py_eq (DataPoint.get_tag d name) val)); [exists false; reflexivity|].
  exact IH.
Qed.

Lemma indices_from_equality_only (ds : list DataPoint.t) (i : nat) (dt : option string)
    (trc : option pyseq) (sel : list (string * pyval)) :
  equality_only sel -> exists l, Sacc.indices_from i ds dt trc sel = Ok l.
Proof.
  intros Heq. revert i. induction ds as [|d ds IH]; intros i; [exists []; reflexivity|].
  cbn [Sacc.indices_from]. destruct (IH (S i)) as [rest Hr].
  destruct (negb _); [eauto|]. destruct (negb _); [eauto|].
  destruct (tags_ok_equality_only d sel Heq) as [b ->]. rewrite Hr.
  cbn. eauto.
Qed.

(** X11.  [indices] with selections by equality only (no name ending in
    [__lt] or [__gt]) always returns: only the comparisons of the
    inequality selections can raise. *)
Theorem indices_by_equality_returns (S : Sacc.t) (dt : option string)
    (trc : option pyseq) (sel : list (string * pyval)) :
  equality_only sel -> exists l, Sacc.indices S dt trc sel = Ok l.
Proof. intros H. rewrite indices_unfold. apply indices_from_equality_only, H. Qed.

Lemma indices_by_equality_returns_witness :
  exists l, Sacc.indices S_plain (Some "shear_ee") None [("ell", PFloat 20%Q)] = Ok l.
Proof.
  apply (indices_by_equality_returns S_plain (Some "shear_ee") None [("ell", PFloat 20%Q)]).
  repeat constructor.
Defined.

Lemma elem_of_int_array (k : nat) (l : list nat) :
  Z.of_nat k ∈ Sacc.int_array l <-> k ∈ l.
Proof.
  unfold Sacc.int_array. change (map Z.of_nat l) with (Z.of_nat <$> l).
  rewrite list_elem_of_fmap. split.
  - intros (y & Hy & Hin). apply Nat2Z.inj in Hy. subst. exact Hin.
  - intros H. eauto.
Qed.

Lemma mapM_py_index_in_range (n : nat) (l : list nat) :
  Forall (fun j => j < n) l -> mapM (py_index n) (Sacc.int_array l) = Ok l.
Proof.
  induction 1 as [|j l Hj _ IH]; [reflexivity|].
  unfold Sacc.int_array in *. cbn [map]. rewrite mapM_cons, (py_index_in_range _ _ Hj).
  cbn [mbind result_bind]. rewrite IH. reflexivity.
Qed.

Lemma indices_from_filter (ds : list DataPoint.t) (i : nat) (dt : option string)
    (trc : option pyseq) (sel : list (string * pyval)) (l : list nat) :
  Sacc.indices_from i ds dt (option_map tuple trc) sel = Ok l ->
  Forall (fun j => i <= j < i + length ds) l
  /\ map (fun j => nth (j - i) ds DataPoint.dummy) l = List.filter (keeps dt trc sel) ds.
Proof.
  revert i l. induction ds as [|d ds IH]; intros i l H.
  - cbn in H. injection H as <-. split; [constructor|reflexivity].
  - assert (Hshift : forall rest, Forall (fun j => S i <= j < S i + length ds) rest ->
        Forall (fun j => i <= j < i + length (d :: ds)) rest
        /\ map (fun j => nth (j - i) (d :: ds) DataPoint.dummy) rest
           = map (fun j => nth (j - S i) ds DataPoint.dummy) rest).
    { intros rest Hb. split.
      - eapply Forall_impl; [exact Hb|]. cbn. intros; lia.
      - apply map_ext_in. intros j Hj. rewrite Forall_forall in Hb.
        apply list_elem_of_In in Hj. specialize (Hb _ Hj).
        replace (j - i) with (S (j - S i)) by lia. reflexivity. }
    assert (Hskip : forall l', selected dt trc d = false ->
        Sacc.indices_from (S i) ds dt (option_map tuple trc) sel = Ok l' ->
        Forall (fun j => i <= j < i + length (d :: ds)) l'
        /\ map (fun j => nth (j - i) (d :: ds) DataPoint.dummy) l'
           = List.filter (keeps dt trc sel) (d :: ds)).
    { intros l' Hns Hl'. destruct (IH _ _ Hl') as [Hb Hm].
      destruct (Hshift _ Hb) as [Hb' Hm']. split; [exact Hb'|].
      cbn [List.filter]. unfold keeps at 1. rewrite Hns. cbn [andb].
      rewrite Hm'. exact Hm. }
    cbn [Sacc.indices_from] in H.
    destruct (negb match option_map tuple trc with
                   | Some t => pyseq_eqb (DataPoint.tracers d) t
                   | None => true
                   end) eqn:Et.
    { apply Hskip; [|exact H]. unfold selected. destruct trc; cbn in Et |- *.
      - apply negb_true_iff in Et. rewrite Et. reflexivity.
      - discriminate. }
    destruct (negb match dt with
                   | Some dt0 => bool_decide (DataPoint.data_type d = dt0)
                   | None => true
                   end) eqn:Ed.
    { apply Hskip; [|exact H]. unfold selected. apply negb_true_iff in Ed. rewrite Ed.
      apply andb_false_r. }
    assert (Hsel : selected dt trc d = true).
    { unfold selected. apply negb_false_iff in Et, Ed. rewrite Ed.
      destruct trc; cbn in Et |- *; [rewrite Et|]; reflexivity. }
    destruct (Sacc.tags_ok d sel) as [ok|e] eqn:Eok; [|discriminate H].
    cbn [mbind result_bind] in H.
    destruct (Sacc.indices_from (S i) ds dt (option_map tuple trc) sel) as [rest|e] eqn:Er;
      [|discriminate H].
    cbn [mbind result_bind] in H. injection H as <-.
    destruct (IH _ _ Er) as [Hb Hm]. destruct (Hshift _ Hb) as [Hb' Hm'].
    cbn [List.filter]. unfold keeps at 1. rewrite Hsel, Eok. cbn [andb].
    destruct ok.
    + split; [constructor; [cbn; lia|exact Hb']|].
      cbn [map]. rewrite Nat.sub_diag, Hm', Hm. reflexivity.
    + split; [exact Hb'|]. rewrite Hm'. exact Hm.
Qed.

Lemma indices_in_range (S : Sacc.t) (dt : option string) (trc : option pyseq)
    (sel : list (string * pyval)) (l : list nat) :
  Sacc.indices S dt trc sel = Ok l ->
  Forall (fun j => j < Sacc.len S) l
  /\ gather DataPoint.dummy (Sacc.data S) l = List.filter (keeps dt trc sel) (Sacc.data S).
Proof.
  rewrite indices_unfold. intros H.
  destruct (indices_from_filter _ _ _ _ _ _ H) as [Hb Hm]. split.
  - eapply Forall_impl; [exact Hb|]. cbn. unfold Sacc.len. intros; lia.
  - rewrite <- Hm. unfold gather. apply map_ext. intros j. rewrite Nat.sub_0_r. reflexivity.
Qed.

(** X12.  [get_data_points] raises exactly when [indices] does, and
    otherwise returns the records that [indices] takes, in the order of the
    data set: the positions [indices] returns are all within the data. *)
Theorem get_data_points_filters (S : Sacc.t) (dt : option string) (trc : option pyseq)
    (sel : list (string * pyval)) :
  Sacc.get_data_points S dt trc sel
  = (ind ← Sacc.indices S dt trc sel;
     Ok (List.filter (keeps dt trc sel) (Sacc.data S))).
Proof.
  unfold Sacc.get_data_points.
  destruct (Sacc.indices S dt trc sel) as [l|e] eqn:E; [|reflexivity].
  cbn [mbind result_bind]. destruct (indices_in_range _ _ _ _ _ E) as [Hb Hm].
  unfold Sacc.len in Hb. unfold Sacc.data_at. rewrite (mapM_py_index_in_range _ _ Hb).
  cbn [mbind result_bind]. rewrite Hm. reflexivity.
Qed.

Lemma gather_values (ds : list DataPoint.t) (l : list nat) :
  gather 0%Q (map DataPoint.value ds) l = map DataPoint.value (gather DataPoint.dummy ds l).
Proof.
  unfold gather. rewrite map_map. apply map_ext. intros j.
  change 0%Q with (DataPoint.value DataPoint.dummy). apply map_nth.
Qed.

(** X13.  [get_mean] gives the values of the records that
    [get_data_points] gives for the same selection, in the same order, and
    raises when it does. *)
Theorem get_mean_is_values_of_data_points (S : Sacc.t) (dt : option string)
    (trc : option pyseq) (sel : list (string * pyval)) :
  Sacc.get_mean S dt trc sel
  = (ps ← Sacc.get_data_points S dt trc sel; Ok (map DataPoint.value ps)).
Proof.
  unfold Sacc.get_mean, Sacc.get_data_points.
  destruct (Sacc.indices S dt trc sel) as [l|e] eqn:E; [|reflexivity].
  cbn [mbind result_bind]. destruct (indices_in_range _ _ _ _ _ E) as [Hb _].
  unfold np.getitem1, np.positions, Sacc.data_at, Sacc.mean.
  rewrite length_map. unfold Sacc.len in Hb.
  rewrite (mapM_py_index_in_range _ _ Hb). cbn [mbind result_bind].
  rewrite gather_values. reflexivity.
Qed.

Lemma tags_at_ext (ds : list DataPoint.t) (i : nat) (tag : string) (idx idx' : list Z) :
  (forall k, i <= k -> (Z.of_nat k ∈ idx <-> Z.of_nat k ∈ idx')) ->
  Sacc.tags_at i ds tag idx = Sacc.tags_at i ds tag idx'.
Proof.
  revert i. induction ds as [|d ds IH]; intros i H; [reflexivity|].
  cbn [Sacc.tags_at]. rewrite (IH (S i)) by (intros; apply H; lia).
  rewrite (bool_decide_ext _ _ (H i (le_n i))). reflexivity.
Qed.

Lemma tags_at_indices_from (ds : list DataPoint.t) (i : nat) (dt : option string)
    (trc : option pyseq) (sel : list (string * pyval)) (l : list nat) (tag : string) :
  Sacc.indices_from i ds dt (option_map tuple trc) sel = Ok l ->
  Sacc.tags_at i ds tag (Sacc.int_array l)
  = map (fun d => DataPoint.get_tag d tag) (List.filter (keeps dt trc sel) ds).
Proof.
  revert i l. induction ds as [|d ds IH]; intros i l H; [reflexivity|].
  destruct (indices_from_spec _ _ _ _ _ _ H) as (_ & _ & Hiff).
  cbn [Sacc.indices_from] in H.
  assert (Hhead : bool_decide (Z.of_nat i ∈ Sacc.int_array l) = keeps dt trc sel d).
  { unfold keeps. apply eq_true_iff_eq. rewrite bool_decide_eq_true, elem_of_int_array, Hiff.
    rewrite Nat.sub_diag. cbn [lookup list_lookup]. rewrite andb_true_iff. split.
    - intros (d' & [= <-] & _ & Hs & Hok). rewrite Hs, Hok. auto.
    - intros [Hs Hok]. exists d. repeat split; auto.
      destruct (Sacc.tags_ok d sel) as [[]|]; congruence. }
  cbn [Sacc.tags_at List.filter]. rewrite Hhead.
  assert (Htail : forall rest,
    Sacc.indices_from (S i) ds dt (option_map tuple trc) sel = Ok rest ->
    (l = rest \/ l = i :: rest) ->
    Sacc.tags_at (S i) ds tag (Sacc.int_array l)
    = map (fun d => DataPoint.get_tag d tag) (List.filter (keeps dt trc sel) ds)).
  { intros rest Hr Hl. rewrite <- (IH _ _ Hr). apply tags_at_ext. intros k Hk.
    rewrite !elem_of_int_array. destruct Hl as [->| ->]; [reflexivity|].
    rewrite elem_of_cons. split; [intros [->|]; [lia|assumption]|auto]. }
  destruct (negb match option_map tuple trc with
                 | Some t => pyseq_eqb (DataPoint.tracers d) t
                 | None => true
                 end).
  { rewrite (Htail _ H (or_introl eq_refl)). destruct (keeps dt trc sel d); reflexivity. }
  destruct (negb match dt with
                 | Some dt0 => bool_decide (DataPoint.data_type d = dt0)
                 | None => true
                 end).
  { rewrite (Htail _ H (or_introl eq_refl)). destruct (keeps dt trc sel d); reflexivity. }
  destruct (Sacc.tags_ok d sel) as [ok|e] eqn:Eok; [|discriminate H].
  cbn [mbind result_bind] in H.
  destruct (Sacc.indices_from (S i) ds dt (option_map tuple trc) sel) as [rest|e] eqn:Er;
    [|discriminate H].
  cbn [mbind result_bind] in H. injection H as <-.
  rewrite (Htail rest eq_refl) by (destruct ok; auto).
  destruct (keeps dt trc sel d); reflexivity.
Qed.

(** X14.  [get_tag] gives, record by record and in their order, the tag of
    the records that [get_data_points] gives for the same selection ([None]
    for a record without the tag), although it looks the records up by
    membership of their position and not by index. *)
Theorem get_tag_is_tag_of_data_points (S : Sacc.t) (tag : string) (dt : option string)
    (trc : option pyseq) (sel : list (string * pyval)) :
  Sacc.get_tag S tag dt trc sel
  = (ps ← Sacc.get_data_points S dt trc sel;
     Ok (map (fun d => DataPoint.get_tag d tag) ps)).
Proof.
  rewrite get_data_points_filters. unfold Sacc.get_tag, Sacc.get_tags.
  destruct (Sacc.indices S dt trc sel) as [l|e] eqn:E; [|reflexivity].
  cbn [mbind result_bind]. unfold Sacc._get_tags_by_index. cbn [map].
  rewrite indices_unfold in E. rewrite (tags_at_indices_from _ _ _ _ _ _ tag E).
  reflexivity.
Qed.

(** A tracer registered with [add_tracer_object] is the one [get_tracer]
    returns for its name; a name never registered raises [KeyError]. *)
Lemma get_tracer_after_add_tracer_object (S : Sacc.t) (tr : Tracer) (name : string) :
  Sacc.get_tracer (fst (Sacc.add_tracer_object tr S)) (tracer_name tr) = Ok tr
  /\ (Sacc.tracers S !! name = None -> Sacc.get_tracer S name = Raise (KeyError name)).
Proof.
  unfold Sacc.get_tracer, Sacc.add_tracer_object. cbn. rewrite lookup_insert_eq.
  split; [reflexivity|]. intros ->. reflexivity.
Qed.

(** ** The two-point helpers *)


Lemma indices_no_selection (S : Sacc.t) (dt : option string) (trc : option pyseq) :
  exists l, Sacc.indices S dt trc [] = Ok l.
Proof. rewrite indices_unfold. apply indices_from_equality_only. constructor. Qed.



(** X16.  With [return_cov=True], [get_ell_cl] and [get_theta_xi] never
    return: [ValueError] without a covariance, and with one
    [AttributeError], since [Sacc] has no [get_block]. *)
Theorem get_2pt_with_covariance_never_returns (S : Sacc.t) (dt bin1 bin2 : string) :
  raised (Sacc.get_ell_cl S dt bin1 bin2 true) = true
  /\ raised (Sacc.get_theta_xi S dt bin1 bin2 true) = true
  /\ forall name,
       Sacc._get_2pt S dt bin1 bin2 true name
       = Raise (match Sacc.covariance S with
                | None => ValueError "This sacc data does not have a covariance attached"
                | Some _ => AttributeError "'Sacc' object has no attribute 'get_block'"
                end).
Proof.
  assert (H : forall name,
       Sacc._get_2pt S dt bin1 bin2 true name
       = Raise (match Sacc.covariance S with
                | None => ValueError "This sacc data does not have a covariance attached"
                | Some _ => AttributeError "'Sacc' object has no attribute 'get_block'"
                end)).
  { intros name. unfold Sacc._get_2pt.
    destruct (indices_no_selection S (Some dt) (Some (PyTuple [bin1; bin2]))) as [l E].
    rewrite E. cbn [mbind result_bind].
    destruct (indices_in_range _ _ _ _ _ E) as [Hb Hm].
    unfold np.getitem1, np.positions, Sacc.mean. rewrite length_map. unfold Sacc.len in Hb.
    rewrite (mapM_py_index_in_range _ _ Hb). cbn [mbind result_bind].
    unfold Sacc._get_tags_by_index. cbn [map mbind result_bind].
    destruct (Sacc.covariance S); reflexivity. }
  unfold Sacc.get_ell_cl, Sacc.get_theta_xi. rewrite !H. auto.
Qed.

Lemma check_tracers_known (known : gmap string Tracer) (names : list string) :
  Forall (fun n => known !! n <> None) names ->
  Sacc.check_tracers known false names = Ok tt.
Proof.
  induction 1 as [|n names Hn _ IH]; [reflexivity|].
  cbn [Sacc.check_tracers]. rewrite bool_decide_eq_false_2 by exact Hn. exact IH.
Qed.

Lemma add_2pt_point_appends (S : Sacc.t) (dt bin1 bin2 : string) (x : Q)
    (tag_val : Sacc.number) (angle : Q) (name : string) :
  Sacc.covariance S = None ->
  Sacc.tracers S !! bin1 <> None -> Sacc.tracers S !! bin2 <> None ->
  Sacc.float tag_val = Ok angle ->
  Sacc.add_2pt_point dt bin1 bin2 x tag_val name S
  = (Sacc.mk (Sacc.data S ++ [DataPoint.mk dt (PyTuple [bin1; bin2]) x
                                {[ name := PFloat angle ]}])
             (Sacc.tracers S) None (Sacc.metadata S), Ok tt).
Proof.
  intros Hc H1 H2 Hf. unfold Sacc.add_2pt_point.
  unfold mbind at 1, Sacc.method_bind at 1, Sacc.lift at 1. rewrite Hf.
  unfold Sacc.add_data_point.
  unfold mbind, Sacc.method_bind, Sacc.self_. rewrite Hc.
  unfold Sacc.lift. cbn [tuple items].
  rewrite check_tracers_known by (repeat constructor; assumption).
  unfold Sacc.set_data. rewrite Hc. reflexivity.
Qed.

Lemma add_2pt_loop_appends (tag_val : list Sacc.number) (angles x : list Q) (S : Sacc.t)
    (dt bin1 bin2 name : string) :
  Sacc.covariance S = None ->
  Sacc.tracers S !! bin1 <> None -> Sacc.tracers S !! bin2 <> None ->
  length x = length tag_val ->
  mapM Sacc.float tag_val = Ok angles ->
  Sacc.add_2pt_loop dt bin1 bin2 (zip tag_val x) name S
  = (Sacc.mk (Sacc.data S ++ two_point_records dt bin1 bin2 name angles x)
             (Sacc.tracers S) None (Sacc.metadata S), Ok tt).
Proof.
  revert angles x S.
  induction tag_val as [|t tag_val IH]; intros angles x S Hc H1 H2 Hlen Hm.
  - cbn in Hm. injection Hm as <-. destruct x; [|discriminate].
    cbn. rewrite app_nil_r. destruct S; cbn in *. subst. reflexivity.
  - destruct x as [|v x]; [discriminate|]. rewrite mapM_cons in Hm.
    destruct (Sacc.float t) as [a|e] eqn:Ea; [|discriminate].
    cbn [mbind result_bind] in Hm.
    destruct (mapM Sacc.float tag_val) as [rest|e] eqn:Er; [|discriminate].
    cbn [mbind result_bind] in Hm. injection Hm as <-.
    cbn [zip zip_with Sacc.add_2pt_loop]. unfold mbind at 1, Sacc.method_bind at 1.
    rewrite (add_2pt_point_appends _ _ _ _ _ _ a) by assumption.
    fold (zip tag_val x).
    rewrite (IH rest x) by (cbn in *; auto; lia).
    cbn [Sacc.data Sacc.tracers Sacc.metadata].
    unfold two_point_records. cbn [zip_with]. rewrite <- app_assoc. reflexivity.
Qed.

(** An integer below [2 ** 53] in absolute value converts exactly. *)
Lemma float_of_small_int (z : Z) :
  (Z.abs z < 2 ^ 53)%Z -> Sacc.float (Sacc.NInt z) = Ok (inject_Z z).
Proof.
  intros Hz. unfold Sacc.float, Sacc.round_to_53_bits.
  assert (Hlog : (Z.log2 (Z.abs z) - 52 <= 0)%Z).
  { destruct (Z.eq_dec (Z.abs z) 0%Z) as [->|Hne]; [cbn; lia|].
    assert (Z.log2 (Z.abs z) < 53)%Z by (apply Z.log2_lt_pow2; lia). lia. }
  apply Z.leb_le in Hlog. rewrite Hlog.
  replace (2 ^ 1024 <=? Z.abs z)%Z with false.
  - f_equal. f_equal. rewrite Z.mul_comm. apply Z.abs_sgn.
  - symmetry. apply Z.leb_gt. eapply Z.lt_trans; [exact Hz|]. reflexivity.
Qed.

(** Beyond, the conversion rounds, to even on a tie, and past the range of
    the floats it raises. *)
Lemma float_of_large_int :
  Sacc.float (Sacc.NInt (2 ^ 53 + 1)) = Ok (inject_Z (2 ^ 53))
  /\ Sacc.float (Sacc.NInt (2 ^ 53 + 3)) = Ok (inject_Z (2 ^ 53 + 4))
  /\ Sacc.float (Sacc.NInt (- (2 ^ 53 + 3))) = Ok (inject_Z (- (2 ^ 53 + 4)))
  /\ Sacc.float (Sacc.NInt (10 ^ 400))
     = Raise (OverflowError "int too large to convert to float").
Proof. repeat split; vm_compute; reflexivity. Qed.

(** X17.  On a data set without covariance in which both bins are
    registered tracers, [add_ell_cl] and [add_theta_xi] with lists of angles
    and values of one length, every angle one that [float] converts, append
    one record per pair, in the order of the lists, each with the pair of
    bins as tracers and the angle converted by [float] (an integer rounded
    to the nearest float64) under [ell] or [theta]. *)
Theorem add_2pt_lists_appends_in_order (S : Sacc.t) (dt bin1 bin2 : string)
    (x : list Q) (ell : list Sacc.number) (angles : list Q) :
  Sacc.covariance S = None ->
  Sacc.tracers S !! bin1 <> None -> Sacc.tracers S !! bin2 <> None ->
  length x = length ell ->
  mapM Sacc.float ell = Ok angles ->
  Sacc.add_ell_cl (Sacc.OneBinPair dt bin1 bin2 x ell) S
  = (Sacc.mk (Sacc.data S ++ two_point_records dt bin1 bin2 "ell" angles x)
             (Sacc.tracers S) None (Sacc.metadata S), Ok tt)
  /\ Sacc.add_theta_xi (Sacc.OneBinPair dt bin1 bin2 x ell) S
  = (Sacc.mk (Sacc.data S ++ two_point_records dt bin1 bin2 "theta" angles x)
             (Sacc.tracers S) None (Sacc.metadata S), Ok tt).
Proof.
  intros Hc H1 H2 Hlen Hm. unfold Sacc.add_ell_cl, Sacc.add_theta_xi, Sacc._add_2pt.
  rewrite Hlen, Nat.eqb_refl. cbn [negb].
  rewrite !(add_2pt_loop_appends ell angles x) by assumption. auto.
Qed.

(** X18.  Called with lists of bins (and of data types), [_add_2pt] never
    adds a record: it raises [ValueError] when the lengths differ and
    [NameError] otherwise, the loops reading [tag] where the parameter is
    [tag_val]; the data set is left as it was. *)
Theorem add_2pt_many_bins_never_adds (S : Sacc.t) (name data_type : string)
    (data_types bin1 bin2 : list string) (x : list Q) (tag_val : list Sacc.number) :
  let r1 := Sacc._add_2pt (Sacc.ManyBinPairs data_type bin1 bin2 x tag_val) name S in
  let r2 := Sacc._add_2pt (Sacc.ManyDataTypes data_types bin1 bin2 x tag_val) name S in
  let mismatch := ValueError "Length of inputs do not match in added 2pt data" in
  fst r1 = S /\ (snd r1 = Raise mismatch \/ snd r1 = Raise (NameError "tag"))
  /\ fst r2 = S /\ (snd r2 = Raise mismatch \/ snd r2 = Raise (NameError "tag")).
Proof.
  cbn zeta. unfold Sacc._add_2pt. do 2 destruct (negb _); cbn; auto.
Qed.





Lemma add_2pt_lists_appends_in_order_witness :
  Sacc.add_ell_cl (Sacc.OneBinPair "shear_ee" "A" "B" [1%Q; 2%Q]
                     [Sacc.NInt 10; Sacc.NFloat 20%Q]) S_bins
  = (Sacc.mk (Sacc.data S_bins
              ++ two_point_records "shear_ee" "A" "B" "ell" [10%Q; 20%Q] [1%Q; 2%Q])
             (Sacc.tracers S_bins) None (Sacc.metadata S_bins), Ok tt)
  /\ Sacc.add_theta_xi (Sacc.OneBinPair "shear_ee" "A" "B" [1%Q; 2%Q]
                     [Sacc.NInt 10; Sacc.NFloat 20%Q]) S_bins
  = (Sacc.mk (Sacc.data S_bins
              ++ two_point_records "shear_ee" "A" "B" "theta" [10%Q; 20%Q] [1%Q; 2%Q])
             (Sacc.tracers S_bins) None (Sacc.metadata S_bins), Ok tt).
Proof.
  apply (add_2pt_lists_appends_in_order S_bins "shear_ee" "A" "B" [1%Q; 2%Q]
           [Sacc.NInt 10; Sacc.NFloat 20%Q] [10%Q; 20%Q]).
  - reflexivity.
  - vm_compute. discriminate.
  - vm_compute. discriminate.
  - reflexivity.
  - vm_compute. reflexivity.
Defined.

(** ** [reorder] and [cut] on a covariance indexed record by record *)

Lemma masked_restricted (n : nat) (c : Covariance) (sel : np.selector) (js : list nat) :
  indexed_by n c -> np.positions n sel = Ok js ->
  BaseCovariance.masked c sel = Ok (restricted js c).
Proof.
  destruct c as [c|b|d]; cbn [indexed_by]; [intros [Hr Hc]|intros []|intros Hd]; intros Hp.
  - cbn [BaseCovariance.masked]. unfold FullCovariance.masked, np.getitem_rows_cols,
      np.getitem_rows, np.getitem_cols.
    rewrite Hr, Hp. cbn [mbind result_bind np.ncols]. rewrite Hc, Hp. reflexivity.
  - cbn [BaseCovariance.masked]. unfold DiagonalCovariance.masked, np.getitem1.
    rewrite Hd, Hp. reflexivity.
Qed.

Lemma masked_raises (n : nat) (c : Covariance) (sel : np.selector) (e : exn) :
  indexed_by n c -> np.positions n sel = Raise e ->
  BaseCovariance.masked c sel = Raise e.
Proof.
  destruct c as [c|b|d]; cbn [indexed_by]; [intros [Hr Hc]|intros []|intros Hd]; intros Hp.
  - cbn [BaseCovariance.masked]. unfold FullCovariance.masked, np.getitem_rows_cols,
      np.getitem_rows. rewrite Hr, Hp. reflexivity.
  - cbn [BaseCovariance.masked]. unfold DiagonalCovariance.masked, np.getitem1.
    rewrite Hd, Hp. reflexivity.
Qed.

Lemma restricted_indexed_by (n : nat) (c : Covariance) (js : list nat) :
  indexed_by n c -> indexed_by (length js) (restricted js c).
Proof.
  destruct c as [c|b|d]; cbn; [intros _|intros []|intros _].
  - unfold np.nrows. cbn. rewrite length_map, gather_length. auto.
  - apply gather_length.
Qed.

(** What [reorder] does to a data set aligned by index. *)
Lemma reorder_aligned (S : Sacc.t) (idx : Sacc.index_seq) :
  aligned_by_index S ->
  Sacc.reorder idx S
  = match mapM (py_index (Sacc.len S)) (Sacc.idx_items idx) with
    | Ok js => (restricted_to js S, Ok tt)
    | Raise e => (S, Raise e)
    end.
Proof.
  intros Ha. unfold Sacc.reorder, mbind, Sacc.method_bind, Sacc.self_, Sacc.lift,
    Sacc.data_at. fold (Sacc.len S).
  destruct (mapM (py_index (Sacc.len S)) (Sacc.idx_items idx)) as [js|e] eqn:Ejs;
    cbn [result_bind]; [|reflexivity].
  unfold Sacc.set_data, restricted_to. unfold aligned_by_index in Ha.
  destruct (Sacc.covariance S) as [c|] eqn:Hc; [|reflexivity].
  rewrite (masked_restricted _ _ _ js Ha)
    by (rewrite positions_idx_selector; exact Ejs).
  reflexivity.
Qed.

Lemma where_true_from_S (k : nat) (m : list bool) :
  where_true_from (S k) m = map S (where_true_from k m).
Proof.
  revert k. induction m as [|b m IH]; intros k; [reflexivity|].
  cbn [where_true_from]. rewrite map_app, IH. destruct b; reflexivity.
Qed.

Lemma where_true_from_bound (k : nat) (m : list bool) :
  Forall (fun j => j < k + length m) (where_true_from k m).
Proof.
  revert k. induction m as [|b m IH]; intros k; [constructor|].
  cbn [where_true_from length]. apply Forall_app. split.
  - destruct b; repeat constructor. lia.
  - eapply Forall_impl; [apply IH|]. cbn. intros; lia.
Qed.

Lemma gather_cons_S {A : Type} (d x : A) (xs : list A) (js : list nat) :
  gather d (x :: xs) (map S js) = gather d xs js.
Proof. unfold gather. rewrite map_map. reflexivity. Qed.

Lemma keep_unmasked_gather (d : list DataPoint.t) (m : list bool) :
  length m = length d ->
  Sacc.keep_unmasked d m = gather DataPoint.dummy d (where_true (np.invert m)).
Proof.
  unfold where_true. revert m. induction d as [|x d IH]; intros [|b m] Hlen;
    try discriminate; [reflexivity|].
  cbn [Sacc.keep_unmasked np.invert map where_true_from].
  rewrite where_true_from_S. unfold gather at 1. rewrite map_app.
  fold (gather DataPoint.dummy (x :: d) (map S (where_true_from 0 (map negb m)))).
  rewrite gather_cons_S. change (map negb m) with (np.invert m).
  rewrite <- IH by (cbn in Hlen; lia).
  destruct b; reflexivity.
Qed.

(** What [cut] does to a data set aligned by index. *)
Lemma cut_aligned (S : Sacc.t) (mask : Sacc.mask_arg) :
  aligned_by_index S ->
  Sacc.cut mask S
  = match Sacc.to_bool_mask (Sacc.len S) (Sacc.np_array mask) with
    | Ok m =>
        if length m =? Sacc.len S
        then (restricted_to (where_true (np.invert m)) S, Ok tt)
        else (S, Raise (ValueError "Mask passed in is wrong size"))
    | Raise e => (S, Raise e)
    end.
Proof.
  intros Ha. unfold Sacc.cut, mbind, Sacc.method_bind, Sacc.self_, Sacc.lift.
  destruct (Sacc.to_bool_mask (Sacc.len S) (Sacc.np_array mask)) as [m|e]; [|reflexivity].
  destruct (length m =? Sacc.len S) eqn:El; cbn [negb]; [|reflexivity].
  apply Nat.eqb_eq in El. unfold Sacc.set_data, restricted_to.
  rewrite keep_unmasked_gather by exact El.
  unfold aligned_by_index in Ha.
  destruct (Sacc.covariance S) as [c|] eqn:Hc; [|reflexivity].
  rewrite (masked_restricted _ _ _ (where_true (np.invert m)) Ha).
  - reflexivity.
  - cbn [np.positions]. unfold np.invert. rewrite length_map, El, Nat.eqb_refl. reflexivity.
Qed.

Lemma restricted_to_aligned (S : Sacc.t) (js : list nat) :
  aligned_by_index S -> aligned_by_index (restricted_to js S).
Proof.
  unfold aligned_by_index, restricted_to, Sacc.len. cbn [Sacc.covariance Sacc.data].
  destruct (Sacc.covariance S) as [c|]; cbn; [|auto].
  intros H. rewrite gather_length. eapply restricted_indexed_by, H.
Qed.

Lemma reorder_keeps_aligned_by_index (S : Sacc.t) (idx : Sacc.index_seq) :
  aligned_by_index S -> aligned_by_index (fst (Sacc.reorder idx S)).
Proof.
  intros Ha. rewrite reorder_aligned by exact Ha.
  destruct (mapM _ _); cbn [fst]; [apply restricted_to_aligned|]; exact Ha.
Qed.

Lemma cut_keeps_aligned_by_index (S : Sacc.t) (mask : Sacc.mask_arg) :
  aligned_by_index S -> aligned_by_index (fst (Sacc.cut mask S)).
Proof.
  intros Ha. rewrite cut_aligned by exact Ha.
  destruct (Sacc.to_bool_mask _ _); [|exact Ha].
  destruct (_ =? _); cbn [fst]; [apply restricted_to_aligned|]; exact Ha.
Qed.

(** X2.  On a data set whose covariance is dense or diagonal with one row
    and column (one variance) per record, or that has none, [reorder] and
    [cut] keep this alignment, whether they return or raise. *)
Theorem mutation_keeps_index_alignment (S : Sacc.t) (idx : Sacc.index_seq)
    (mask : Sacc.mask_arg) :
  aligned_by_index S ->
  aligned_by_index (fst (Sacc.reorder idx S))
  /\ aligned_by_index (fst (Sacc.cut mask S)).
Proof.
  intros Ha. split; [apply reorder_keeps_aligned_by_index|apply cut_keeps_aligned_by_index];
    exact Ha.
Qed.

Lemma mutation_keeps_index_alignment_witness :
  aligned_by_index (fst (Sacc.reorder (Sacc.IdxList [2; 0]%Z) S_full3))
  /\ aligned_by_index (fst (Sacc.cut (Sacc.MaskList [PBool true; PBool false; PBool false])
                             S_full3)).
Proof.
  apply (mutation_keeps_index_alignment S_full3).
  vm_compute. auto.
Defined.

(** X3.  On such a data set a [reorder] or [cut] that raises has changed
    nothing: the index and mask errors are found before [self.data] is
    assigned, and the covariance accepts every index the data accept. *)
Theorem failed_mutation_changes_nothing (S : Sacc.t) (idx : Sacc.index_seq)
    (mask : Sacc.mask_arg) :
  aligned_by_index S ->
  match snd (Sacc.reorder idx S) with
  | Raise _ => fst (Sacc.reorder idx S) = S
  | Ok _ => True
  end
  /\ match snd (Sacc.cut mask S) with
     | Raise _ => fst (Sacc.cut mask S) = S
     | Ok _ => True
     end.
Proof.
  intros Ha. rewrite reorder_aligned, cut_aligned by exact Ha. split.
  - destruct (mapM _ _); cbn; auto.
  - destruct (Sacc.to_bool_mask _ _); [|reflexivity].
    destruct (_ =? _); cbn; auto.
Qed.

Lemma failed_mutation_changes_nothing_witness :
  match snd (Sacc.reorder (Sacc.IdxList [3]%Z) S_full3) with
  | Raise _ => fst (Sacc.reorder (Sacc.IdxList [3]%Z) S_full3) = S_full3
  | Ok _ => True
  end
  /\ match snd (Sacc.cut (Sacc.MaskList [PInt 5]) S_full3) with
     | Raise _ => fst (Sacc.cut (Sacc.MaskList [PInt 5]) S_full3) = S_full3
     | Ok _ => True
     end.
Proof.
  apply (failed_mutation_changes_nothing S_full3).
  vm_compute. auto.
Defined.

(** X5.  On a data set aligned by index, [cut] with a boolean mask of the
    length of the data is [reorder] with the positions where the mask is
    [False], given as an array or as a list. *)
Theorem cut_is_reorder_of_kept (S : Sacc.t) (m : list bool) :
  aligned_by_index S ->
  length m = Sacc.len S ->
  let kept := Sacc.int_array (where_true (np.invert m)) in
  Sacc.cut (Sacc.MaskArray (np.NdBool m)) S = Sacc.reorder (Sacc.IdxArray kept) S
  /\ Sacc.cut (Sacc.MaskArray (np.NdBool m)) S = Sacc.reorder (Sacc.IdxList kept) S.
Proof.
  intros Ha Hlen kept.
  assert (Hk : mapM (py_index (Sacc.len S)) kept = Ok (where_true (np.invert m))).
  { apply mapM_py_index_in_range. unfold where_true.
    eapply Forall_impl; [apply where_true_from_bound|]. cbn. unfold np.invert.
    rewrite length_map, Hlen. auto. }
  rewrite !reorder_aligned, cut_aligned by exact Ha. cbn [Sacc.idx_items Sacc.np_array].
  rewrite Hk.
  change (Sacc.to_bool_mask (Sacc.len S) (np.NdBool m)) with (Ok m).
  cbn beta iota. rewrite Hlen, Nat.eqb_refl. auto.
Qed.

Lemma cut_is_reorder_of_kept_witness :
  let kept := Sacc.int_array (where_true (np.invert [false; true; false])) in
  Sacc.cut (Sacc.MaskArray (np.NdBool [false; true; false])) S_full3
    = Sacc.reorder (Sacc.IdxArray kept) S_full3
  /\ Sacc.cut (Sacc.MaskArray (np.NdBool [false; true; false])) S_full3
    = Sacc.reorder (Sacc.IdxList kept) S_full3.
Proof.
  apply (cut_is_reorder_of_kept S_full3 [false; true; false]).
  - vm_compute. auto.
  - reflexivity.
Defined.

Lemma nth_gather {A : Type} (d : A) (xs : list A) (js : list nat) (a : nat) :
  a < length js -> nth a (gather d xs js) d = nth (nth a js 0) xs d.
Proof.
  intros Ha. unfold gather.
  rewrite (nth_indep _ d (nth 0 xs d)) by (rewrite length_map; exact Ha).
  apply (map_nth (fun j => nth j xs d)).
Qed.

(** X4.  When [reorder] returns on a data set with a dense covariance of
    one row and column per record, record [a] of the result is the record
    at the [a]-th index given, and entry [(a, b)] of the new covariance is
    the entry of the old one at the [a]-th and [b]-th indices given. *)
Theorem reorder_moves_rows_and_columns_with_records (S S' : Sacc.t)
    (idx : Sacc.index_seq) (c : FullCovariance.t) :
  aligned_by_index S ->
  Sacc.covariance S = Some (Full c) ->
  Sacc.reorder idx S = (S', Ok tt) ->
  exists js c',
    mapM (py_index (Sacc.len S)) (Sacc.idx_items idx) = Ok js
    /\ Sacc.len S' = length js
    /\ Sacc.covariance S' = Some (Full c')
    /\ forall a b, a < length js -> b < length js ->
         nth a (Sacc.data S') DataPoint.dummy
           = nth (nth a js 0) (Sacc.data S) DataPoint.dummy
         /\ np.entry (FullCovariance.covmat c') a b
           = np.entry (FullCovariance.covmat c) (nth a js 0) (nth b js 0).
Proof.
  intros Ha Hc. rewrite reorder_aligned by exact Ha.
  destruct (mapM _ _) as [js|e]; [|discriminate]. intros [= <-].
  unfold restricted_to. rewrite Hc. cbn [fmap option_fmap option_map restricted].
  do 2 eexists. split; [reflexivity|]. split; [apply gather_length|].
  split; [reflexivity|]. intros a b Hla Hlb. cbn [Sacc.data]. split.
  - apply nth_gather, Hla.
  - unfold np.entry. cbn [FullCovariance.covmat FullCovariance.init np.rows].
    rewrite (nth_indep _ [] (gather 0%Q [] js))
      by (rewrite length_map, gather_length; exact Hla).
    rewrite (map_nth (fun r => gather 0%Q r js)).
    rewrite (nth_gather 0%Q _ js b Hlb), (nth_gather [] _ js a Hla). reflexivity.
Qed.

Lemma reorder_moves_rows_and_columns_with_records_witness :
  exists js c',
    mapM (py_index (Sacc.len S_full3)) (Sacc.idx_items (Sacc.IdxList [2; 0]%Z)) = Ok js
    /\ Sacc.len (fst (Sacc.reorder (Sacc.IdxList [2; 0]%Z) S_full3)) = length js
    /\ Sacc.covariance (fst (Sacc.reorder (Sacc.IdxList [2; 0]%Z) S_full3)) = Some (Full c')
    /\ forall a b, a < length js -> b < length js ->
         nth a (Sacc.data (fst (Sacc.reorder (Sacc.IdxList [2; 0]%Z) S_full3))) DataPoint.dummy
           = nth (nth a js 0) (Sacc.data S_full3) DataPoint.dummy
         /\ np.entry (FullCovariance.covmat c') a b
           = np.entry (FullCovariance.covmat full3) (nth a js 0) (nth b js 0).
Proof.
  apply (reorder_moves_rows_and_columns_with_records S_full3 _ (Sacc.IdxList [2; 0]%Z) full3).
  - vm_compute. auto.
  - reflexivity.
  - vm_compute. reflexivity.
Defined.

Lemma set_all_true_spec (js : list nat) (m : list bool) :
  Forall (fun j => j < length m) js ->
  Sacc.set_all_true m (Sacc.int_array js)
  = Ok (map (fun i => nth i m false || bool_decide (i ∈ js)) (seq 0 (length m))).
Proof.
  revert m. induction js as [|j js IH]; intros m Hb.
  - cbn. f_equal. rewrite <- (gather_identity false m) at 1. unfold gather.
    apply map_ext. intros i. rewrite orb_false_r. reflexivity.
  - inversion Hb as [|? ? Hj Hjs]; subst. unfold Sacc.int_array. cbn [map Sacc.set_all_true].
    unfold np.setitem_true. rewrite (py_index_in_range _ _ Hj). cbn [mbind result_bind].
    fold (Sacc.int_array js). rewrite IH by (rewrite length_insert; exact Hjs).
    rewrite length_insert. f_equal. apply map_ext_in. intros i Hi.
    apply in_seq in Hi. rewrite !nth_lookup.
    destruct (decide (i = j)) as [->|Hne].
    + rewrite list_lookup_insert_eq by exact Hj. cbn.
      rewrite bool_decide_eq_true_2 by (apply elem_of_cons; auto).
      rewrite orb_true_r. reflexivity.
    + rewrite list_lookup_insert_ne by auto. f_equal.
      apply bool_decide_ext. rewrite elem_of_cons. intuition congruence.
Qed.

(** X6.  [cut] with an array of a signed integer type holding positions
    within the data does what [cut] does with the boolean mask that is
    [True] exactly at these positions; a position listed twice counts
    once. *)
Theorem cut_by_indices_removes_listed (S : Sacc.t) (w : np.int_dtype) (js : list nat) :
  w ∈ [np.int8; np.int16; np.int32; np.int64] ->
  Forall (fun j => j < Sacc.len S) js ->
  Sacc.cut (Sacc.MaskArray (np.NdInt w (Sacc.int_array js))) S
  = Sacc.cut (Sacc.MaskArray (np.NdBool (mask_of (Sacc.len S) js))) S.
Proof.
  intros Hw Hb.
  assert (Hm : Sacc.to_bool_mask (Sacc.len S) (np.NdInt w (Sacc.int_array js))
               = Ok (mask_of (Sacc.len S) js)).
  { unfold Sacc.to_bool_mask. cbn [np.dtype_of].
    rewrite bool_decide_eq_true_2 by discriminate.
    rewrite (bool_decide_eq_true_2 (np.integer w ∈ _)).
    2:{ change ([np.integer np.int8; np.integer np.int16; np.integer np.int32;
                 np.integer np.int64])
          with (np.integer <$> [np.int8; np.int16; np.int32; np.int64]).
        apply list_elem_of_fmap_2, Hw. }
    cbn [negb]. rewrite set_all_true_spec
      by (unfold np.zeros_bool; rewrite repeat_length; exact Hb).
    unfold np.zeros_bool, mask_of. rewrite repeat_length. f_equal.
    apply map_ext_in. intros i Hi. apply in_seq in Hi.
    rewrite nth_repeat. reflexivity. }
  unfold Sacc.cut, mbind, Sacc.method_bind, Sacc.self_, Sacc.lift. cbn [Sacc.np_array].
  rewrite Hm. reflexivity.
Qed.

Lemma cut_by_indices_removes_listed_witness :
  Sacc.cut (Sacc.MaskArray (np.NdInt np.int64 (Sacc.int_array [1]))) S_full3
  = Sacc.cut (Sacc.MaskArray (np.NdBool (mask_of (Sacc.len S_full3) [1]))) S_full3.
Proof.
  apply (cut_by_indices_removes_listed S_full3 np.int64 [1]).
  - vm_compute. repeat constructor.
  - repeat constructor.
Defined.

(** ** The covariance of the reachable data sets *)

Lemma py_index_empty (i : Z) : py_index 0 i = Raise (IndexError "index out of range").
Proof.
  unfold py_index. change (Z.of_nat 0) with 0%Z. change (- 0)%Z with 0%Z.
  destruct (Z.leb_spec 0 i), (Z.ltb_spec i 0); cbn; try reflexivity; lia.
Qed.

Lemma block_masked_not_densified (b : BlockDiagonalCovariance.t) (sel : np.selector)
    (f : FullCovariance.t) :
  BlockDiagonalCovariance.masked b sel <> Ok (BlockDiagonalCovariance.Densified f).
Proof.
  destruct sel as [l|idx|m]; cbn [BlockDiagonalCovariance.masked]; [discriminate| |].
  - destruct (forallb _ (np.diff idx)) eqn:Einc.
    + destruct (BlockDiagonalCovariance.sub_blocks_loop _ _ _ _); discriminate.
    + destruct (BlockDiagonalCovariance.blocks b) as [|x xs].
      * destruct idx as [|i idx]; [discriminate Einc|].
        cbn [scipy_linalg.block_diag mapM scipy_linalg.atleast_2d_checked
             mbind result_bind mret result_ret].
        unfold np.getitem_rows_cols, np.getitem_rows.
        destruct (np.positions _ _); [|discriminate]. cbn [mbind result_bind].
        unfold np.getitem_cols. cbn [np.ncols scipy_linalg.direct_sum np.positions].
        rewrite mapM_cons. change (sum_list (map np.ncols [np.Nd2 0 [[]]])) with 0.
        rewrite py_index_empty. discriminate.
      * unfold scipy_linalg.block_diag. rewrite mapM_cons.
        cbn [scipy_linalg.atleast_2d_checked]. destruct (forallb _ xs); discriminate.
  - destruct (mapM _ _); discriminate.
Qed.

Lemma reorder_block (S : Sacc.t) (idx : Sacc.index_seq) (b : BlockDiagonalCovariance.t) :
  Sacc.covariance S = Some (Block b) ->
  exists b', Sacc.covariance (fst (Sacc.reorder idx S)) = Some (Block b').
Proof.
  intros Hc. unfold Sacc.reorder, mbind, Sacc.method_bind, Sacc.self_, Sacc.lift.
  destruct (Sacc.data_at _ _); [|cbn; eauto].
  unfold Sacc.set_data. rewrite Hc. cbn [BaseCovariance.masked].
  destruct (BlockDiagonalCovariance.masked b (Sacc.idx_selector idx)) as [[b'|f]|e] eqn:Em;
    cbn; eauto.
  exfalso. exact (block_masked_not_densified _ _ _ Em).
Qed.

Lemma cut_block (S : Sacc.t) (mask : Sacc.mask_arg) (b : BlockDiagonalCovariance.t) :
  Sacc.covariance S = Some (Block b) ->
  exists b', Sacc.covariance (fst (Sacc.cut mask S)) = Some (Block b').
Proof.
  intros Hc. unfold Sacc.cut, mbind, Sacc.method_bind, Sacc.self_, Sacc.lift.
  destruct (Sacc.to_bool_mask _ _) as [m|e]; [|cbn; eauto].
  destruct (negb _); [cbn; eauto|].
  unfold Sacc.set_data. rewrite Hc. cbn [BaseCovariance.masked].
  destruct (BlockDiagonalCovariance.masked b _) as [[b'|f]|e] eqn:Em; cbn; eauto.
  exfalso. exact (block_masked_not_densified _ _ _ Em).
Qed.

Lemma covariance_invariant_aligned (S : Sacc.t) :
  covariance_invariant S ->
  aligned_by_index S \/ exists b, Sacc.covariance S = Some (Block b).
Proof.
  unfold covariance_invariant, aligned_by_index.
  destruct (Sacc.covariance S) as [[c|b|d]|]; cbn; eauto. intros [].
Qed.

Lemma aligned_covariance_invariant (S S' : Sacc.t) :
  covariance_invariant S -> aligned_by_index S' ->
  (forall d, Sacc.covariance S' = Some (Diag d) -> exists d', Sacc.covariance S = Some (Diag d')) ->
  covariance_invariant S'.
Proof.
  unfold covariance_invariant, aligned_by_index. intros HS Ha Hd.
  destruct (Sacc.covariance S') as [[c|b|d]|]; cbn in *; auto.
  destruct (Hd d eq_refl) as [d' Hd']. rewrite Hd' in HS. exact HS.
Qed.

Lemma make_Ok (cov : BaseCovariance.cov_arg) (n : nat) (c : Covariance) :
  BaseCovariance.make cov n = Ok c ->
  match c with
  | Full c => np.nrows (FullCovariance.covmat c) = n /\ np.ncols (FullCovariance.covmat c) = n
  | Block b => exists blocks, cov = BaseCovariance.CovBlocks blocks
                              /\ b = BlockDiagonalCovariance.init blocks
                              /\ BlockDiagonalCovariance.total_size b = n
  | Diag _ => False
  end.
Proof.
  destruct cov as [blocks|a]; cbn [BaseCovariance.make].
  - destruct (BaseCovariance.make_loop 0 blocks) as [s|e] eqn:Es; [|discriminate].
    cbn [mbind result_bind]. destruct (s =? n) eqn:En; cbn [negb]; [|discriminate].
    intros [= <-]. exists blocks. split; [reflexivity|]. split; [reflexivity|].
    apply Nat.eqb_eq in En. subst n.
    assert (H : forall bs acc s, BaseCovariance.make_loop acc bs = Ok s ->
                s = acc + sum_list (map np.nrows bs)).
    { induction bs as [|x bs IH]; intros acc s' H.
      - cbn in H. injection H as <-. cbn. lia.
      - cbn [BaseCovariance.make_loop] in H. destruct (negb _); [discriminate|].
        apply IH in H. cbn. lia. }
    apply H in Es. cbn. lia.
  - destruct (np.nrows a =? np.ncols a) eqn:E1, (np.nrows a =? n) eqn:E2;
      cbn [negb orb]; try discriminate.
    intros [= <-]. apply Nat.eqb_eq in E1, E2. cbn. lia.
Qed.

Lemma built_covariance_invariant (S : Sacc.t) : built S -> covariance_invariant S.
Proof.
  induction 1 as [|S tr _ IH|S dt trc v later tags _ IH|S cov _ IH|S idx _ IH|S mask _ IH].
  - exact I.
  - exact IH.
  - unfold Sacc.add_data_point, mbind, Sacc.method_bind, Sacc.self_, Sacc.raise, Sacc.lift.
    destruct (Sacc.covariance S) eqn:Hc; [exact IH|].
    destruct (Sacc.check_tracers _ _ _); [|exact IH].
    unfold covariance_invariant. cbn. rewrite Hc. exact I.
  - unfold Sacc.add_covariance, mbind, Sacc.method_bind, Sacc.self_, Sacc.lift.
    destruct (BaseCovariance.make cov (Sacc.len S)) as [c|e] eqn:Em; [|exact IH].
    apply make_Ok in Em. unfold covariance_invariant. cbn.
    destruct c as [c|b|d]; auto.
  - destruct (covariance_invariant_aligned _ IH) as [Ha|[b Hb]].
    + apply (aligned_covariance_invariant S); [exact IH| |].
      * apply reorder_keeps_aligned_by_index, Ha.
      * rewrite reorder_aligned by exact Ha. destruct (mapM _ _); cbn; [|eauto].
        destruct (Sacc.covariance S) as [[c|b|d]|]; cbn; try discriminate. eauto.
    + destruct (reorder_block S idx b Hb) as [b' Hb'].
      unfold covariance_invariant. rewrite Hb'. exact I.
  - destruct (covariance_invariant_aligned _ IH) as [Ha|[b Hb]].
    + apply (aligned_covariance_invariant S); [exact IH| |].
      * apply cut_keeps_aligned_by_index, Ha.
      * rewrite cut_aligned by exact Ha. destruct (Sacc.to_bool_mask _ _); cbn; [|eauto].
        destruct (_ =? _); cbn; [|eauto].
        destruct (Sacc.covariance S) as [[c|b|d]|]; cbn; try discriminate. eauto.
    + destruct (cut_block S mask b Hb) as [b' Hb'].
      unfold covariance_invariant. rewrite Hb'. exact I.
Qed.

(** X1.  In every data set that a caller can reach from [Sacc()] through
    [add_tracer_object], [add_data_point], [add_covariance], [reorder] and
    [cut], whether the calls returned or raised, a dense covariance has
    exactly one row and one column per record, and the covariance is never
    a [DiagonalCovariance]. *)
Theorem reachable_dense_covariance_is_aligned (S : Sacc.t) :
  built S ->
  match Sacc.covariance S with
  | Some (Full c) => np.nrows (FullCovariance.covmat c) = Sacc.len S
                     /\ np.ncols (FullCovariance.covmat c) = Sacc.len S
  | Some (Diag _) => False
  | Some (Block _) | None => True
  end.
Proof. apply built_covariance_invariant. Qed.

Lemma reachable_dense_covariance_is_aligned_witness :
  match Sacc.covariance S_full3 with
  | Some (Full c) => np.nrows (FullCovariance.covmat c) = Sacc.len S_full3
                     /\ np.ncols (FullCovariance.covmat c) = Sacc.len S_full3
  | Some (Diag _) => False
  | Some (Block _) | None => True
  end.
Proof. apply (reachable_dense_covariance_is_aligned S_full3). exact S_full3_built. Defined.

(** X8.  When [add_covariance] returns, the records are unchanged and the
    covariance attached has the size of the data set: a [FullCovariance]
    for a matrix, a [BlockDiagonalCovariance] for a list of blocks.  When it
    raises, it raises [ValueError] and the data set is unchanged. *)
Theorem add_covariance_aligns_or_changes_nothing (S : Sacc.t) (cov : BaseCovariance.cov_arg) :
  match Sacc.add_covariance cov S with
  | (S', Ok _) =>
      Sacc.data S' = Sacc.data S
      /\ exists c, Sacc.covariance S' = Some c
                   /\ BaseCovariance.size c = Sacc.len S
                   /\ constructed c
                   /\ match c, cov with
                      | Full _, BaseCovariance.CovMatrix _ => True
                      | Block _, BaseCovariance.CovBlocks _ => True
                      | _, _ => False
                      end
  | (S', Raise e) => S' = S /\ exists msg, e = ValueError msg
  end.
Proof.
  unfold Sacc.add_covariance, mbind, Sacc.method_bind, Sacc.self_, Sacc.lift.
  destruct (BaseCovariance.make cov (Sacc.len S)) as [c|e] eqn:Em.
  - cbn. split; [reflexivity|]. exists c. split; [reflexivity|].
    pose proof (make_Ok _ _ _ Em) as H. destruct c as [c|b|d].
    + destruct H as [Hr _]. repeat split; auto.
      destruct cov; [|exact I]. cbn in Em.
      destruct (BaseCovariance.make_loop 0 blocks); [|discriminate].
      cbn in Em. destruct (negb _); discriminate.
    + destruct H as (blocks & -> & -> & Hs). repeat split; auto.
    + destruct H.
  - split; [reflexivity|]. destruct cov as [blocks|a]; cbn in Em.
    + destruct (BaseCovariance.make_loop 0 blocks) as [s|e'] eqn:Es.
      * cbn in Em. destruct (negb _); [|discriminate]. injection Em as <-. eauto.
      * cbn in Em. injection Em as <-.
        assert (H : forall bs acc e, BaseCovariance.make_loop acc bs = Raise e ->
                      exists msg, e = ValueError msg).
        { induction bs as [|x bs IH]; intros acc e0 H; [discriminate|].
          cbn [BaseCovariance.make_loop] in H. destruct (negb _); [|eauto].
          injection H as <-. eauto. }
        eauto.
    + destruct (_ || _); [|discriminate]. injection Em as <-. eauto.
Qed.

(** X9.  Once [add_covariance] has returned, every [add_data_point]
    raises [ValueError] and leaves the data set as it is. *)
Theorem covariance_seals_the_data (S S' : Sacc.t) (cov : BaseCovariance.cov_arg)
    (dt : string) (trc : pyseq) (v : Q) (later : bool) (tags : gmap string pyval) :
  Sacc.add_covariance cov S = (S', Ok tt) ->
  Sacc.add_data_point dt trc v later tags S'
  = (S', Raise (ValueError "You cannot add a data point after setting the covariance")).
Proof.
  unfold Sacc.add_covariance, mbind, Sacc.method_bind, Sacc.self_, Sacc.lift.
  destruct (BaseCovariance.make cov (Sacc.len S)) as [c|e]; [|discriminate].
  intros [= <-]. reflexivity.
Qed.

(** ** The canonical order *)

Lemma string_ltb_asym (s t : string) : String.ltb s t = true -> String.ltb t s = false.
Proof.
  unfold String.ltb. rewrite (String.compare_antisym t s).
  destruct (String.compare s t); cbn; congruence.
Qed.

Lemma Qlt_bool_asym (x y : Q) : Qlt_bool x y = true -> Qlt_bool y x = false.
Proof.
  unfold Qlt_bool. intros H. apply negb_true_iff in H. apply negb_false_iff.
  apply Qle_bool_iff, Qlt_le_weak, Qnot_le_lt. intros Hle.
  apply Qle_bool_iff in Hle. congruence.
Qed.

Lemma strings_lt_asym (l l' : list string) :
  Sacc.strings_lt l l' = true -> Sacc.strings_lt l' l = false.
Proof.
  revert l'. induction l as [|x l IH]; intros [|y l']; cbn; try congruence.
  destruct (decide (x = y)) as [->|Hne].
  - rewrite bool_decide_eq_true_2 by reflexivity. apply IH.
  - rewrite !bool_decide_eq_false_2 by congruence. apply string_ltb_asym.
Qed.

Lemma pyseq_eqb_sym (a b : pyseq) : pyseq_eqb a b = pyseq_eqb b a.
Proof. destruct a, b; cbn; try reflexivity; apply bool_decide_ext; split; congruence. Qed.

Lemma py_lt_asym (a b : pyval) : py_lt a b = Ok true -> py_lt b a <> Ok true.
Proof.
  unfold py_lt.
  destruct (as_number a) as [x|] eqn:Ea, (as_number b) as [y|] eqn:Eb.
  - intros [= H]. apply Qlt_bool_asym in H. congruence.
  - destruct a, b; try discriminate.
  - destruct a, b; try discriminate.
  - destruct a, b; try discriminate. intros [= H]. apply string_ltb_asym in H. congruence.
Qed.

Lemma key_ltb_asym (k1 k2 : Sacc.key) :
  Sacc.key_ltb k1 k2 = true -> Sacc.key_ltb k2 k1 = false.
Proof.
  destruct k1 as [[d1 t1] a1], k2 as [[d2 t2] a2]. unfold Sacc.key_ltb, Sacc.key_lt.
  rewrite (Z.eqb_sym d2 d1), (pyseq_eqb_sym t2 t1).
  destruct (Z.eqb_spec d1 d2) as [->|Hd]; cbn [negb].
  2:{ intros H. apply Z.ltb_lt in H. apply Z.ltb_ge. lia. }
  destruct (pyseq_eqb t1 t2); cbn [negb].
  2:{ destruct t1, t2; cbn; try congruence; intros H; apply strings_lt_asym, H. }
  destruct (py_eq a1 a2); cbn [negb]; [discriminate|].
  destruct (py_lt a1 a2) as [[]|] eqn:E; try discriminate. intros _.
  destruct (py_eq a2 a1); cbn [negb]; [reflexivity|].
  pose proof (py_lt_asym _ _ E) as H. destruct (py_lt a2 a1) as [[]|]; congruence.
Qed.

Lemma insert_by_key_perm (x : nat * Sacc.key) (l : list (nat * Sacc.key)) :
  Sacc.insert_by_key x l ≡ₚ x :: l.
Proof.
  induction l as [|y l IH]; [reflexivity|]. cbn [Sacc.insert_by_key].
  destruct (Sacc.key_ltb _ _); [|reflexivity].
  rewrite IH. apply Permutation_swap.
Qed.

Lemma sort_by_key_perm (l : list (nat * Sacc.key)) : Sacc.sort_by_key l ≡ₚ l.
Proof.
  induction l as [|x l IH]; [reflexivity|]. cbn [Sacc.sort_by_key].
  rewrite insert_by_key_perm, IH. reflexivity.
Qed.

Lemma insert_by_key_sorted (x : nat * Sacc.key) (l : list (nat * Sacc.key)) :
  Sorted not_after (map snd l) -> Sorted not_after (map snd (Sacc.insert_by_key x l)).
Proof.
  induction l as [|y l IH]; intros Hs.
  - cbn. repeat constructor.
  - cbn [Sacc.insert_by_key]. destruct (Sacc.key_ltb (snd y) (snd x)) eqn:E.
    + cbn [map] in *. inversion Hs as [|? ? Hs' Hhd]; subst.
      constructor; [apply IH, Hs'|].
      destruct l as [|z l]; cbn [Sacc.insert_by_key map].
      * constructor. apply key_ltb_asym, E.
      * destruct (Sacc.key_ltb (snd z) (snd x)); cbn [map].
        -- constructor. inversion Hhd; subst. assumption.
        -- constructor. apply key_ltb_asym, E.
    + cbn [map] in *. constructor; [exact Hs|]. constructor. exact E.
Qed.

Lemma sort_by_key_sorted (l : list (nat * Sacc.key)) :
  Sorted not_after (map snd (Sacc.sort_by_key l)).
Proof.
  induction l as [|x l IH]; [constructor|]. cbn [Sacc.sort_by_key].
  apply insert_by_key_sorted, IH.
Qed.

Lemma sort_by_key_of_sorted (l : list (nat * Sacc.key)) :
  Sorted not_after (map snd l) -> Sacc.sort_by_key l = l.
Proof.
  induction l as [|x l IH]; intros Hs; [reflexivity|].
  cbn [map] in Hs. inversion Hs as [|? ? Hs' Hhd]; subst.
  cbn [Sacc.sort_by_key]. rewrite IH by exact Hs'.
  destruct l as [|y l]; [reflexivity|]. cbn [Sacc.insert_by_key].
  inversion Hhd as [|? ? Hxy]; subst. unfold not_after in Hxy. rewrite Hxy. reflexivity.
Qed.

Lemma zip_seq_lookup {A : Type} (d : A) (xs : list A) (k : nat) (p : nat * A) :
  p ∈ zip (seq k (length xs)) xs -> k <= fst p /\ snd p = nth (fst p - k) xs d.
Proof.
  revert k. induction xs as [|x xs IH]; intros k; cbn; [intros H; inversion H|].
  rewrite elem_of_cons. intros [->|H].
  - cbn. rewrite Nat.sub_diag. auto.
  - apply IH in H. destruct H as [Hle ->]. split; [lia|].
    replace (fst p - k) with (S (fst p - S k)) by lia. reflexivity.
Qed.

(** What [sorted] gives when it returns: the positions in an order that
    permutes them, the keys at these positions in order. *)
Lemma sorted_enumerate_Ok (keys : list Sacc.key) (s : list (nat * Sacc.key)) :
  Sacc.sorted_enumerate keys = Ok s ->
  map fst s ≡ₚ seq 0 (length keys)
  /\ map snd s = map (fun j => nth j keys (0%Z, PyTuple [], PNone)) (map fst s)
  /\ Sorted not_after (map snd s)
  /\ map snd s ≡ₚ keys
  /\ (forall k1 k2, k1 ∈ keys -> k2 ∈ keys -> Sacc.comparable k1 k2 = true).
Proof.
  unfold Sacc.sorted_enumerate. destruct (forallb _ keys) eqn:Ec; [|discriminate].
  intros [= <-].
  pose proof (sort_by_key_perm (zip (seq 0 (length keys)) keys)) as Hp.
  split; [|split; [|split; [|split]]].
  - change (map fst ?l) with (fst <$> l). rewrite Hp, fst_zip; [reflexivity|].
    rewrite length_seq. reflexivity.
  - rewrite map_map. apply map_ext_in. intros p Hin. apply list_elem_of_In in Hin.
    rewrite Hp in Hin. apply (zip_seq_lookup (0%Z, PyTuple [], PNone)) in Hin.
    destruct Hin as [_ Hin]. rewrite Nat.sub_0_r in Hin. exact Hin.
  - apply sort_by_key_sorted.
  - change (map snd ?l) with (snd <$> l). rewrite Hp, snd_zip; [reflexivity|].
    rewrite length_seq. reflexivity.
  - intros k1 k2 H1 H2. rewrite forallb_forall in Ec.
    apply list_elem_of_In in H1, H2. specialize (Ec _ H1).
    rewrite forallb_forall in Ec. exact (Ec _ H2).
Qed.

Lemma sorted_enumerate_of_sorted (keys : list Sacc.key) :
  (forall k1 k2, k1 ∈ keys -> k2 ∈ keys -> Sacc.comparable k1 k2 = true) ->
  Sorted not_after keys ->
  Sacc.sorted_enumerate keys = Ok (zip (seq 0 (length keys)) keys).
Proof.
  intros Hc Hs. unfold Sacc.sorted_enumerate.
  replace (forallb _ keys) with true.
  - rewrite sort_by_key_of_sorted; [reflexivity|].
    change (map snd ?l) with (snd <$> l). rewrite snd_zip; [exact Hs|].
    rewrite length_seq. reflexivity.
  - symmetry. apply forallb_forall. intros k1 H1. apply forallb_forall. intros k2 H2.
    apply Hc; apply list_elem_of_In; assumption.
Qed.

Lemma gather_perm {A : Type} (d : A) (xs : list A) (js : list nat) :
  js ≡ₚ seq 0 (length xs) -> gather d xs js ≡ₚ xs.
Proof.
  intros Hp. rewrite <- (gather_identity d xs) at 2. unfold gather.
  change (map ?f ?l) with (f <$> l). rewrite Hp. reflexivity.
Qed.

Lemma perm_seq_bound (js : list nat) (n : nat) :
  js ≡ₚ seq 0 n -> Forall (fun j => j < n) js.
Proof.
  intros Hp. rewrite Hp. apply Forall_forall. intros j Hj.
  apply list_elem_of_In, in_seq in Hj. lia.
Qed.

Lemma string_compare_lt_trans (a b c : string) :
  String.compare a b = Lt -> String.compare b c = Lt -> String.compare a c = Lt.
Proof.
  revert b c. induction a as [|x a IH]; intros [|y b] [|z c]; cbn; try congruence.
  destruct (Ascii.compare x y) eqn:Exy; try discriminate.
  - apply Ascii.compare_eq_iff in Exy. subst y.
    destruct (Ascii.compare x z); try congruence. apply IH.
  - intros _. destruct (Ascii.compare y z) eqn:Eyz; try discriminate.
    + apply Ascii.compare_eq_iff in Eyz. subst z. rewrite Exy. reflexivity.
    + intros _. unfold Ascii.compare in *.
      rewrite N.compare_lt_iff in Exy, Eyz.
      replace (N_of_ascii x ?= N_of_ascii z)%N with Lt; [reflexivity|].
      symmetry. apply N.compare_lt_iff. lia.
Qed.

Lemma string_ltb_trans (a b c : string) :
  String.ltb a b = true -> String.ltb b c = true -> String.ltb a c = true.
Proof.
  unfold String.ltb. intros H1 H2.
  destruct (String.compare a b) eqn:E1; try discriminate.
  destruct (String.compare b c) eqn:E2; try discriminate.
  rewrite (string_compare_lt_trans _ _ _ E1 E2). reflexivity.
Qed.

Lemma string_ltb_total (a b : string) :
  a <> b -> String.ltb a b = true \/ String.ltb b a = true.
Proof.
  intros Hne. unfold String.ltb. rewrite (String.compare_antisym b a).
  destruct (String.compare a b) eqn:E; cbn; auto.
  apply String.compare_eq_iff in E. contradiction.
Qed.

Lemma string_ltb_irrefl (a : string) : String.ltb a a = false.
Proof.
  destruct (String.ltb a a) eqn:E; [|reflexivity].
  rewrite (string_ltb_asym _ _ E) in E. discriminate.
Qed.

(** A third element lies on one side of every ordered pair. *)
Lemma string_ltb_between (a b c : string) :
  String.ltb a c = true -> String.ltb a b = true \/ String.ltb b c = true.
Proof.
  intros H. destruct (decide (b = c)) as [->|Hne]; [auto|].
  destruct (string_ltb_total b c Hne) as [Hbc|Hcb]; [auto|].
  left. eapply string_ltb_trans; eassumption.
Qed.

Lemma strings_lt_total (l l' : list string) :
  l <> l' -> Sacc.strings_lt l l' = true \/ Sacc.strings_lt l' l = true.
Proof.
  revert l'. induction l as [|x l IH]; intros [|y l'] Hne; cbn; auto; try congruence.
  destruct (decide (x = y)) as [->|Hxy].
  - rewrite bool_decide_eq_true_2 by reflexivity. apply IH. congruence.
  - rewrite !bool_decide_eq_false_2 by congruence. apply string_ltb_total, Hxy.
Qed.

Lemma strings_lt_trans (a b c : list string) :
  Sacc.strings_lt a b = true -> Sacc.strings_lt b c = true -> Sacc.strings_lt a c = true.
Proof.
  revert b c. induction a as [|x a IH]; intros [|y b] [|z c]; cbn; try congruence.
  destruct (decide (x = y)) as [->|Hxy].
  - rewrite bool_decide_eq_true_2 by reflexivity.
    destruct (decide (y = z)) as [->|Hyz].
    + rewrite bool_decide_eq_true_2 by reflexivity. apply IH.
    + rewrite bool_decide_eq_false_2 by exact Hyz. auto.
  - rewrite (bool_decide_eq_false_2 (x = y)) by exact Hxy. intros Hlt.
    destruct (decide (y = z)) as [->|Hyz].
    + rewrite bool_decide_eq_true_2 by reflexivity.
      rewrite bool_decide_eq_false_2 by exact Hxy. auto.
    + rewrite (bool_decide_eq_false_2 (y = z)) by exact Hyz. intros Hlt'.
      pose proof (string_ltb_trans _ _ _ Hlt Hlt') as Hxz.
      rewrite bool_decide_eq_false_2; [exact Hxz|].
      intros ->. rewrite (string_ltb_asym _ _ Hlt) in Hlt'. discriminate.
Qed.

Lemma strings_lt_between (a b c : list string) :
  Sacc.strings_lt a c = true -> Sacc.strings_lt a b = true \/ Sacc.strings_lt b c = true.
Proof.
  intros H. destruct (decide (b = c)) as [->|Hne]; [auto|].
  destruct (strings_lt_total b c Hne) as [Hbc|Hcb]; [auto|].
  left. eapply strings_lt_trans; eassumption.
Qed.

Lemma pyseq_eqb_eq (a b : pyseq) : pyseq_eqb a b = true <-> a = b.
Proof.
  destruct a, b; cbn; rewrite ?bool_decide_eq_true; split; congruence.
Qed.

Lemma Qlt_bool_lt (x y : Q) : Qlt_bool x y = true <-> (x < y)%Q.
Proof.
  unfold Qlt_bool. rewrite negb_true_iff. split.
  - intros H. apply Qnot_le_lt. intros Hle. apply Qle_bool_iff in Hle. congruence.
  - intros H. destruct (Qle_bool y x) eqn:E; [|reflexivity].
    apply Qle_bool_iff in E. exfalso. exact (Qlt_not_le _ _ H E).
Qed.

Lemma Qeq_bool_lt (x y : Q) : (x < y)%Q -> Qeq_bool x y = false.
Proof.
  intros H. destruct (Qeq_bool x y) eqn:E; [|reflexivity].
  apply Qeq_bool_iff in E. rewrite E in H. exfalso. exact (Qlt_irrefl _ H).
Qed.

(** The third component of the keys: when [c] is smaller than [a], and [b]
    compares with both, [c] is smaller than [b] or [b] smaller than [a];
    smaller as the comparison of tuples has it, different and [<]. *)
Lemma py_lt_between (a b c : pyval) :
  py_eq c a = false -> py_lt c a = Ok true ->
  (py_eq b a = false -> raised (py_lt b a) = false) ->
  (py_eq c b = false -> raised (py_lt c b) = false) ->
  (py_eq c b = false /\ py_lt c b = Ok true)
  \/ (py_eq b a = false /\ py_lt b a = Ok true).
Proof.
  intros Hne Hlt Hba Hcb.
  destruct c as [| bc | zc | qc | sc], a as [| ba | za | qa | sa];
    try discriminate Hlt;
    destruct b as [| bb | zb | qb | sb];
    try (exfalso; specialize (Hba eq_refl); discriminate Hba);
    try (exfalso; specialize (Hcb eq_refl); discriminate Hcb).
  all: unfold py_lt, py_eq in *; cbn [as_number] in *.
  all: try (injection Hlt as Hlt; apply Qlt_bool_lt in Hlt;
            match goal with
            | |- (Qeq_bool ?x ?z = false /\ _) \/ (Qeq_bool ?z ?y = false /\ _) =>
                destruct (Qlt_le_dec z y) as [Hzy|Hyz];
                [right; split; [apply Qeq_bool_lt, Hzy|f_equal; apply Qlt_bool_lt, Hzy]
                |left; assert (Hxz : (x < z)%Q) by (eapply Qlt_le_trans; eassumption);
                 split; [apply Qeq_bool_lt, Hxz|f_equal; apply Qlt_bool_lt, Hxz]]
            end).
  injection Hlt as Hlt. destruct (string_ltb_between sc sb sa Hlt) as [H|H].
  - left. split; [|rewrite H; reflexivity].
    apply bool_decide_eq_false_2. intros ->. rewrite string_ltb_irrefl in H. discriminate.
  - right. split; [|rewrite H; reflexivity].
    apply bool_decide_eq_false_2. intros ->. rewrite string_ltb_irrefl in H. discriminate.
Qed.

Lemma strings_lt_irrefl (l : list string) : Sacc.strings_lt l l = false.
Proof.
  induction l as [|x l IH]; [reflexivity|]. cbn.
  rewrite bool_decide_eq_true_2 by reflexivity. exact IH.
Qed.

Lemma pyseq_lt_between (ta tb tc : pyseq) :
  Sacc.pyseq_lt tc ta = Ok true ->
  (pyseq_eqb tb ta = false -> raised (Sacc.pyseq_lt tb ta) = false) ->
  (pyseq_eqb tc tb = false /\ Sacc.pyseq_lt tc tb = Ok true)
  \/ (pyseq_eqb tb ta = false /\ Sacc.pyseq_lt tb ta = Ok true).
Proof.
  assert (Hlists : forall la lb lc, Sacc.strings_lt lc la = true ->
            (bool_decide (lc = lb) = false /\ Ok (Sacc.strings_lt lc lb) = Ok true)
            \/ (bool_decide (lb = la) = false /\ Ok (Sacc.strings_lt lb la) = Ok true)).
  { intros la lb lc H. destruct (strings_lt_between lc lb la H) as [H'|H'].
    - left. split; [|rewrite H'; reflexivity].
      apply bool_decide_eq_false_2. intros ->. rewrite strings_lt_irrefl in H'. discriminate.
    - right. split; [|rewrite H'; reflexivity].
      apply bool_decide_eq_false_2. intros ->. rewrite strings_lt_irrefl in H'. discriminate. }
  destruct ta as [la|la], tb as [lb|lb], tc as [lc|lc]; cbn; intros Hlt Hba;
    try discriminate Hlt;
    try (exfalso; specialize (Hba eq_refl); discriminate Hba);
    injection Hlt as Hlt; apply Hlists, Hlt.
Qed.

Lemma pyseq_lt_total (ta tb : pyseq) :
  pyseq_eqb tb ta = false -> raised (Sacc.pyseq_lt tb ta) = false ->
  Sacc.pyseq_lt tb ta = Ok true \/ Sacc.pyseq_lt ta tb = Ok true.
Proof.
  destruct ta as [la|la], tb as [lb|lb]; cbn; try discriminate; intros Hne _;
    (destruct (strings_lt_total lb la) as [H|H];
      [intros ->; rewrite bool_decide_eq_true_2 in Hne by reflexivity; discriminate
      |rewrite H; auto|rewrite H; auto]).
Qed.

Lemma key_ltb_between (a b c : Sacc.key) :
  Sacc.comparable b a = true -> Sacc.comparable c b = true ->
  Sacc.key_ltb c a = true -> Sacc.key_ltb c b = true \/ Sacc.key_ltb b a = true.
Proof.
  destruct a as [[da ta] aa], b as [[db tb] ab], c as [[dc tc] ac].
  unfold Sacc.comparable. intros Hba Hcb.
  apply andb_true_iff in Hba, Hcb.
  destruct Hba as [Hba _], Hcb as [Hcb _]. apply negb_true_iff in Hba, Hcb.
  revert Hba Hcb. unfold Sacc.key_ltb, Sacc.key_lt.
  destruct (Z.eqb_spec dc da) as [->|Hca]; cbn [negb].
  2:{ intros _ _ H. apply Z.ltb_lt in H.
      destruct (Z.eqb_spec db da) as [->|Hba]; cbn [negb].
      - left. destruct (Z.eqb_spec dc da); [contradiction|]. cbn [negb].
        apply Z.ltb_lt, H.
      - destruct (Z.lt_ge_cases db da) as [Hlt|Hge].
        + right. apply Z.ltb_lt, Hlt.
        + left. destruct (Z.eqb_spec dc db) as [->|]; [lia|]. cbn [negb].
          apply Z.ltb_lt. lia. }
  destruct (Z.eqb_spec db da) as [->|Hba]; cbn [negb].
  2:{ intros _ _ _. destruct (Z.eqb_spec da db) as [->|]; [contradiction|]. cbn [negb].
      destruct (Z.lt_ge_cases db da) as [Hlt|Hge].
      - right. apply Z.ltb_lt, Hlt.
      - left. apply Z.ltb_lt. lia. }
  rewrite Z.eqb_refl. cbn [negb].
  destruct (pyseq_eqb tc ta) eqn:Eca; cbn [negb].
  2:{ intros Hba Hcb H.
      assert (Hlt : Sacc.pyseq_lt tc ta = Ok true)
        by (destruct (Sacc.pyseq_lt tc ta) as [[]|]; congruence).
      destruct (pyseq_lt_between ta tb tc Hlt) as [[He Hl]|[He Hl]].
      - intros He. rewrite He in Hba. exact Hba.
      - left. rewrite He. cbn [negb]. rewrite Hl. reflexivity.
      - right. rewrite He. cbn [negb]. rewrite Hl. reflexivity. }
  apply pyseq_eqb_eq in Eca. subst tc.
  destruct (pyseq_eqb tb ta) eqn:Eba; cbn [negb].
  2:{ rewrite pyseq_eqb_sym, Eba. cbn [negb]. intros Hba _ _.
      destruct (pyseq_lt_total ta tb Eba Hba) as [H|H]; rewrite H; auto. }
  apply pyseq_eqb_eq in Eba. subst tb.
  assert (Hrefl : pyseq_eqb ta ta = true) by (apply pyseq_eqb_eq; reflexivity).
  rewrite Hrefl. cbn [negb].
  destruct (py_eq ac aa) eqn:Eca; cbn [negb]; [discriminate|].
  intros Hba Hcb H.
  assert (Hlt : py_lt ac aa = Ok true) by (destruct (py_lt ac aa) as [[]|]; congruence).
  destruct (py_lt_between aa ab ac Eca Hlt) as [[He Hl]|[He Hl]].
  - intros He. rewrite He in Hba. exact Hba.
  - intros He. rewrite He in Hcb. exact Hcb.
  - left. rewrite He. cbn [negb]. rewrite Hl. reflexivity.
  - right. rewrite He. cbn [negb]. rewrite Hl. reflexivity.
Qed.

Lemma not_after_trans (a b c : Sacc.key) :
  Sacc.comparable b a = true -> Sacc.comparable c b = true ->
  not_after a b -> not_after b c -> not_after a c.
Proof.
  unfold not_after. intros Hba Hcb Hab Hbc.
  destruct (Sacc.key_ltb c a) eqn:E; [|reflexivity].
  destruct (key_ltb_between a b c Hba Hcb E); congruence.
Qed.

Lemma Sorted_StronglySorted_comparable (keys : list Sacc.key) :
  (forall k1 k2, k1 ∈ keys -> k2 ∈ keys -> Sacc.comparable k1 k2 = true) ->
  Sorted not_after keys -> StronglySorted not_after keys.
Proof.
  intros Hc Hs. induction Hs as [|x l Hs IH Hhd]; [constructor|].
  assert (Hl : StronglySorted not_after l).
  { apply IH. intros k1 k2 H1 H2. apply Hc; apply elem_of_cons; auto. }
  constructor; [exact Hl|].
  destruct Hhd as [|y l' Hxy]; [constructor|].
  inversion Hl as [|? ? _ Hall]; subst. constructor; [exact Hxy|].
  rewrite Forall_forall in Hall |- *. intros z Hz.
  apply (not_after_trans x y z); [| |exact Hxy|apply Hall, Hz].
  - apply Hc; [apply elem_of_cons; right; apply elem_of_cons; left; reflexivity
              |apply elem_of_cons; left; reflexivity].
  - apply Hc; apply elem_of_cons; right; [|apply elem_of_cons; left; reflexivity].
    apply elem_of_cons. right. exact Hz.
Qed.

Lemma StronglySorted_lookup (keys : list Sacc.key) (i j : nat) (a b : Sacc.key) :
  StronglySorted not_after keys -> i < j ->
  keys !! i = Some a -> keys !! j = Some b -> not_after a b.
Proof.
  intros Hs. revert i j. induction Hs as [|x l Hs IH Hall]; intros i j Hij Ha Hb.
  - rewrite lookup_nil in Ha. discriminate.
  - destruct j as [|j]; [lia|]. cbn in Hb. destruct i as [|i].
    + cbn in Ha. injection Ha as <-. rewrite Forall_forall in Hall.
      apply Hall. eapply list_elem_of_lookup_2, Hb.
    + cbn in Ha. apply (IH i j); [lia|assumption|assumption].
Qed.

Lemma to_canonical_order_aligned (hash : string -> Z) (S : Sacc.t) :
  aligned_by_index S ->
  Sacc.to_canonical_order hash S
  = match Sacc.sorted_enumerate (map (Sacc.order_key hash) (Sacc.data S)) with
    | Ok s => (restricted_to (map fst s) S, Ok tt)
    | Raise e => (S, Raise e)
    end.
Proof.
  intros Ha. unfold Sacc.to_canonical_order, mbind, Sacc.method_bind, Sacc.self_, Sacc.lift.
  destruct (Sacc.sorted_enumerate _) as [s|e] eqn:Es; [|reflexivity].
  rewrite reorder_aligned by exact Ha. cbn [Sacc.idx_items].
  destruct (sorted_enumerate_Ok _ _ Es) as (Hp & _). rewrite length_map in Hp.
  rewrite <- (map_map fst Z.of_nat). fold (Sacc.int_array (map fst s)).
  rewrite mapM_py_index_in_range by (apply perm_seq_bound, Hp). reflexivity.
Qed.

Lemma keys_of_sorted (hash : string -> Z) (ds : list DataPoint.t)
    (s : list (nat * Sacc.key)) :
  Sacc.sorted_enumerate (map (Sacc.order_key hash) ds) = Ok s ->
  map (Sacc.order_key hash) (gather DataPoint.dummy ds (map fst s)) = map snd s.
Proof.
  intros Es. destruct (sorted_enumerate_Ok _ _ Es) as (Hp & Hk & _).
  rewrite length_map in Hp. rewrite Hk. unfold gather. rewrite map_map.
  apply map_ext_in. intros j Hj. apply list_elem_of_In in Hj.
  pose proof (perm_seq_bound _ _ Hp) as Hb. rewrite Forall_forall in Hb.
  specialize (Hb _ Hj).
  rewrite (nth_indep _ _ (Sacc.order_key hash DataPoint.dummy))
    by (rewrite length_map; exact Hb).
  symmetry. apply map_nth.
Qed.

Lemma sorted_keys_in_order (hash : string -> Z) (ds : list DataPoint.t) :
  (forall k1 k2, k1 ∈ map (Sacc.order_key hash) ds -> k2 ∈ map (Sacc.order_key hash) ds ->
     Sacc.comparable k1 k2 = true) ->
  Sorted not_after (map (Sacc.order_key hash) ds) ->
  in_canonical_order hash ds.
Proof.
  intros Hc Hs i j a b Hij Ha Hb.
  assert (Hka : map (Sacc.order_key hash) ds !! i = Some (Sacc.order_key hash a)).
  { change (map ?f ?l) with (f <$> l). rewrite list_lookup_fmap, Ha. reflexivity. }
  assert (Hkb : map (Sacc.order_key hash) ds !! j = Some (Sacc.order_key hash b)).
  { change (map ?f ?l) with (f <$> l). rewrite list_lookup_fmap, Hb. reflexivity. }
  pose proof (StronglySorted_lookup _ _ _ _ _
                (Sorted_StronglySorted_comparable _ Hc Hs) Hij Hka Hkb) as Hna.
  assert (Hcmp : Sacc.comparable (Sacc.order_key hash b) (Sacc.order_key hash a) = true).
  { apply Hc; eapply list_elem_of_lookup_2; eassumption. }
  unfold not_after, Sacc.key_ltb in Hna. unfold Sacc.comparable in Hcmp.
  destruct (Sacc.key_lt (Sacc.order_key hash b) (Sacc.order_key hash a)) as [[]|];
    cbn in *; congruence.
Qed.

(** X20.  On a data set aligned by index whose float tags are numbers (no
    NaN, which the floats of the embedding cannot be), when
    [to_canonical_order] returns the records are a permutation of the
    records before, no record comes before one with a smaller key (position
    of the data type in [allowed_types] or its hash, then tracers, then
    [ell] or [theta] or 0.0), and the data set is still aligned. *)
Theorem canonical_order_sorts (hash : string -> Z) (S S' : Sacc.t) :
  aligned_by_index S ->
  Sacc.to_canonical_order hash S = (S', Ok tt) ->
  Sacc.data S' ≡ₚ Sacc.data S
  /\ in_canonical_order hash (Sacc.data S')
  /\ aligned_by_index S'.
Proof.
  intros Ha. rewrite to_canonical_order_aligned by exact Ha.
  destruct (Sacc.sorted_enumerate _) as [s|e] eqn:Es; [|discriminate].
  intros [= <-]. destruct (sorted_enumerate_Ok _ _ Es) as (Hp & _ & Hs & Hks & Hc).
  rewrite length_map in Hp. split; [|split].
  - apply gather_perm, Hp.
  - cbn [restricted_to Sacc.data]. apply sorted_keys_in_order.
    + rewrite (keys_of_sorted _ _ _ Es). intros k1 k2 H1 H2.
      rewrite Hks in H1, H2. apply Hc; assumption.
    + rewrite (keys_of_sorted _ _ _ Es). exact Hs.
  - apply restricted_to_aligned, Ha.
Qed.

Lemma canonical_order_sorts_witness :
  Sacc.data (fst (Sacc.to_canonical_order hash0 S_shuffled)) ≡ₚ Sacc.data S_shuffled
  /\ in_canonical_order hash0 (Sacc.data (fst (Sacc.to_canonical_order hash0 S_shuffled)))
  /\ aligned_by_index (fst (Sacc.to_canonical_order hash0 S_shuffled)).
Proof.
  apply (canonical_order_sorts hash0 S_shuffled).
  - vm_compute. auto.
  - vm_compute. reflexivity.
Defined.

Lemma gather_rows_again (R : list (list Q)) (k : nat) :
  Forall (fun r => length r = k) R ->
  map (fun r => gather 0%Q r (seq 0 k)) R = R.
Proof.
  induction 1 as [|r R Hr _ IH]; [reflexivity|].
  cbn [map]. rewrite IH. f_equal. rewrite <- Hr. apply gather_identity.
Qed.

Lemma restricted_to_identity (S : Sacc.t) (js : list nat) :
  aligned_by_index S ->
  restricted_to (seq 0 (length js)) (restricted_to js S) = restricted_to js S.
Proof.
  intros Ha. unfold restricted_to at 1. cbn [Sacc.data Sacc.tracers Sacc.metadata
    Sacc.covariance restricted_to].
  rewrite <- (gather_length DataPoint.dummy (Sacc.data S) js) at 1.
  rewrite gather_identity. unfold restricted_to. f_equal.
  unfold aligned_by_index in Ha.
  destruct (Sacc.covariance S) as [[c|b|d]|]; cbn in *; try reflexivity.
  - rewrite length_seq.
    set (R := map (fun r => gather 0%Q r js) (gather [] (np.rows (FullCovariance.covmat c)) js)).
    assert (HR : length R = length js)
      by (unfold R; rewrite length_map; apply gather_length).
    replace (gather [] R (seq 0 (length js))) with R
      by (rewrite <- HR; symmetry; apply gather_identity).
    rewrite gather_rows_again; [reflexivity|].
    unfold R. apply Forall_forall. intros r Hr.
    apply list_elem_of_In, in_map_iff in Hr. destruct Hr as (r0 & <- & _).
    apply gather_length.
  - replace (gather 0%Q (gather 0%Q (DiagonalCovariance.diag d) js) (seq 0 (length js)))
      with (gather 0%Q (DiagonalCovariance.diag d) js); [reflexivity|].
    rewrite <- (gather_length 0%Q (DiagonalCovariance.diag d) js).
    symmetry. apply gather_identity.
Qed.

(** X21.  [to_canonical_order] is idempotent: when it returns on a data
    set aligned by index, calling it again returns and changes nothing. *)
Theorem canonical_order_is_idempotent (hash : string -> Z) (S S' : Sacc.t) :
  aligned_by_index S ->
  Sacc.to_canonical_order hash S = (S', Ok tt) ->
  Sacc.to_canonical_order hash S' = (S', Ok tt).
Proof.
  intros Ha H. pose proof H as H0. rewrite to_canonical_order_aligned in H0 by exact Ha.
  destruct (Sacc.sorted_enumerate _) as [s|e] eqn:Es; [|discriminate].
  injection H0 as <-. destruct (sorted_enumerate_Ok _ _ Es) as (Hp & _ & Hs & Hks & Hc).
  rewrite to_canonical_order_aligned by (apply restricted_to_aligned, Ha).
  cbn [restricted_to Sacc.data]. rewrite (keys_of_sorted _ _ _ Es).
  rewrite sorted_enumerate_of_sorted; [|
    intros k1 k2 H1 H2; rewrite Hks in H1, H2; apply Hc; assumption | exact Hs].
  change (map fst ?l) with (fst <$> l) at 1.
  rewrite fst_zip by (rewrite length_seq; reflexivity).
  rewrite !length_map. rewrite <- (length_map fst s).
  rewrite restricted_to_identity by exact Ha. reflexivity.
Qed.

Lemma canonical_order_is_idempotent_witness :
  Sacc.to_canonical_order hash0 (fst (Sacc.to_canonical_order hash0 S_shuffled))
  = (fst (Sacc.to_canonical_order hash0 S_shuffled), Ok tt).
Proof.
  apply (canonical_order_is_idempotent hash0 S_shuffled).
  - vm_compute. auto.
  - vm_compute. reflexivity.
Defined.

(** X22.  [to_canonical_order], and with it [save], which starts by
    calling it, never returns on a data set with a block-diagonal
    covariance: it hands [reorder] a Python list, of which
    [BlockDiagonalCovariance.masked] reads [dtype].  The covariance is left
    as it was. *)
Theorem canonical_order_block_diagonal_never_returns (hash : string -> Z) (S : Sacc.t)
    (b : BlockDiagonalCovariance.t) :
  Sacc.covariance S = Some (Block b) ->
  raised (snd (Sacc.to_canonical_order hash S)) = true
  /\ Sacc.covariance (fst (Sacc.to_canonical_order hash S)) = Some (Block b).
Proof.
  intros Hc. unfold Sacc.to_canonical_order, mbind, Sacc.method_bind, Sacc.self_, Sacc.lift.
  destruct (Sacc.sorted_enumerate _) as [s|e]; [|cbn; auto].
  unfold Sacc.reorder, mbind, Sacc.method_bind, Sacc.self_, Sacc.lift.
  destruct (Sacc.data_at _ _); [|cbn; auto].
  unfold Sacc.set_data. rewrite Hc. cbn. auto.
Qed.

Lemma canonical_order_block_diagonal_never_returns_witness :
  raised (snd (Sacc.to_canonical_order hash0 S_block)) = true
  /\ Sacc.covariance (fst (Sacc.to_canonical_order hash0 S_block)) = Some (Block two_blocks).
Proof.
  apply (canonical_order_block_diagonal_never_returns hash0 S_block two_blocks).
  reflexivity.
Defined.

(** ** Blocks of the dense class, dictionaries *)

(** X23.  On a dense covariance of [n] rows and columns, [get_block] with
    indices within [n] returns the matrix whose entry [(a, b)] is the entry
    at the [a]-th and [b]-th indices given, and [masked] returns the
    [FullCovariance] of that same matrix. *)
Theorem full_get_block_entries (c : FullCovariance.t) (sel : np.selector)
    (js : list nat) (n : nat) :
  np.nrows (FullCovariance.covmat c) = n ->
  np.ncols (FullCovariance.covmat c) = n ->
  np.positions n sel = Ok js ->
  exists B,
    FullCovariance.get_block c sel = Ok B
    /\ FullCovariance.masked c sel = Ok (FullCovariance.init B)
    /\ np.nrows B = length js /\ np.ncols B = length js
    /\ forall a b, a < length js -> b < length js ->
         np.entry B a b = np.entry (FullCovariance.covmat c) (nth a js 0) (nth b js 0).
Proof.
  intros Hr Hc Hp.
  unfold FullCovariance.masked, FullCovariance.get_block, np.getitem_rows_cols,
    np.getitem_rows, np.getitem_cols.
  rewrite Hr, Hp. cbn [mbind result_bind np.ncols]. rewrite Hc, Hp.
  cbn [mbind result_bind np.rows]. eexists. split; [reflexivity|]. split; [reflexivity|].
  unfold np.nrows. cbn [np.rows np.ncols]. rewrite length_map, gather_length.
  split; [reflexivity|]. split; [reflexivity|]. intros a b Hla Hlb.
  unfold np.entry. cbn [np.rows].
  rewrite (nth_indep _ [] (gather 0%Q [] js))
    by (rewrite length_map, gather_length; exact Hla).
  rewrite (map_nth (fun r => gather 0%Q r js)).
  rewrite (nth_gather 0%Q _ js b Hlb), (nth_gather [] _ js a Hla). reflexivity.
Qed.

Lemma full_get_block_entries_witness :
  exists B,
    FullCovariance.get_block full3 (np.SelList [2; 0]%Z) = Ok B
    /\ FullCovariance.masked full3 (np.SelList [2; 0]%Z) = Ok (FullCovariance.init B)
    /\ np.nrows B = length [2; 0] /\ np.ncols B = length [2; 0]
    /\ forall a b, a < length [2; 0] -> b < length [2; 0] ->
         np.entry B a b = np.entry (FullCovariance.covmat full3) (nth a [2; 0] 0) (nth b [2; 0] 0).
Proof.
  apply (full_get_block_entries full3 (np.SelList [2; 0]%Z) [2; 0] 3); reflexivity.
Defined.

(** X29.  [from_dict] of the block-diagonal class rebuilds from the
    dictionary of [to_dict] the covariance of the same blocks. *)
Theorem block_dict_round_trip (blocks : list np.ndarray2) :
  BlockDiagonalCovariance.from_dict
    (BlockDiagonalCovariance.to_dict (BlockDiagonalCovariance.init blocks))
  = Ok (Some (BlockDiagonalCovariance.init blocks)).
Proof.
  unfold BlockDiagonalCovariance.from_dict, BlockDiagonalCovariance.to_dict, dict_get.
  rewrite lookup_insert_eq. reflexivity.
Qed.

(** X30.  [from_dict] of the dense class and of the diagonal class raise
    [KeyError] on the dictionary that [to_dict] of any of the three classes
    writes: they read the keys [covmat] and [diag], while [to_dict] writes
    [cov] and [blocks]. *)
Theorem full_and_diagonal_dict_keys_mismatch (c : Covariance) :
  FullCovariance.from_dict (BaseCovariance.to_dict c) = Raise (KeyError "covmat")
  /\ DiagonalCovariance.from_dict (BaseCovariance.to_dict c) = Raise (KeyError "diag").
Proof.
  unfold FullCovariance.from_dict, DiagonalCovariance.from_dict, dict_get.
  destruct c as [c|b|d]; cbn [BaseCovariance.to_dict];
    unfold FullCovariance.to_dict, BlockDiagonalCovariance.to_dict,
      DiagonalCovariance.to_dict;
    rewrite !lookup_insert_ne, !lookup_empty by discriminate; auto.
Qed.

Lemma block_from_fits_reads_blocks_witness :
  BlockDiagonalCovariance.from_fits hdu_two_blocks = Ok two_blocks.
Proof.
  apply (block_from_fits_reads_blocks [mat [[4%Q]]; mat [[9%Q]]] hdu_two_blocks).
  - repeat constructor.
  - reflexivity.
  - vm_compute. reflexivity.
  - intros [|[|i]] b H; cbn in H; try discriminate; injection H as <-;
      vm_compute; reflexivity.
Defined.

Lemma reorder_identity_plain_witness :
  Sacc.reorder (Sacc.IdxArray (identity_indices 3)) S_full3 = (S_full3, Ok tt).
Proof.
  apply (reorder_identity_plain S_full3 (Sacc.IdxArray (identity_indices 3))).
  - vm_compute. auto.
  - vm_compute. repeat constructor.
  - reflexivity.
Defined.

Lemma covariance_seals_the_data_witness :
  Sacc.add_data_point "shear_ee" (PyTuple ["A"; "B"]) 1%Q true ∅ S_full3
  = (S_full3, Raise (ValueError "You cannot add a data point after setting the covariance")).
Proof.
  apply (covariance_seals_the_data S_plain S_full3
           (BaseCovariance.CovMatrix (mat [[1; 2; 3]; [4; 5; 6]; [7; 8; 9]]%Q))).
  reflexivity.
Defined.
